(** * simple_calculator.py: the safe evaluation core, embedded and verified

    The development follows [src/Python/simple_calculator.py]:

    - [F64]: IEEE-754 binary64 values ([spec_float]) and the exact helpers
      the Python runtime needs (conversion from integers and decimal
      literals, truncation, C's [fmod]);
    - [Py]: the part of the Python 3 runtime the calculator runs on
      (exceptions, [float] and [complex] arithmetic as CPython's
      floatobject.c and complexobject.c implement it, the [math] module,
      [str.format] for floats); the reference is CPython 3.11;
    - [Ast]: the node classes of Python's [ast] module and a parser for
      the expression grammar of [ast.parse(_, mode="eval")];
    - [safe_eval], [evaluate_expression], [format_result]: the three
      functions of the source, definition by definition;
    - [repl], [run_tests], [main]: the program around them, over a trace
      of what it prints and reads; [main] starts from the parsed command
      line;
    - the theorems about them. *)

From Stdlib Require Import ZArith String Ascii List Bool Lia DecimalString
  DecimalPos
  Floats.SpecFloat.
From stdpp Require Import base gmap strings sorting.
Import ListNotations.

Set Warnings "-register-all".
Local Open Scope Z_scope.

(** ** Binary64 *)

Module F64.

Definition prec : Z := 53.
Definition emax : Z := 1024.

Definition float : Type := spec_float.

Definition add : float -> float -> float := SFadd prec emax.
Definition sub : float -> float -> float := SFsub prec emax.
Definition mul : float -> float -> float := SFmul prec emax.
Definition div : float -> float -> float := SFdiv prec emax.
Definition sqrt : float -> float := SFsqrt prec emax.
Definition opp : float -> float := SFopp.
Definition abs : float -> float := SFabs.

(** C's comparison operators: every comparison with a NaN is false,
    so [x != y] is [negb (eqb x y)]. *)
Definition eqb : float -> float -> bool := SFeqb.
Definition ltb : float -> float -> bool := SFltb.
Definition leb : float -> float -> bool := SFleb.
Definition gtb (x y : float) : bool := SFltb y x.
Definition neb (x y : float) : bool := negb (SFeqb x y).

Definition zero : float := S754_zero false.
Definition nan : float := S754_nan.
Definition infinity : float := S754_infinity false.

Definition is_nan (x : float) : bool :=
  match x with S754_nan => true | _ => false end.
Definition is_inf (x : float) : bool :=
  match x with S754_infinity _ => true | _ => false end.
Definition is_finite (x : float) : bool :=
  match x with S754_zero _ | S754_finite _ _ _ => true | _ => false end.
Definition is_zero (x : float) : bool :=
  match x with S754_zero _ => true | _ => false end.

(** The sign bit; a NaN carries none in this representation. *)
Definition signbit (x : float) : bool :=
  match x with
  | S754_zero s | S754_infinity s | S754_finite s _ _ => s
  | S754_nan => false
  end.

(** [copysign(0.0, y)] and [copysign(1.0, y)]-style sign transfer. *)
Definition copysign (x y : float) : float :=
  if Bool.eqb (signbit x) (signbit y) then x else SFopp x.

(** The integer [n] rounded to the nearest double (ties to even);
    an infinity when [n] is beyond the range. *)
Definition of_Z (n : Z) : float := binary_normalize prec emax n 0 false.

(** The decimal literal [n * 10^e10] ([n >= 0]) rounded to the nearest
    double, as C's [strtod] does: an integer is rounded directly, a
    fraction is the correctly rounded quotient of two integers. *)
Definition of_decimal (n e10 : Z) : float :=
  match n with
  | Z0 => zero
  | Zpos p =>
      if 0 <=? e10 then of_Z (n * 10 ^ e10)
      else SFdiv prec emax (S754_finite false p 0)
                           (S754_finite false (Z.to_pos (10 ^ (- e10))) 0)
  | Zneg _ => nan
  end.

Definition one : float := of_Z 1.
Definition half : float := of_decimal 5 (-1).

(** The integer part of a finite double, towards zero, and whether a
    fraction was dropped. *)
Definition trunc_parts (m : positive) (e : Z) : Z * bool :=
  if 0 <=? e then (Zpos m * 2 ^ e, false)
  else (Zpos m / 2 ^ (- e), negb (Zpos m mod 2 ^ (- e) =? 0)).

(** [None] for NaN and the infinities (no integer to convert to). *)
Definition trunc_Z (x : float) : option Z :=
  match x with
  | S754_zero _ => Some 0
  | S754_finite s m e => Some (cond_Zopp s (fst (trunc_parts m e)))
  | _ => None
  end.

Definition floor_Z (x : float) : option Z :=
  match x with
  | S754_zero _ => Some 0
  | S754_finite s m e =>
      let '(q, inexact) := trunc_parts m e in
      Some (if s then - (if inexact then q + 1 else q) else q)
  | _ => None
  end.

Definition ceil_Z (x : float) : option Z :=
  match x with
  | S754_zero _ => Some 0
  | S754_finite s m e =>
      let '(q, inexact) := trunc_parts m e in
      Some (if s then - q else (if inexact then q + 1 else q))
  | _ => None
  end.

(** C's [floor] and [round] (half away from zero) as doubles: zeros,
    infinities and NaN are returned unchanged, a zero result keeps the
    sign of the argument. *)
Definition c_floor (x : float) : float :=
  match floor_Z x with
  | Some n => if n =? 0 then S754_zero (signbit x) else of_Z n
  | None => x
  end.

Definition c_round (x : float) : float :=
  match x with
  | S754_finite s m e =>
      let '(q, _) := trunc_parts m e in
      (* the fraction is at least one half iff twice the value, truncated,
         is odd *)
      let twice := fst (trunc_parts m (e + 1)) in
      let n := if Z.odd twice then q + 1 else q in
      if n =? 0 then S754_zero s else of_Z (cond_Zopp s n)
  | _ => x
  end.

(** The canonical double of value [m * 2^e], when [m] fits the
    precision and [e] is not below the least exponent: the mantissa is
    shifted left as far as both allow. *)
Definition canonical (s : bool) (m : positive) (e : Z) : float :=
  let k := Z.max 0 (Z.min (prec - Z.log2 (Zpos m) - 1) (e - emin prec emax)) in
  S754_finite s (Z.to_pos (Zpos m * 2 ^ k)) (e - k).

(** C's [fmod]: [x - n*y] for the integer [n] obtained by truncating
    [x / y]; the operation is exact, the result has the sign of [x] and
    a magnitude below that of [y]. *)
Definition fmod (x y : float) : float :=
  match x, y with
  | S754_nan, _ | _, S754_nan => S754_nan
  | S754_infinity _, _ => S754_nan
  | _, S754_zero _ => S754_nan
  | S754_zero _, _ => x
  | S754_finite _ _ _, S754_infinity _ => x
  | S754_finite sx mx ex, S754_finite _ my ey =>
      let e := Z.min ex ey in
      let r := (Zpos mx * 2 ^ (ex - e)) mod (Zpos my * 2 ^ (ey - e)) in
      match r with
      | Zpos p => canonical sx p e
      | _ => S754_zero sx
      end
  end.

(** [DOUBLE_IS_ODD_INTEGER] of floatobject.c:
    [fmod(fabs(x), 2.0) == 1.0]. *)
Definition is_odd_integer (x : float) : bool :=
  eqb (fmod (abs x) (of_Z 2)) one.

(** The value of a finite double as a fraction [num / den], [den > 0]. *)
Definition to_fraction (m : positive) (e : Z) : Z * Z :=
  if 0 <=? e then (Zpos m * 2 ^ e, 1) else (Zpos m, 2 ^ (- e)).

End F64.

(** ** The Python runtime the calculator runs on *)

Module Py.

Local Open Scope string_scope.

Definition float : Type := F64.float.

(** *** Exceptions and results *)

(** The exception classes that can occur; all derive from [Exception].
    [EvalError] is the calculator's own class, [IndentationError] is a
    subclass of [SyntaxError]. *)
Inductive exc_type : Type :=
| EvalError
| SyntaxError
| IndentationError
| ZeroDivisionError
| OverflowError
| ValueError
| TypeError
| AttributeError
| IndexError.

Definition exc_type_eqb (a b : exc_type) : bool :=
  match a, b with
  | EvalError, EvalError | SyntaxError, SyntaxError
  | IndentationError, IndentationError
  | ZeroDivisionError, ZeroDivisionError | OverflowError, OverflowError
  | ValueError, ValueError | TypeError, TypeError
  | AttributeError, AttributeError | IndexError, IndexError => true
  | _, _ => false
  end.

(** [issubclass a b] on these classes. *)
Definition issubclass (a b : exc_type) : bool :=
  exc_type_eqb a b ||
  match a, b with IndentationError, SyntaxError => true | _, _ => false end.

(** An exception object: its class and [str(e)]. *)
Record exception : Type := Exc { exc_class : exc_type; exc_str : string }.

Inductive result (A : Type) : Type :=
| Return (a : A)
| Raise (e : exception).
Arguments Return {A} a.
Arguments Raise {A} e.

Definition bind {A B : Type} (r : result A) (k : A -> result B) : result B :=
  match r with
  | Return a => k a
  | Raise e => Raise e
  end.

Definition raise {A : Type} (c : exc_type) (msg : string) : result A :=
  Raise (Exc c msg).

(** [try: body except (c1, ..., cn) as e: handler(e)]. *)
Definition try_except {A : Type} (body : result A) (classes : list exc_type)
    (handler : exception -> result A) : result A :=
  match body with
  | Return a => Return a
  | Raise e =>
      if existsb (issubclass (exc_class e)) classes then handler e
      else Raise e
  end.

(** Every class above derives from [Exception]. *)
Definition Exception : list exc_type :=
  [EvalError; SyntaxError; IndentationError; ZeroDivisionError;
   OverflowError; ValueError; TypeError; AttributeError; IndexError].

#[global] Instance result_ret : MRet result := @Return.
#[global] Instance result_bind : MBind result := fun A B k r => bind r k.

(** *** Numbers *)

(** The numbers an evaluation can produce: a [float], or the [complex]
    that [**] returns for a negative base and a fractional exponent. *)
Inductive value : Type :=
| VFloat (x : float)
| VComplex (re im : float).

Definition type_name (v : value) : string :=
  match v with VFloat _ => "float" | VComplex _ _ => "complex" end.

Definition is_float (v : value) : bool :=
  match v with VFloat _ => true | VComplex _ _ => false end.

(** [str(n)] for an [int]. *)
Definition str_int (n : Z) : string :=
  DecimalString.NilZero.string_of_int (Z.to_int n).

(** The decimal digit [d] put before the digits [u], which are in the
    order of the conversion: the least significant first. *)
Definition digit_cons (d : nat) (u : Decimal.uint) : Decimal.uint :=
  match d with
  | 0 => Decimal.D0 u | 1 => Decimal.D1 u | 2 => Decimal.D2 u
  | 3 => Decimal.D3 u | 4 => Decimal.D4 u | 5 => Decimal.D5 u
  | 6 => Decimal.D6 u | 7 => Decimal.D7 u | 8 => Decimal.D8 u
  | _ => Decimal.D9 u
  end%nat.

(** [float(n)] for an [int] (PyLong_AsDouble). *)
Definition float_of_int (n : Z) : result float :=
  let x := F64.of_Z n in
  if F64.is_inf x then raise OverflowError "int too large to convert to float"
  else Return x.

(** [int(x)] and every other conversion of a [float] to an [int]
    (PyLong_FromDouble), after [round_to_integral] has made [x] integral. *)
Definition int_of_float (x : float) : result Z :=
  match F64.trunc_Z x with
  | Some n => Return n
  | None =>
      if F64.is_nan x
      then raise ValueError "cannot convert float NaN to integer"
      else raise OverflowError "cannot convert float infinity to integer"
  end.

(** *** The C library *)

(** What a C library call leaves in [errno]. *)
Inductive errno : Type := ENONE | EDOM | ERANGE.

(** The transcendental functions of libm that the calculator can reach. *)
Inductive cfun1 : Type :=
| c_sin | c_cos | c_tan | c_asin | c_acos | c_atan
| c_sinh | c_cosh | c_tanh | c_exp | c_log | c_log10.

(** The platform's C library: each call yields a double and an [errno].
    These functions are not correctly rounded on any platform, so their
    values are a parameter of the model. [libm_cpow] is the pair
    [c_powi]/[_Py_c_pow] of complexobject.c, which computes a complex power
    from [hypot], [pow], [atan2], [exp], [log], [cos] and [sin]. *)
Record Libm : Type := {
  libm1 : cfun1 -> float -> float * errno;
  libm_pow : float -> float -> float * errno;
  libm_hypot : float -> float -> float;
  libm_cpow : float * float -> float * float -> (float * float) * errno
}.

(** A C double used as a condition: true unless it equals zero. *)
Definition c_truth (x : float) : bool := F64.neb x F64.zero.

(** *** floatobject.c *)

Definition float_div (a b : float) : result value :=
  if F64.eqb b F64.zero
  then raise ZeroDivisionError "float division by zero"
  else Return (VFloat (F64.div a b)).

(** [float_rem]: C's [fmod], then the remainder is given the sign of the
    divisor. *)
Definition float_rem (vx wx : float) : result value :=
  if F64.eqb wx F64.zero
  then raise ZeroDivisionError "float modulo"
  else
    let mod_ := F64.fmod vx wx in
    Return (VFloat
      (if c_truth mod_
       then
         if negb (Bool.eqb (F64.ltb wx F64.zero) (F64.ltb mod_ F64.zero))
         then F64.add mod_ wx
         else mod_
       else F64.copysign F64.zero wx)).

(** [float_floor_div], through [_float_div_mod]. *)
Definition float_floor_div (vx wx : float) : result value :=
  if F64.eqb wx F64.zero
  then raise ZeroDivisionError "float floor division by zero"
  else
    let mod_ := F64.fmod vx wx in
    let div0 := F64.div (F64.sub vx mod_) wx in
    let div :=
      if c_truth mod_ &&
         negb (Bool.eqb (F64.ltb wx F64.zero) (F64.ltb mod_ F64.zero))
      then F64.sub div0 F64.one
      else div0 in
    Return (VFloat
      (if c_truth div
       then
         let floordiv := F64.c_floor div in
         if F64.gtb (F64.sub div floordiv) F64.half
         then F64.add floordiv F64.one
         else floordiv
       else F64.copysign F64.zero (F64.div vx wx))).

(** [_Py_ADJUST_ERANGE1] and [_Py_ADJUST_ERANGE2]: an infinite result is a
    range error, a range error on a zero result (underflow) is none. *)
Definition adjust_erange1 (x : float) (err : errno) : errno :=
  match err with
  | ENONE => if F64.is_inf x then ERANGE else ENONE
  | ERANGE => if F64.eqb x F64.zero then ENONE else ERANGE
  | EDOM => EDOM
  end.

Definition adjust_erange2 (x y : float) (err : errno) : errno :=
  if F64.is_inf x || F64.is_inf y
  then match err with ENONE => ERANGE | _ => err end
  else match err with ERANGE => ENONE | _ => err end.

(** [complex_pow], after the operands were converted to [complex]. *)
Definition complex_pow (m : Libm) (a b : float * float) : result value :=
  let '((re, im), err) := libm_cpow m a b in
  match adjust_erange2 re im err with
  | EDOM => raise ZeroDivisionError "0.0 to a negative or complex power"
  | ERANGE => raise OverflowError "complex exponentiation"
  | ENONE => Return (VComplex re im)
  end.

(** [float_pow]: the special cases are sorted out first, a negative base
    with a fractional exponent is handed to [complex_pow], and the
    platform's [pow] does the rest. *)
Definition float_pow (m : Libm) (iv iw : float) : result value :=
  if F64.eqb iw F64.zero then Return (VFloat F64.one)
  else if F64.is_nan iv then Return (VFloat iv)
  else if F64.is_nan iw
  then Return (VFloat (if F64.eqb iv F64.one then F64.one else iw))
  else if F64.is_inf iw then
    let av := F64.abs iv in
    if F64.eqb av F64.one then Return (VFloat F64.one)
    else if Bool.eqb (F64.gtb iw F64.zero) (F64.gtb av F64.one)
    then Return (VFloat (F64.abs iw))
    else Return (VFloat F64.zero)
  else if F64.is_inf iv then
    let iw_is_odd := F64.is_odd_integer iw in
    if F64.gtb iw F64.zero
    then Return (VFloat (if iw_is_odd then iv else F64.abs iv))
    else Return (VFloat (if iw_is_odd then F64.copysign F64.zero iv
                         else F64.zero))
  else if F64.eqb iv F64.zero then
    if F64.ltb iw F64.zero
    then raise ZeroDivisionError "0.0 cannot be raised to a negative power"
    else Return (VFloat (if F64.is_odd_integer iw then iv else F64.zero))
  else if F64.ltb iv F64.zero && F64.neb iw (F64.c_floor iw)
  then complex_pow m (iv, F64.zero) (iw, F64.zero)
  else
    let negative := F64.ltb iv F64.zero in
    let iv := if negative then F64.opp iv else iv in
    let negate_result := negative && F64.is_odd_integer iw in
    if F64.eqb iv F64.one
    then Return (VFloat (if negate_result then F64.opp F64.one else F64.one))
    else
      let '(ix, err) := libm_pow m iv iw in
      let ix' := if negate_result then F64.opp ix else ix in
      match adjust_erange1 ix err with
      | ENONE => Return (VFloat ix')
      | ERANGE => raise OverflowError "(34, 'Numerical result out of range')"
      | EDOM => raise ValueError "(33, 'Numerical argument out of domain')"
      end.

(** *** complexobject.c *)

Definition as_complex (v : value) : float * float :=
  match v with
  | VFloat x => (x, F64.zero)
  | VComplex re im => (re, im)
  end.

Definition c_sum (a b : float * float) : value :=
  VComplex (F64.add (fst a) (fst b)) (F64.add (snd a) (snd b)).

Definition c_diff (a b : float * float) : value :=
  VComplex (F64.sub (fst a) (fst b)) (F64.sub (snd a) (snd b)).

Definition c_prod (a b : float * float) : value :=
  VComplex (F64.sub (F64.mul (fst a) (fst b)) (F64.mul (snd a) (snd b)))
           (F64.add (F64.mul (fst a) (snd b)) (F64.mul (snd a) (fst b))).

(** [_Py_c_quot] and the [ZeroDivisionError] of [complex_div]. *)
Definition complex_div (a b : float * float) : result value :=
  let abs_breal := if F64.ltb (fst b) F64.zero then F64.opp (fst b) else fst b in
  let abs_bimag := if F64.ltb (snd b) F64.zero then F64.opp (snd b) else snd b in
  if F64.leb abs_bimag abs_breal then
    if F64.eqb abs_breal F64.zero
    then raise ZeroDivisionError "complex division by zero"
    else
      let ratio := F64.div (snd b) (fst b) in
      let denom := F64.add (fst b) (F64.mul (snd b) ratio) in
      Return (VComplex
        (F64.div (F64.add (fst a) (F64.mul (snd a) ratio)) denom)
        (F64.div (F64.sub (snd a) (F64.mul (fst a) ratio)) denom))
  else if F64.leb abs_breal abs_bimag then
    let ratio := F64.div (fst b) (snd b) in
    let denom := F64.add (F64.mul (fst b) ratio) (snd b) in
    Return (VComplex
      (F64.div (F64.add (F64.mul (fst a) ratio) (snd a)) denom)
      (F64.div (F64.sub (F64.mul (snd a) ratio) (fst a)) denom))
  else Return (VComplex F64.nan F64.nan).

(** [complex_abs]: [hypot], with the overflow reported. *)
Definition complex_abs (m : Libm) (re im : float) : result float :=
  if negb (F64.is_finite re && F64.is_finite im) then
    Return (if F64.is_inf re || F64.is_inf im then F64.infinity else F64.nan)
  else
    let r := libm_hypot m re im in
    if F64.is_finite r then Return r
    else raise OverflowError "absolute value too large".

(** *** The binary and unary operators on numbers *)

(** The [TypeError] of an operator no operand type implements. *)
Definition unsupported_operands (op : string) (a b : value) : result value :=
  raise TypeError ("unsupported operand type(s) for " ++ op ++ ": '" ++
                   type_name a ++ "' and '" ++ type_name b ++ "'").

Definition py_add (a b : value) : result value :=
  match a, b with
  | VFloat x, VFloat y => Return (VFloat (F64.add x y))
  | _, _ => Return (c_sum (as_complex a) (as_complex b))
  end.

Definition py_sub (a b : value) : result value :=
  match a, b with
  | VFloat x, VFloat y => Return (VFloat (F64.sub x y))
  | _, _ => Return (c_diff (as_complex a) (as_complex b))
  end.

Definition py_mul (a b : value) : result value :=
  match a, b with
  | VFloat x, VFloat y => Return (VFloat (F64.mul x y))
  | _, _ => Return (c_prod (as_complex a) (as_complex b))
  end.

Definition py_truediv (a b : value) : result value :=
  match a, b with
  | VFloat x, VFloat y => float_div x y
  | _, _ => complex_div (as_complex a) (as_complex b)
  end.

Definition py_mod (a b : value) : result value :=
  match a, b with
  | VFloat x, VFloat y => float_rem x y
  | _, _ => unsupported_operands "%" a b
  end.

Definition py_pow (m : Libm) (a b : value) : result value :=
  match a, b with
  | VFloat x, VFloat y => float_pow m x y
  | _, _ => complex_pow m (as_complex a) (as_complex b)
  end.

Definition py_floordiv (a b : value) : result value :=
  match a, b with
  | VFloat x, VFloat y => float_floor_div x y
  | _, _ => unsupported_operands "//" a b
  end.

Definition py_pos (a : value) : result value := Return a.

Definition py_neg (a : value) : result value :=
  match a with
  | VFloat x => Return (VFloat (F64.opp x))
  | VComplex re im => Return (VComplex (F64.opp re) (F64.opp im))
  end.

(** *** Builtins and the [math] module *)

(** What a builtin or a [math] function hands back: an [int] ([round],
    [math.ceil], [math.floor]) or a [float]. *)
Inductive number : Type :=
| Int (n : Z)
| Float (x : float).

(** [float(o)]. *)
Definition builtin_float (o : number) : result float :=
  match o with
  | Int n => float_of_int n
  | Float x => Return x
  end.

(** [PyFloat_AsDouble], the argument conversion of every [math] function. *)
Definition as_double (v : value) : result float :=
  match v with
  | VFloat x => Return x
  | VComplex _ _ => raise TypeError "must be real number, not complex"
  end.

(** [math_1] of mathmodule.c: call the C function and turn a NaN or an
    infinity that the argument does not explain into an exception. *)
Definition math_1 (func : float -> float * errno) (can_overflow : bool)
    (arg : value) : result number :=
  bind (as_double arg) (fun x =>
  let '(r, err) := func x in
  if F64.is_nan r && negb (F64.is_nan x)
  then raise ValueError "math domain error"
  else if F64.is_inf r && F64.is_finite x
  then if can_overflow then raise OverflowError "math range error"
       else raise ValueError "math domain error"
  else
    match err with
    | EDOM =>
        if F64.is_finite r then raise ValueError "math domain error"
        else Return (Float r)
    | ERANGE =>
        if F64.is_finite r && negb (F64.ltb (F64.abs r) (F64.of_decimal 15 (-1)))
        then raise OverflowError "math range error"
        else Return (Float r)
    | ENONE => Return (Float r)
    end).

(** C's [sqrt] is correctly rounded. *)
Definition c_sqrt (x : float) : float * errno :=
  (F64.sqrt x, if F64.ltb x F64.zero then EDOM else ENONE).

(** [m_log] and [m_log10]: the special values are fixed before libm is
    asked. *)
Definition m_log_with (m : Libm) (f : cfun1) (x : float) : float * errno :=
  if F64.is_finite x then
    if F64.gtb x F64.zero then libm1 m f x
    else if F64.eqb x F64.zero then (S754_infinity true, EDOM)
    else (F64.nan, EDOM)
  else if F64.is_nan x then (x, ENONE)
  else if F64.gtb x F64.zero then (x, ENONE)
  else (F64.nan, EDOM).

(** [math.pi] and the factors of [math.degrees] and [math.radians]. *)
Definition Py_MATH_PI : float := S754_finite false 7074237752028440 (-51).
Definition Py_MATH_E : float := S754_finite false 6121026514868073 (-51).
Definition Py_MATH_TAU : float := S754_finite false 7074237752028440 (-50).
Definition radToDeg : float := F64.div (F64.of_Z 180) Py_MATH_PI.
Definition degToRad : float := F64.div Py_MATH_PI (F64.of_Z 180).

(** A function that takes exactly one argument (METH_O). *)
Definition meth_o (name : string) (f : value -> result number)
    (args : list value) : result number :=
  match args with
  | [a] => f a
  | _ =>
      raise TypeError ("math." ++ name ++ "() takes exactly one argument (" ++
                       str_int (Z.of_nat (length args)) ++ " given)")
  end.

(** [math.ceil] and [math.floor] return an [int]. *)
Definition math_ceil (arg : value) : result number :=
  bind (as_double arg) (fun x =>
  match F64.ceil_Z x with
  | Some n => Return (Int n)
  | None => bind (int_of_float x) (fun n => Return (Int n))
  end).

Definition math_floor (arg : value) : result number :=
  bind (as_double arg) (fun x =>
  match F64.floor_Z x with
  | Some n => Return (Int n)
  | None => bind (int_of_float x) (fun n => Return (Int n))
  end).

Definition math_degrees (arg : value) : result number :=
  bind (as_double arg) (fun x => Return (Float (F64.mul x radToDeg))).

Definition math_radians (arg : value) : result number :=
  bind (as_double arg) (fun x => Return (Float (F64.mul x degToRad))).

(** [math.log(x[, base])]: one logarithm, or the quotient of two. *)
Definition math_log (m : Libm) (args : list value) : result number :=
  match args with
  | [x] => math_1 (m_log_with m c_log) false x
  | [x; base] =>
      bind (math_1 (m_log_with m c_log) false x) (fun num =>
      bind (math_1 (m_log_with m c_log) false base) (fun den =>
      match num, den with
      | Float n, Float d =>
          bind (float_div n d) (fun q =>
          match q with
          | VFloat r => Return (Float r)
          | VComplex _ _ => Return (Float F64.nan)
          end)
      | _, _ => Return num
      end))
  | _ => raise TypeError "math.log requires 1 to 2 arguments"
  end.

(** The attributes of the [math] module that the calculator can ask for
    (it only asks for names of its own table of allowed functions). *)
Definition math_dict (m : Libm)
    : list (string * (list value -> result number)) :=
  [ ("sqrt", meth_o "sqrt" (math_1 c_sqrt false));
    ("sin", meth_o "sin" (math_1 (libm1 m c_sin) false));
    ("cos", meth_o "cos" (math_1 (libm1 m c_cos) false));
    ("tan", meth_o "tan" (math_1 (libm1 m c_tan) false));
    ("log", math_log m);
    ("log10", meth_o "log10" (math_1 (m_log_with m c_log10) false));
    ("exp", meth_o "exp" (math_1 (libm1 m c_exp) true));
    ("ceil", meth_o "ceil" math_ceil);
    ("floor", meth_o "floor" math_floor);
    ("degrees", meth_o "degrees" math_degrees);
    ("radians", meth_o "radians" math_radians);
    ("asin", meth_o "asin" (math_1 (libm1 m c_asin) false));
    ("acos", meth_o "acos" (math_1 (libm1 m c_acos) false));
    ("atan", meth_o "atan" (math_1 (libm1 m c_atan) false));
    ("sinh", meth_o "sinh" (math_1 (libm1 m c_sinh) true));
    ("cosh", meth_o "cosh" (math_1 (libm1 m c_cosh) true));
    ("tanh", meth_o "tanh" (math_1 (libm1 m c_tanh) false)) ].

Fixpoint assoc {A : Type} (key : string) (l : list (string * A)) : option A :=
  match l with
  | [] => None
  | (k, a) :: l' => if String.eqb key k then Some a else assoc key l'
  end.

(** [getattr(math, name)]. *)
Definition math_getattr (m : Libm) (name : string)
    : result (list value -> result number) :=
  match assoc name (math_dict m) with
  | Some f => Return f
  | None =>
      raise AttributeError ("module 'math' has no attribute '" ++ name ++ "'")
  end.

(** [round(x)] with one argument: [float.__round__] rounds half to even
    and returns an [int]; [complex] has no [__round__]. *)
Definition builtin_round (v : value) : result number :=
  match v with
  | VFloat x =>
      let rounded := F64.c_round x in
      let rounded :=
        if F64.eqb (F64.abs (F64.sub x rounded)) F64.half
        then F64.mul (F64.of_Z 2) (F64.c_round (F64.div x (F64.of_Z 2)))
        else rounded in
      bind (int_of_float rounded) (fun n => Return (Int n))
  | VComplex _ _ =>
      raise TypeError "type complex doesn't define __round__ method"
  end.

(** [abs(x)]. *)
Definition builtin_abs (m : Libm) (v : value) : result number :=
  match v with
  | VFloat x => Return (Float (F64.abs x))
  | VComplex re im => bind (complex_abs m re im) (fun r => Return (Float r))
  end.

(** [l[0]]. *)
Definition index0 {A : Type} (l : list A) : result A :=
  match l with
  | a :: _ => Return a
  | [] => raise IndexError "list index out of range"
  end.

(** *** What is assumed of the platform's [pow] *)

(** [x ** y] for a positive double [x] and a positive integer [y], when
    the power is itself a double. *)
Definition exact_pow (x y : float) : option float :=
  match x, F64.trunc_Z y with
  | S754_finite false m e, Some n =>
      if Z.ltb 0 n && F64.eqb (F64.of_Z n) y then
        match binary_normalize F64.prec F64.emax (Zpos m ^ n) (e * n) false with
        | S754_finite false m' e' =>
            let e0 := Z.min e' (e * n) in
            if Z.eqb (Zpos m' * 2 ^ (e' - e0)) (Zpos m ^ n * 2 ^ (e * n - e0))
            then Some (S754_finite false m' e')
            else None
        | _ => None
        end
      else None
  | _, _ => None
  end.

(** A libm returns a power that is a double exactly, and sets no error:
    the error of [pow] is below one unit in the last place everywhere. *)
Definition pow_is_exact (m : Libm) : Prop :=
  forall x y r, exact_pow x y = Some r -> libm_pow m x y = (r, ENONE).

(** A C library that knows the exact powers and nothing else; it shows
    that [pow_is_exact] can be met. *)
Definition exact_powers_libm : Libm :=
  {| libm1 := fun _ _ => (F64.nan, EDOM);
     libm_pow := fun x y =>
       match exact_pow x y with
       | Some r => (r, ENONE)
       | None => (F64.nan, EDOM)
       end;
     libm_hypot := fun _ _ => F64.nan;
     libm_cpow := fun _ _ => ((F64.nan, F64.nan), EDOM) |}.

End Py.

(** ** Python's abstract syntax *)

(** The node classes of the [ast] module that an expression of the modelled
    grammar can contain. *)
Module Ast.

Local Open Scope string_scope.

(** The value of an [ast.Constant]. *)
Inductive constant : Type :=
| CInt (n : Z)
| CFloat (x : Py.float)
| CComplex (imag : Py.float)
| CBool (b : bool)
| CStr (s : string)
| CNone
| CEllipsis.

(** [type(value).__name__]. *)
Definition type_name (c : constant) : string :=
  match c with
  | CInt _ => "int"
  | CFloat _ => "float"
  | CComplex _ => "complex"
  | CBool _ => "bool"
  | CStr _ => "str"
  | CNone => "NoneType"
  | CEllipsis => "ellipsis"
  end.

Inductive operator : Type :=
| Add | Sub | Mult | MatMult | Div | Mod | Pow
| LShift | RShift | BitOr | BitXor | BitAnd | FloorDiv.

Inductive unaryop : Type := Invert | Not | UAdd | USub.

Inductive boolop : Type := And | Or.

Inductive cmpop : Type :=
| Eq | NotEq | Lt | LtE | Gt | GtE | Is | IsNot | In | NotIn.

(** [operator_name op] is [type(op).__name__]. *)
Definition operator_name (op : operator) : string :=
  match op with
  | Add => "Add" | Sub => "Sub" | Mult => "Mult" | MatMult => "MatMult"
  | Div => "Div" | Mod => "Mod" | Pow => "Pow" | LShift => "LShift"
  | RShift => "RShift" | BitOr => "BitOr" | BitXor => "BitXor"
  | BitAnd => "BitAnd" | FloorDiv => "FloorDiv"
  end.

Definition unaryop_name (op : unaryop) : string :=
  match op with
  | Invert => "Invert" | Not => "Not" | UAdd => "UAdd" | USub => "USub"
  end.

(** Expression nodes. A [Lambda] keeps the names of its parameters, a
    [Call] its positional arguments and its keywords. *)
Inductive expr : Type :=
| BoolOp (op : boolop) (values : list expr)
| NamedExpr (target value : expr)
| BinOp (left : expr) (op : operator) (right : expr)
| UnaryOp (op : unaryop) (operand : expr)
| Lambda (args : list string) (body : expr)
| IfExp (test body orelse : expr)
| Compare (left : expr) (ops : list cmpop) (comparators : list expr)
| Call (func : expr) (args : list expr) (keywords : list (string * expr))
| Constant (value : constant)
| Attribute (value : expr) (attr : string)
| Subscript (value slice : expr)
| Name (id : string)
| List_ (elts : list expr)
| Tuple (elts : list expr).

(** The root that [ast.parse(_, mode="eval")] returns, or any node below
    it. *)
Inductive AST : Type :=
| Expression (body : expr)
| Node (e : expr).

(** [node.__class__.__name__]. *)
Definition class_name (e : expr) : string :=
  match e with
  | BoolOp _ _ => "BoolOp" | NamedExpr _ _ => "NamedExpr"
  | BinOp _ _ _ => "BinOp" | UnaryOp _ _ => "UnaryOp"
  | Lambda _ _ => "Lambda" | IfExp _ _ _ => "IfExp"
  | Compare _ _ _ => "Compare" | Call _ _ _ => "Call"
  | Constant _ => "Constant" | Attribute _ _ => "Attribute"
  | Subscript _ _ => "Subscript" | Name _ => "Name"
  | List_ _ => "List" | Tuple _ => "Tuple"
  end.

(** The depth of a tree: the number of nodes on its longest branch. *)
Fixpoint depth (e : expr) : nat :=
  S (match e with
     | BoolOp _ values => list_max (map depth values)
     | NamedExpr target value => Nat.max (depth target) (depth value)
     | BinOp l _ r => Nat.max (depth l) (depth r)
     | UnaryOp _ operand => depth operand
     | Lambda _ body => depth body
     | IfExp test body orelse =>
         Nat.max (depth test) (Nat.max (depth body) (depth orelse))
     | Compare l _ comparators =>
         Nat.max (depth l) (list_max (map depth comparators))
     | Call func args keywords =>
         Nat.max (depth func)
           (Nat.max (list_max (map depth args))
              (list_max (map (fun kw => match kw with
                                        | (_, value) => depth value
                                        end) keywords)))
     | Constant _ | Name _ => O
     | Attribute value _ => depth value
     | Subscript value slice => Nat.max (depth value) (depth slice)
     | List_ elts | Tuple elts => list_max (map depth elts)
     end).

(** The names the [ast] module defines for nodes (Python.asdl of CPython
    3.11, with the aliases [Num], [Str], [Bytes], [NameConstant] and
    [Ellipsis] it still carries). Looking up any other attribute of the
    module raises [AttributeError]. *)
Definition ast_module_names : list string :=
  [ "AST"; "mod"; "Module"; "Interactive"; "Expression"; "FunctionType";
    "stmt"; "FunctionDef"; "AsyncFunctionDef"; "ClassDef"; "Return";
    "Delete"; "Assign"; "AugAssign"; "AnnAssign"; "For"; "AsyncFor";
    "While"; "If"; "With"; "AsyncWith"; "Match"; "Raise"; "Try"; "TryStar";
    "Assert"; "Import"; "ImportFrom"; "Global"; "Nonlocal"; "Expr"; "Pass";
    "Break"; "Continue";
    "expr"; "BoolOp"; "NamedExpr"; "BinOp"; "UnaryOp"; "Lambda"; "IfExp";
    "Dict"; "Set"; "ListComp"; "SetComp"; "DictComp"; "GeneratorExp";
    "Await"; "Yield"; "YieldFrom"; "Compare"; "Call"; "FormattedValue";
    "JoinedStr"; "Constant"; "Attribute"; "Subscript"; "Starred"; "Name";
    "List"; "Tuple"; "Slice";
    "expr_context"; "Load"; "Store"; "Del";
    "boolop"; "And"; "Or";
    "operator"; "Add"; "Sub"; "Mult"; "MatMult"; "Div"; "Mod"; "Pow";
    "LShift"; "RShift"; "BitOr"; "BitXor"; "BitAnd"; "FloorDiv";
    "unaryop"; "Invert"; "Not"; "UAdd"; "USub";
    "cmpop"; "Eq"; "NotEq"; "Lt"; "LtE"; "Gt"; "GtE"; "Is"; "IsNot"; "In";
    "NotIn";
    "comprehension"; "excepthandler"; "ExceptHandler"; "arguments"; "arg";
    "keyword"; "alias"; "withitem"; "match_case"; "pattern"; "MatchValue";
    "MatchSingleton"; "MatchSequence"; "MatchMapping"; "MatchClass";
    "MatchStar"; "MatchAs"; "MatchOr"; "type_ignore"; "TypeIgnore";
    "Num"; "Str"; "Bytes"; "NameConstant"; "Ellipsis";
    "slice"; "Index"; "ExtSlice"; "Suite"; "AugLoad"; "AugStore"; "Param" ].

Definition has_attr (name : string) : bool :=
  existsb (String.eqb name) ast_module_names.

End Ast.

(** ** The parser: [ast.parse(source, mode="eval")] *)

(** A parser for the expression grammar of CPython 3.11 (Grammar/python.gram,
    rule [eval]), restricted to one line of printable ASCII. It answers
    [Parsed] with the tree [ast.parse] builds, [SyntaxErr] where [ast.parse]
    raises [SyntaxError], and [Outside] for a text that uses what is not
    modelled: comments, line joining, string prefixes and escapes, digit
    grouping and non-decimal literals, integer literals of more than 4300
    digits (refused since 3.11), starred and double-starred elements,
    slices, displays in braces, comprehensions, [await], [yield], lambda
    parameters other than plain names. Brackets nested more than 200 deep
    are a [SyntaxError] of the tokenizer ([MAXLEVEL] of tokenizer.c, "too
    many nested parentheses"). A tree more than 500 nodes deep is
    [Outside]: the recursion limit of the interpreter (1000 frames by
    default) ends the evaluation of a deep tree, and from about 3000
    levels on its construction in [ast.parse], with a [RecursionError] at
    a depth that depends on the state of the stack. *)
Module Parser.

Local Open Scope string_scope.

Inductive outcome (A : Type) : Type :=
| Parsed (a : A)
| SyntaxErr
| Outside.
Arguments Parsed {A} a.
Arguments SyntaxErr {A}.
Arguments Outside {A}.

Definition obind {A B : Type} (o : outcome A) (k : A -> outcome B) : outcome B :=
  match o with
  | Parsed a => k a
  | SyntaxErr => SyntaxErr
  | Outside => Outside
  end.

#[global] Instance outcome_ret : MRet outcome := @Parsed.
#[global] Instance outcome_bind : MBind outcome := fun A B k o => obind o k.

(** *** Tokens *)

Inductive token : Type :=
| NUMBER (c : Ast.constant)
| NAME (s : string)
| STRING (s : string)
| OP (s : string).

Definition code (c : ascii) : nat := nat_of_ascii c.

Definition is_digit (c : ascii) : bool :=
  (Nat.leb 48 (code c) && Nat.leb (code c) 57)%bool.

Definition is_name_start (c : ascii) : bool :=
  ((Nat.leb 65 (code c) && Nat.leb (code c) 90) ||
   (Nat.leb 97 (code c) && Nat.leb (code c) 122) ||
   Nat.eqb (code c) 95)%bool.

Definition is_name_char (c : ascii) : bool := is_name_start c || is_digit c.

(** Space and tab. *)
Definition is_blank (c : ascii) : bool :=
  Nat.eqb (code c) 32 || Nat.eqb (code c) 9.

(** Single and double quote. *)
Definition is_quote (c : ascii) : bool :=
  Nat.eqb (code c) 39 || Nat.eqb (code c) 34.

(** The characters of a modelled source text: printable ASCII and the tab,
    without the comment sign and the backslash. *)
Definition modelled_char (c : ascii) : bool :=
  ((Nat.leb 32 (code c) && Nat.leb (code c) 126) || Nat.eqb (code c) 9) &&
  negb (Nat.eqb (code c) 35) && negb (Nat.eqb (code c) 92).

Fixpoint span (p : ascii -> bool) (s : list ascii) : list ascii * list ascii :=
  match s with
  | c :: s' =>
      if p c then let '(a, b) := span p s' in (c :: a, b) else ([], s)
  | [] => ([], [])
  end.

Fixpoint digits_value (acc : Z) (ds : list ascii) : Z :=
  match ds with
  | d :: ds' => digits_value (10 * acc + (Z.of_nat (code d) - 48)) ds'
  | [] => acc
  end.

Definition Python_keywords : list string :=
  [ "False"; "None"; "True"; "and"; "as"; "assert"; "async"; "await";
    "break"; "class"; "continue"; "def"; "del"; "elif"; "else"; "except";
    "finally"; "for"; "from"; "global"; "if"; "import"; "in"; "is";
    "lambda"; "nonlocal"; "not"; "or"; "pass"; "raise"; "return"; "try";
    "while"; "with"; "yield" ].

Definition is_keyword (s : string) : bool :=
  existsb (String.eqb s) Python_keywords.

(** The letters that may stand before a string literal. *)
Definition is_string_prefix (s : string) : bool :=
  existsb (String.eqb s)
    [ "r"; "u"; "b"; "f"; "R"; "U"; "B"; "F";
      "br"; "bR"; "Br"; "BR"; "rb"; "rB"; "Rb"; "RB";
      "fr"; "fR"; "Fr"; "FR"; "rf"; "rF"; "Rf"; "RF" ].

(** A decimal number literal at the head of [s] (which starts with a digit,
    or with a dot and a digit): integer, float or imaginary. *)
Definition lex_number (s : list ascii) : outcome (token * list ascii) :=
  let '(ip, r1) := span is_digit s in
  let '(has_dot, fp, r2) :=
    match r1 with
    | "."%char :: r => let '(fp, r') := span is_digit r in (true, fp, r')
    | _ => (false, [], r1)
    end in
  let exponent : outcome (option Z * list ascii) :=
    match r2 with
    | c :: r =>
        if Nat.eqb (code c) 101 || Nat.eqb (code c) 69 then
          let '(sign, r') :=
            match r with
            | "+"%char :: r' => (1, r')
            | "-"%char :: r' => (-1, r')
            | _ => (1, r)
            end in
          let '(ed, r'') := span is_digit r' in
          match ed with
          | [] => Outside
          | _ => Parsed (Some (sign * digits_value 0 ed), r'')
          end
        else Parsed (None, r2)
    | [] => Parsed (None, r2)
    end in
  '(ex, r3) ← exponent;
  let '(imaginary, r4) :=
    match r3 with
    | c :: r =>
        if Nat.eqb (code c) 106 || Nat.eqb (code c) 74 then (true, r)
        else (false, r3)
    | [] => (false, r3)
    end in
  if match r4 with c :: _ => is_name_char c | [] => false end then Outside
  else
    let mantissa := digits_value 0 (ip ++ fp) in
    let e10 := match ex with Some e => e | None => 0 end
               - Z.of_nat (length fp) in
    let is_integer := negb has_dot && match ex with None => true | _ => false end in
    if imaginary then
      Parsed (NUMBER (Ast.CComplex (F64.of_decimal mantissa e10)), r4)
    else if is_integer then
      match ip with
      | "0"%char :: _ :: _ =>
          if Z.eqb mantissa 0 then Parsed (NUMBER (Ast.CInt 0), r4)
          else SyntaxErr
      | _ =>
          if Nat.ltb 4300 (length ip) then Outside
          else Parsed (NUMBER (Ast.CInt mantissa), r4)
      end
    else Parsed (NUMBER (Ast.CFloat (F64.of_decimal mantissa e10)), r4).

(** A string literal whose opening quote [q] was read: the text up to the
    next [q]. *)
Definition lex_string (q : ascii) (s : list ascii) : outcome (token * list ascii) :=
  let '(body, r) := span (fun c => negb (Ascii.eqb c q)) s in
  match r with
  | _ :: r' =>
      match body, r' with
      | [], q' :: _ => if Ascii.eqb q' q then Outside
                       else Parsed (STRING (string_of_list_ascii body), r')
      | _, _ => Parsed (STRING (string_of_list_ascii body), r')
      end
  | [] => SyntaxErr
  end.

Definition operators3 : list string := [ "**="; "//="; ">>="; "<<="; "..." ].
Definition operators2 : list string :=
  [ "**"; "//"; ">>"; "<<"; "<="; ">="; "=="; "!="; "->"; "+="; "-="; "*=";
    "/="; "%="; "&="; "|="; "^="; "@="; ":=" ].
Definition operators1 : list string :=
  [ "+"; "-"; "*"; "/"; "%"; "@"; "&"; "|"; "^"; "~"; "<"; ">"; "("; ")";
    "["; "]"; "{"; "}"; ","; ":"; "."; ";"; "=" ].

(** The longest operator at the head of [s]. *)
Definition lex_operator (s : list ascii) : option (token * list ascii) :=
  let try (n : nat) (table : list string) :=
    let o := string_of_list_ascii (firstn n s) in
    if Nat.leb n (length s) && existsb (String.eqb o) table
    then Some (OP o, skipn n s) else None in
  match try 3%nat operators3 with
  | Some r => Some r
  | None =>
      match try 2%nat operators2 with
      | Some r => Some r
      | None => try 1%nat operators1
      end
  end.

Fixpoint lex (fuel : nat) (s : list ascii) : outcome (list token) :=
  match fuel with
  | O => Outside
  | S fuel' =>
      match s with
      | [] => Parsed []
      | c :: r =>
          if is_blank c then lex fuel' r
          else if is_digit c ||
                  (Ascii.eqb c "." &&
                   match r with d :: _ => is_digit d | [] => false end)
          then
            '(t, r') ← lex_number s;
            ts ← lex fuel' r';
            Parsed (t :: ts)
          else if is_name_start c then
            let '(id, r') := span is_name_char s in
            let name := string_of_list_ascii id in
            if match r' with q :: _ => is_quote q | [] => false end &&
               is_string_prefix name
            then Outside
            else ts ← lex fuel' r'; Parsed (NAME name :: ts)
          else if is_quote c then
            '(t, r') ← lex_string c r;
            ts ← lex fuel' r';
            Parsed (t :: ts)
          else
            match lex_operator s with
            | Some (t, r') => ts ← lex fuel' r'; Parsed (t :: ts)
            | None => SyntaxErr
            end
      end
  end.

(** *** The grammar *)

Definition is_op (t : token) (o : string) : bool :=
  match t with OP o' => String.eqb o' o | _ => false end.

Definition is_name (t : token) (n : string) : bool :=
  match t with NAME n' => String.eqb n' n | _ => false end.

(** The head of the tokens is the operator (the keyword) [o]. *)
Definition at_op (ts : list token) (o : string) : bool :=
  match ts with t :: _ => is_op t o | [] => false end.

Definition at_name (ts : list token) (n : string) : bool :=
  match ts with t :: _ => is_name t n | [] => false end.

(** What may follow an element of a display or an argument of a call and
    is not modelled: the [for] of a comprehension. *)
Definition at_comprehension (ts : list token) : bool :=
  at_name ts "for" || at_name ts "async".

(** The binary operators by level, from [|] (level 0) to the
    multiplicative ones (level 5); they all associate to the left. *)
Definition binop_at (level : nat) (t : token) : option Ast.operator :=
  match level, t with
  | 0%nat, OP o => if String.eqb o "|" then Some Ast.BitOr else None
  | 1%nat, OP o => if String.eqb o "^" then Some Ast.BitXor else None
  | 2%nat, OP o => if String.eqb o "&" then Some Ast.BitAnd else None
  | 3%nat, OP o =>
      if String.eqb o "<<" then Some Ast.LShift
      else if String.eqb o ">>" then Some Ast.RShift else None
  | 4%nat, OP o =>
      if String.eqb o "+" then Some Ast.Add
      else if String.eqb o "-" then Some Ast.Sub else None
  | 5%nat, OP o =>
      if String.eqb o "*" then Some Ast.Mult
      else if String.eqb o "/" then Some Ast.Div
      else if String.eqb o "//" then Some Ast.FloorDiv
      else if String.eqb o "%" then Some Ast.Mod
      else if String.eqb o "@" then Some Ast.MatMult else None
  | _, _ => None
  end.

Definition unary_at (t : token) : option Ast.unaryop :=
  match t with
  | OP o =>
      if String.eqb o "+" then Some Ast.UAdd
      else if String.eqb o "-" then Some Ast.USub
      else if String.eqb o "~" then Some Ast.Invert else None
  | _ => None
  end.

(** A comparison operator at the head of the tokens. *)
Definition compare_at (ts : list token) : option (Ast.cmpop * list token) :=
  match ts with
  | OP o :: r =>
      if String.eqb o "==" then Some (Ast.Eq, r)
      else if String.eqb o "!=" then Some (Ast.NotEq, r)
      else if String.eqb o "<" then Some (Ast.Lt, r)
      else if String.eqb o "<=" then Some (Ast.LtE, r)
      else if String.eqb o ">" then Some (Ast.Gt, r)
      else if String.eqb o ">=" then Some (Ast.GtE, r)
      else None
  | NAME n :: r =>
      if String.eqb n "in" then Some (Ast.In, r)
      else if String.eqb n "is" then
        if at_name r "not" then Some (Ast.IsNot, tl r) else Some (Ast.Is, r)
      else if String.eqb n "not" && at_name r "in" then Some (Ast.NotIn, tl r)
      else None
  | _ => None
  end.

(** Adjacent string literals are one constant. *)
Fixpoint more_strings (acc : string) (ts : list token) : string * list token :=
  match ts with
  | STRING s :: r => more_strings (acc ++ s) r
  | _ => (acc, ts)
  end.

(** The parameters of a lambda, up to and including the colon. *)
Fixpoint lambda_params (ts : list token) : outcome (list string * list token) :=
  match ts with
  | OP o :: r =>
      if String.eqb o ":" then Parsed ([], r)
      else if String.eqb o "*" || String.eqb o "**" || String.eqb o "/"
      then Outside else SyntaxErr
  | NAME n :: r =>
      if is_keyword n then SyntaxErr
      else
        match r with
        | t :: r' =>
            if is_op t "," then
              '(ns, r'') ← lambda_params r'; Parsed (n :: ns, r'')
            else if is_op t ":" then Parsed ([n], r')
            else if is_op t "=" then Outside
            else SyntaxErr
        | [] => SyntaxErr
        end
  | _ => SyntaxErr
  end.

(** One function per rule of the grammar; every call spends one unit of
    [fuel], and [Outside] is the answer when it is spent. *)
Fixpoint expression (fuel : nat) (ts : list token)
    : outcome (Ast.expr * list token) :=
  match fuel with
  | O => Outside
  | S f =>
      if at_name ts "lambda" then
        '(params, ts1) ← lambda_params (tl ts);
        '(body, ts2) ← expression f ts1;
        Parsed (Ast.Lambda params body, ts2)
      else
        '(body, ts1) ← disjunction f ts;
        if at_name ts1 "if" then
          '(test, ts2) ← disjunction f (tl ts1);
          if at_name ts2 "else" then
            '(orelse, ts3) ← expression f (tl ts2);
            Parsed (Ast.IfExp test body orelse, ts3)
          else SyntaxErr
        else Parsed (body, ts1)
  end

with disjunction (fuel : nat) (ts : list token)
    : outcome (Ast.expr * list token) :=
  match fuel with
  | O => Outside
  | S f =>
      '(x, ts1) ← conjunction f ts;
      if at_name ts1 "or" then
        '(xs, ts2) ← disjunction_rest f ts1;
        Parsed (Ast.BoolOp Ast.Or (x :: xs), ts2)
      else Parsed (x, ts1)
  end

with disjunction_rest (fuel : nat) (ts : list token)
    : outcome (list Ast.expr * list token) :=
  match fuel with
  | O => Outside
  | S f =>
      if at_name ts "or" then
        '(x, ts1) ← conjunction f (tl ts);
        '(xs, ts2) ← disjunction_rest f ts1;
        Parsed (x :: xs, ts2)
      else Parsed ([], ts)
  end

with conjunction (fuel : nat) (ts : list token)
    : outcome (Ast.expr * list token) :=
  match fuel with
  | O => Outside
  | S f =>
      '(x, ts1) ← inversion f ts;
      if at_name ts1 "and" then
        '(xs, ts2) ← conjunction_rest f ts1;
        Parsed (Ast.BoolOp Ast.And (x :: xs), ts2)
      else Parsed (x, ts1)
  end

with conjunction_rest (fuel : nat) (ts : list token)
    : outcome (list Ast.expr * list token) :=
  match fuel with
  | O => Outside
  | S f =>
      if at_name ts "and" then
        '(x, ts1) ← inversion f (tl ts);
        '(xs, ts2) ← conjunction_rest f ts1;
        Parsed (x :: xs, ts2)
      else Parsed ([], ts)
  end

with inversion (fuel : nat) (ts : list token)
    : outcome (Ast.expr * list token) :=
  match fuel with
  | O => Outside
  | S f =>
      if at_name ts "not" then
        '(x, ts1) ← inversion f (tl ts);
        Parsed (Ast.UnaryOp Ast.Not x, ts1)
      else comparison f ts
  end

with comparison (fuel : nat) (ts : list token)
    : outcome (Ast.expr * list token) :=
  match fuel with
  | O => Outside
  | S f =>
      '(x, ts1) ← binary f 0 ts;
      '(pairs, ts2) ← comparison_rest f ts1;
      match pairs with
      | [] => Parsed (x, ts2)
      | _ => Parsed (Ast.Compare x (map fst pairs) (map snd pairs), ts2)
      end
  end

with comparison_rest (fuel : nat) (ts : list token)
    : outcome (list (Ast.cmpop * Ast.expr) * list token) :=
  match fuel with
  | O => Outside
  | S f =>
      match compare_at ts with
      | Some (op, ts1) =>
          '(y, ts2) ← binary f 0 ts1;
          '(pairs, ts3) ← comparison_rest f ts2;
          Parsed ((op, y) :: pairs, ts3)
      | None => Parsed ([], ts)
      end
  end

with binary (fuel : nat) (level : nat) (ts : list token)
    : outcome (Ast.expr * list token) :=
  match fuel with
  | O => Outside
  | S f =>
      if Nat.leb 6 level then factor f ts
      else
        '(x, ts1) ← binary f (S level) ts;
        binary_rest f level x ts1
  end

with binary_rest (fuel : nat) (level : nat) (x : Ast.expr) (ts : list token)
    : outcome (Ast.expr * list token) :=
  match fuel with
  | O => Outside
  | S f =>
      match ts with
      | t :: ts1 =>
          match binop_at level t with
          | Some op =>
              '(y, ts2) ← binary f (S level) ts1;
              binary_rest f level (Ast.BinOp x op y) ts2
          | None => Parsed (x, ts)
          end
      | [] => Parsed (x, ts)
      end
  end

with factor (fuel : nat) (ts : list token)
    : outcome (Ast.expr * list token) :=
  match fuel with
  | O => Outside
  | S f =>
      match ts with
      | t :: ts1 =>
          match unary_at t with
          | Some op =>
              '(x, ts2) ← factor f ts1; Parsed (Ast.UnaryOp op x, ts2)
          | None => power f ts
          end
      | [] => SyntaxErr
      end
  end

with power (fuel : nat) (ts : list token)
    : outcome (Ast.expr * list token) :=
  match fuel with
  | O => Outside
  | S f =>
      '(x, ts1) ← atom f ts;
      '(x, ts2) ← trailers f x ts1;
      if at_op ts2 "**" then
        '(y, ts3) ← factor f (tl ts2);
        Parsed (Ast.BinOp x Ast.Pow y, ts3)
      else Parsed (x, ts2)
  end

with trailers (fuel : nat) (x : Ast.expr) (ts : list token)
    : outcome (Ast.expr * list token) :=
  match fuel with
  | O => Outside
  | S f =>
      if at_op ts "." then
        match tl ts with
        | NAME n :: ts1 =>
            if is_keyword n then SyntaxErr
            else trailers f (Ast.Attribute x n) ts1
        | _ => SyntaxErr
        end
      else if at_op ts "(" then
        '(args, keywords, ts1) ← arguments f false (tl ts);
        trailers f (Ast.Call x args keywords) ts1
      else if at_op ts "[" then
        '(elts, comma, ts1) ← elements f "]" true (tl ts);
        match elts, comma with
        | [], _ => SyntaxErr
        | [i], false => trailers f (Ast.Subscript x i) ts1
        | _, _ => trailers f (Ast.Subscript x (Ast.Tuple elts)) ts1
        end
      else Parsed (x, ts)
  end

with atom (fuel : nat) (ts : list token)
    : outcome (Ast.expr * list token) :=
  match fuel with
  | O => Outside
  | S f =>
      match ts with
      | NUMBER c :: ts1 => Parsed (Ast.Constant c, ts1)
      | STRING s :: ts1 =>
          let '(s', ts2) := more_strings s ts1 in
          Parsed (Ast.Constant (Ast.CStr s'), ts2)
      | NAME n :: ts1 =>
          if String.eqb n "True" then Parsed (Ast.Constant (Ast.CBool true), ts1)
          else if String.eqb n "False"
          then Parsed (Ast.Constant (Ast.CBool false), ts1)
          else if String.eqb n "None" then Parsed (Ast.Constant Ast.CNone, ts1)
          else if String.eqb n "await" || String.eqb n "yield" ||
                  String.eqb n "async"
          then Outside
          else if is_keyword n then SyntaxErr
          else Parsed (Ast.Name n, ts1)
      | OP o :: ts1 =>
          if String.eqb o "(" then
            '(elts, comma, ts2) ← elements f ")" false ts1;
            match elts, comma with
            | [x], false => Parsed (x, ts2)
            | _, _ => Parsed (Ast.Tuple elts, ts2)
            end
          else if String.eqb o "[" then
            '(elts, comma, ts2) ← elements f "]" false ts1;
            Parsed (Ast.List_ elts, ts2)
          else if String.eqb o "..."
          then Parsed (Ast.Constant Ast.CEllipsis, ts1)
          else if String.eqb o "{" || String.eqb o "*" || String.eqb o "**"
          then Outside
          else SyntaxErr
      | [] => SyntaxErr
      end
  end

(** The elements of a parenthesised form, a list or a subscript, up to the
    closing bracket; the boolean tells whether a comma was read. *)
with elements (fuel : nat) (closing : string) (subscript : bool)
    (ts : list token) : outcome (list Ast.expr * bool * list token) :=
  match fuel with
  | O => Outside
  | S f =>
      if at_op ts closing then Parsed ([], false, tl ts)
      else if at_op ts "*" || at_op ts "**" || (subscript && at_op ts ":")
      then Outside
      else
        '(x, ts1) ← named_expression f ts;
        if at_op ts1 "," then
          '(xs, _, ts2) ← elements f closing subscript (tl ts1);
          Parsed (x :: xs, true, ts2)
        else if at_op ts1 closing then Parsed ([x], false, tl ts1)
        else if at_comprehension ts1 || (subscript && at_op ts1 ":")
        then Outside
        else SyntaxErr
  end

with named_expression (fuel : nat) (ts : list token)
    : outcome (Ast.expr * list token) :=
  match fuel with
  | O => Outside
  | S f =>
      match ts with
      | NAME n :: ts1 =>
          if at_op ts1 ":=" && negb (is_keyword n) then
            '(v, ts2) ← expression f (tl ts1);
            Parsed (Ast.NamedExpr (Ast.Name n) v, ts2)
          else expression f ts
      | _ => expression f ts
      end
  end

(** The arguments of a call, up to the closing parenthesis; [seen_keyword]
    tells whether a keyword argument was read (no positional one may
    follow). *)
with arguments (fuel : nat) (seen_keyword : bool) (ts : list token)
    : outcome (list Ast.expr * list (string * Ast.expr) * list token) :=
  match fuel with
  | O => Outside
  | S f =>
      if at_op ts ")" then Parsed ([], [], tl ts)
      else if at_op ts "*" || at_op ts "**" then Outside
      else
        match ts with
        | NAME n :: ts1 =>
            if at_op ts1 "=" then
              if is_keyword n then SyntaxErr
              else
                '(v, ts2) ← expression f (tl ts1);
                if at_op ts2 "," then
                  '(args, keywords, ts3) ← arguments f true (tl ts2);
                  Parsed (args, (n, v) :: keywords, ts3)
                else if at_op ts2 ")" then Parsed ([], [(n, v)], tl ts2)
                else if at_comprehension ts2 then Outside
                else SyntaxErr
            else positional f seen_keyword ts
        | _ => positional f seen_keyword ts
        end
  end

with positional (fuel : nat) (seen_keyword : bool) (ts : list token)
    : outcome (list Ast.expr * list (string * Ast.expr) * list token) :=
  match fuel with
  | O => Outside
  | S f =>
      '(x, ts1) ← named_expression f ts;
      if at_comprehension ts1 then Outside
      else if seen_keyword then SyntaxErr
      else if at_op ts1 "," then
        '(args, keywords, ts2) ← arguments f false (tl ts1);
        Parsed (x :: args, keywords, ts2)
      else if at_op ts1 ")" then Parsed ([x], [], tl ts1)
      else SyntaxErr
  end.

(** The rule [expressions]: one expression, or a tuple without brackets. *)
Fixpoint expressions_rest (fuel : nat) (ts : list token)
    : outcome (list Ast.expr) :=
  match fuel with
  | O => Outside
  | S f =>
      match ts with
      | [] => Parsed []
      | _ =>
          '(x, ts1) ← expression fuel ts;
          match ts1 with
          | [] => Parsed [x]
          | t :: ts2 =>
              if is_op t "," then
                xs ← expressions_rest f ts2; Parsed (x :: xs)
              else SyntaxErr
          end
      end
  end.

Definition expressions (fuel : nat) (ts : list token) : outcome Ast.expr :=
  '(x, ts1) ← expression fuel ts;
  match ts1 with
  | [] => Parsed x
  | t :: ts2 =>
      if is_op t "," then
        xs ← expressions_rest fuel ts2; Parsed (Ast.Tuple (x :: xs))
      else SyntaxErr
  end.

(** The deepest nesting of brackets in the tokens, from [level] open
    brackets on. *)
Fixpoint nesting (level : nat) (ts : list token) : nat :=
  match ts with
  | [] => O
  | t :: ts' =>
      if is_op t "(" || is_op t "[" || is_op t "{"
      then Nat.max (S level) (nesting (S level) ts')
      else if is_op t ")" || is_op t "]" || is_op t "}"
      then nesting (Nat.pred level) ts'
      else nesting level ts'
  end.

(** [ast.parse(source, mode="eval")]. A text that starts with a blank is
    refused ([IndentationError], a [SyntaxError]); so is one that nests
    its brackets more than 200 deep. *)
Definition parse (source : string) : outcome Ast.AST :=
  let cs := list_ascii_of_string source in
  if negb (forallb modelled_char cs) then Outside
  else
    match cs with
    | [] => SyntaxErr
    | c :: _ =>
        if is_blank c then SyntaxErr
        else
          ts ← lex (S (length cs)) cs;
          body ← expressions (25 * (length ts + 2)) ts;
          if Nat.ltb 200 (nesting 0 ts) then SyntaxErr
          else if Nat.ltb 500 (Ast.depth body) then Outside
          else Parsed (Ast.Expression body)
    end.

End Parser.

(** ** Formatting a float: [format(x, ".6e")] and [format(x, ".10g")] *)

(** CPython prints the digits of the correctly rounded decimal (ties on
    the exact binary value go to the even digit), as its dtoa.c computes
    them. *)
Module Fmt.

Local Open Scope string_scope.
Local Open Scope Z_scope.

(** The number of decimal digits of [n >= 1]. *)
Fixpoint count_digits (fuel : nat) (n : Z) : Z :=
  match fuel with
  | O => 0
  | S f => if n <? 10 then 1 else 1 + count_digits f (n / 10)
  end.

(** The least [k >= 1] with [num * 10^k >= den], for [0 < num < den]. *)
Fixpoint scale_up (fuel : nat) (num den : Z) : Z :=
  match fuel with
  | O => 1
  | S f => if den <=? num * 10 then 1 else 1 + scale_up f (num * 10) den
  end.

(** [floor(log10(num / den))] for positive [num] and [den]. *)
Definition decimal_exponent (num den : Z) : Z :=
  if den <=? num
  then count_digits (S (Z.to_nat (Z.log2 num))) (num / den) - 1
  else - scale_up (S (Z.to_nat (Z.log2 den))) num den.

(** [a / b] rounded to the nearest integer, ties to even ([b > 0]). *)
Definition round_half_even (a b : Z) : Z :=
  let q := a / b in
  let r := a mod b in
  if 2 * r <? b then q
  else if b <? 2 * r then q + 1
  else if Z.even q then q else q + 1.

(** [num / den] to [p] significant digits: the integer [d] of exactly [p]
    digits and the decimal exponent [x] of its first digit, so that the
    rounded value is [d * 10^(x - p + 1)]. *)
Definition significant (p : Z) (num den : Z) : Z * Z :=
  let x := decimal_exponent num den in
  let s := p - 1 - x in
  let d := if 0 <=? s then round_half_even (num * 10 ^ s) den
           else round_half_even num (den * 10 ^ (- s)) in
  if 10 ^ p <=? d then (10 ^ (p - 1), x + 1) else (d, x).

Definition digit_char (d : Z) : ascii :=
  ascii_of_nat (48 + Z.to_nat (d mod 10)).

(** The last [n] decimal digits of [d], most significant first. *)
Fixpoint digits (n : nat) (d : Z) : list ascii :=
  match n with
  | O => []
  | S n' => digits n' (d / 10) ++ [digit_char d]
  end.

Fixpoint strip_zeros_rev (l : list ascii) : list ascii :=
  match l with
  | c :: l' => if Ascii.eqb c "0" then strip_zeros_rev l' else l
  | [] => []
  end.

(** Without the zeros at the end. *)
Definition strip_trailing_zeros (l : list ascii) : list ascii :=
  rev (strip_zeros_rev (rev l)).

(** The exponent part: a sign and at least two digits. *)
Definition exponent_chars (x : Z) : list ascii :=
  "e"%char :: (if x <? 0 then "-"%char else "+"%char) ::
  (if Z.abs x <? 10 then ["0"%char] else []) ++
  list_ascii_of_string (Py.str_int (Z.abs x)).

Definition sign_chars (s : bool) : list ascii :=
  if s then ["-"%char] else [].

(** The point is printed when digits follow it. *)
Definition with_point (int_part frac : list ascii) : list ascii :=
  int_part ++ match frac with [] => [] | _ => "."%char :: frac end.

Definition format_e_chars (prec : nat) (x : Py.float) : list ascii :=
  match x with
  | S754_nan => list_ascii_of_string "nan"
  | S754_infinity s => sign_chars s ++ list_ascii_of_string "inf"
  | S754_zero s =>
      sign_chars s ++ with_point ["0"%char] (repeat "0"%char prec) ++
      exponent_chars 0
  | S754_finite s m e =>
      let '(num, den) := F64.to_fraction m e in
      let '(d, x10) := significant (Z.of_nat (S prec)) num den in
      let ds := digits (S prec) d in
      sign_chars s ++ with_point (firstn 1 ds) (skipn 1 ds) ++
      exponent_chars x10
  end.

(** [format(x, ".<prec>e")]. *)
Definition format_e (prec : nat) (x : Py.float) : string :=
  string_of_list_ascii (format_e_chars prec x).

Definition format_g_chars (p : nat) (x : Py.float) : list ascii :=
  match x with
  | S754_nan => list_ascii_of_string "nan"
  | S754_infinity s => sign_chars s ++ list_ascii_of_string "inf"
  | S754_zero s => sign_chars s ++ ["0"%char]
  | S754_finite s m e =>
      let '(num, den) := F64.to_fraction m e in
      let '(d, x10) := significant (Z.of_nat p) num den in
      let ds := digits p d in
      sign_chars s ++
      if (x10 <? -4) || (Z.of_nat p <=? x10) then
        with_point (firstn 1 ds) (strip_trailing_zeros (skipn 1 ds)) ++
        exponent_chars x10
      else if 0 <=? x10 then
        let k := S (Z.to_nat x10) in
        with_point (firstn k ds) (strip_trailing_zeros (skipn k ds))
      else
        with_point ["0"%char]
          (repeat "0"%char (Z.to_nat (- x10 - 1)) ++ strip_trailing_zeros ds)
  end.

(** [format(x, ".<p>g")] for [p >= 1]: fixed notation when the exponent is
    in [-4 .. p-1], scientific otherwise; zeros at the end of the fraction
    are dropped. *)
Definition format_g (p : nat) (x : Py.float) : string :=
  string_of_list_ascii (format_g_chars p x).

(** *** The shapes of the outputs *)

Definition is_digit (c : ascii) : bool :=
  Nat.leb 48 (nat_of_ascii c) && Nat.leb (nat_of_ascii c) 57.

Definition is_nonzero_digit (c : ascii) : bool :=
  Nat.leb 49 (nat_of_ascii c) && Nat.leb (nat_of_ascii c) 57.

(** One digit at least, and digits only. *)
Definition is_digits (l : list ascii) : bool :=
  match l with [] => false | _ => forallb is_digit l end.

Definition drop_minus (l : list ascii) : list ascii :=
  match l with
  | c :: l' => if Ascii.eqb c "-" then l' else l
  | [] => []
  end.

(** An integer in decimal: no point, no exponent. *)
Definition is_plain_integer (s : string) : bool :=
  is_digits (drop_minus (list_ascii_of_string s)).

(** Normalized scientific notation with [frac] digits after the point:
    [-d.ddd...e+dd], the first digit not zero. *)
Definition is_scientific (frac : nat) (s : string) : bool :=
  match drop_minus (list_ascii_of_string s) with
  | d :: p :: rest =>
      is_nonzero_digit d && Ascii.eqb p "." &&
      Nat.eqb (length (firstn frac rest)) frac &&
      forallb is_digit (firstn frac rest) &&
      match skipn frac rest with
      | e :: sign :: ex =>
          Ascii.eqb e "e" && (Ascii.eqb sign "+" || Ascii.eqb sign "-") &&
          is_digits ex
      | _ => false
      end
  | _ => false
  end.

End Fmt.

(** ** The calculator: simple_calculator.py *)

Local Open Scope string_scope.
Local Open Scope Z_scope.

(** [ast.X] in the source is an attribute lookup on the module. *)
Definition ast_getattr (name : string) : Py.result unit :=
  if Ast.has_attr name then Py.Return tt
  else Py.raise Py.AttributeError
         ("module 'ast' has no attribute '" ++ name ++ "'").

(** The table of named constants that [safe_eval] builds. *)
Definition constants : gmap string Py.float :=
  {[ "pi" := Py.Py_MATH_PI;
     "e" := Py.Py_MATH_E;
     "tau" := Py.Py_MATH_TAU;
     "inf" := F64.infinity ]}.

(** The set of function names that [safe_eval] allows. *)
Definition allowed_functions : gset string :=
  {[ "sqrt"; "sin"; "cos"; "tan"; "log"; "log10"; "exp";
     "abs"; "ceil"; "floor"; "round"; "degrees"; "radians";
     "asin"; "acos"; "atan"; "sinh"; "cosh"; "tanh" ]}.

(** [sorted(names)]: ascending, by code points. *)
Definition sorted (names : gset string) : list string :=
  merge_sort String.le (elements names).

(** [sep.join(l)]. *)
Fixpoint join (sep : string) (l : list string) : string :=
  match l with
  | [] => ""
  | [a] => a
  | a :: l' => a ++ sep ++ join sep l'
  end.

(** The message of the error for a call that is not allowed. *)
Definition disallowed_call_message : string :=
  "Function calls are not allowed except math functions: " ++
  join ", " (sorted allowed_functions).

Section Calculator.

(** The platform: its C library, and the wording of the syntax errors of
    its parser. *)
Variable libm : Py.Libm.
Variable syntax_error_msg : string -> string.

Definition ALLOWED_BINARY_OPS (op : Ast.operator)
    : option (Py.value -> Py.value -> Py.result Py.value) :=
  match op with
  | Ast.Add => Some Py.py_add
  | Ast.Sub => Some Py.py_sub
  | Ast.Mult => Some Py.py_mul
  | Ast.Div => Some Py.py_truediv
  | Ast.Mod => Some Py.py_mod
  | Ast.Pow => Some (Py.py_pow libm)
  | Ast.FloorDiv => Some Py.py_floordiv
  | _ => None
  end.

Definition ALLOWED_UNARY_OPS (op : Ast.unaryop)
    : option (Py.value -> Py.result Py.value) :=
  match op with
  | Ast.UAdd => Some Py.py_pos
  | Ast.USub => Some Py.py_neg
  | _ => None
  end.

(** The body of the [try] statement of the [Call] branch, and its
    [except (AttributeError, ValueError, TypeError)] clause. *)
Definition call_function (func_name : string) (args : list Py.value)
    : Py.result Py.value :=
  Py.try_except
    (if String.eqb func_name "round" && Nat.eqb (length args) 1 then
       a ← Py.index0 args;
       n ← Py.builtin_round a;
       x ← Py.builtin_float n;
       Py.Return (Py.VFloat x)
     else if String.eqb func_name "abs" then
       a ← Py.index0 args;
       n ← Py.builtin_abs libm a;
       x ← Py.builtin_float n;
       Py.Return (Py.VFloat x)
     else
       f ← Py.math_getattr libm func_name;
       n ← f args;
       x ← Py.builtin_float n;
       Py.Return (Py.VFloat x))
    [Py.AttributeError; Py.ValueError; Py.TypeError]
    (fun e => Py.raise Py.EvalError
                ("Error calling " ++ func_name ++ ": " ++ Py.exc_str e)).

(** [safe_eval] on the nodes below the root. The tests of the source are
    made in its order: [Constant] first; every later test comes after the
    lookup of [ast.Num]; a node of no handled class reaches the lookups of
    [ast.Expr] and [ast.Paren]. *)
Fixpoint safe_eval_expr (node : Ast.expr) : Py.result Py.value :=
  match node with
  | Ast.Constant value =>
      match value with
      | Ast.CInt n => x ← Py.float_of_int n; Py.Return (Py.VFloat x)
      | Ast.CBool b =>
          x ← Py.float_of_int (if b then 1 else 0); Py.Return (Py.VFloat x)
      | Ast.CFloat x => Py.Return (Py.VFloat x)
      | _ =>
          Py.raise Py.EvalError
            ("Unsupported constant type: " ++ Ast.type_name value)
      end
  | _ =>
      _ ← ast_getattr "Num";
      match node with
      | Ast.Name id =>
          match constants !! id with
          | Some c => Py.Return (Py.VFloat c)
          | None => Py.raise Py.EvalError ("Undefined variable: " ++ id)
          end
      | Ast.BinOp l op r =>
          left ← safe_eval_expr l;
          right ← safe_eval_expr r;
          match ALLOWED_BINARY_OPS op with
          | None =>
              Py.raise Py.EvalError
                ("Operator " ++ Ast.operator_name op ++ " not allowed")
          | Some func =>
              Py.try_except (func left right) Py.Exception
                (fun e => Py.raise Py.EvalError
                            ("Error evaluating binary op: " ++ Py.exc_str e))
          end
      | Ast.UnaryOp op o =>
          operand ← safe_eval_expr o;
          match ALLOWED_UNARY_OPS op with
          | None =>
              Py.raise Py.EvalError
                ("Unary operator " ++ Ast.unaryop_name op ++ " not allowed")
          | Some func => func operand
          end
      | Ast.Call func node_args _ =>
          match func with
          | Ast.Name func_name =>
              if bool_decide (func_name ∈ allowed_functions) then
                args ← (fix eval_args (l : list Ast.expr)
                            : Py.result (list Py.value) :=
                          match l with
                          | [] => Py.Return []
                          | a :: l' =>
                              v ← safe_eval_expr a;
                              vs ← eval_args l';
                              Py.Return (v :: vs)
                          end) node_args;
                call_function func_name args
              else Py.raise Py.EvalError disallowed_call_message
          | _ => Py.raise Py.EvalError disallowed_call_message
          end
      | _ =>
          _ ← ast_getattr "Expr";
          _ ← ast_getattr "Paren";
          Py.raise Py.EvalError
            ("Unsupported AST node: " ++ Ast.class_name node)
      end
  end.

(** [[safe_eval(arg) for arg in node.args]]. *)
Fixpoint eval_args (l : list Ast.expr) : Py.result (list Py.value) :=
  match l with
  | [] => Py.Return []
  | a :: l' =>
      v ← safe_eval_expr a;
      vs ← eval_args l';
      Py.Return (v :: vs)
  end.

Definition safe_eval (node : Ast.AST) : Py.result Py.value :=
  match node with
  | Ast.Expression body => safe_eval_expr body
  | Ast.Node e => safe_eval_expr e
  end.

(** [evaluate_expression]; [None] for a text outside the modelled
    grammar. *)
Definition evaluate_expression (expr : string)
    : option (Py.result Py.value) :=
  match Parser.parse expr with
  | Parser.Parsed parsed => Some (safe_eval parsed)
  | Parser.SyntaxErr =>
      Some (Py.raise Py.EvalError
              ("Syntax error: " ++ syntax_error_msg expr))
  | Parser.Outside => None
  end.

End Calculator.

(** The constants of [format_result]. *)
Definition c_1e15 : Py.float := F64.of_decimal 1 15.
Definition c_1e_4 : Py.float := F64.of_decimal 1 (-4).
Definition c_1e_12 : Py.float := F64.of_decimal 1 (-12).

(** [format_result]. *)
Definition format_result (result : Py.float) : Py.result string :=
  if F64.gtb (F64.abs result) c_1e15 ||
     (F64.ltb (F64.abs result) c_1e_4 && F64.neb result F64.zero)
  then Py.Return (Fmt.format_e 6 result)
  else
    n ← Py.int_of_float result;
    x ← Py.float_of_int n;
    if F64.ltb (F64.abs (F64.sub result x)) c_1e_12
    then n' ← Py.int_of_float result; Py.Return (Py.str_int n')
    else Py.Return (Fmt.format_g 10 result).

(** The two conditions of [format_result]: the range of the scientific
    notation, and the closeness of [result] to [n], which the source takes
    to be [int(result)]. *)
Definition scientific_range (v : Py.float) : bool :=
  F64.gtb (F64.abs v) c_1e15 ||
  (F64.ltb (F64.abs v) c_1e_4 && F64.neb v F64.zero).

Definition near_integer (v : Py.float) (n : Z) : bool :=
  F64.ltb (F64.abs (F64.sub v (F64.of_Z n))) c_1e_12.

(** The same rule in the words of the specification, [value] within
    [1e-12] of its nearest integer, read in exact arithmetic. The value of
    a finite double as a fraction, the sign in the numerator: *)
Definition fraction (v : Py.float) : Z * Z :=
  match v with
  | S754_finite s m e =>
      let '(num, den) := F64.to_fraction m e in (cond_Zopp s num, den)
  | _ => (0, 1)
  end.

(** The integer nearest to a finite double. *)
Definition nearest_integer (v : Py.float) : Z :=
  match v with
  | S754_finite s m e =>
      let '(num, den) := F64.to_fraction m e in
      cond_Zopp s (Fmt.round_half_even num den)
  | _ => 0
  end.

(** [|v - n| < c], for a finite [v] and a positive finite [c]. *)
Definition closer_than (c v : Py.float) (n : Z) : bool :=
  let '(a, b) := fraction v in
  let '(ca, cb) := fraction c in
  Z.abs (a - n * b) * cb <? ca * b.

Definition near_nearest_integer (v : Py.float) : bool :=
  closer_than c_1e_12 v (nearest_integer v).

(** The argument counts a function of the table takes: [math.log] has a
    form with a base. *)
Definition accepts (name : string) (n : nat) : bool :=
  if String.eqb name "log" then Nat.eqb n 1 || Nat.eqb n 2 else Nat.eqb n 1.

(** What the runtime says about a call with a number of arguments that the
    function does not take. *)
Definition arity_error_detail (name : string) (n : nat) : string :=
  if String.eqb name "round" then "module 'math' has no attribute 'round'"
  else if String.eqb name "log" then "math.log requires 1 to 2 arguments"
  else "math." ++ name ++ "() takes exactly one argument (" ++
       Py.str_int (Z.of_nat n) ++ " given)".

(** The node of an integer literal. *)
Definition num (n : Z) : Ast.expr := Ast.Constant (Ast.CInt n).

(** ** [repr] of a float and of a complex *)

(** [repr(x)] is the shortest decimal that reads back as [x], and of the
    decimals of that length the one nearest to [x] (the mode 0 of
    CPython's dtoa.c). *)
Module Repr.

Local Open Scope string_scope.
Local Open Scope Z_scope.

(** Whether the decimal [d * 10^-s] reads back as the double [(m, e)]. *)
Definition reads_back (m : positive) (e : Z) (d s : Z) : bool :=
  F64.eqb (F64.of_decimal d (- s)) (S754_finite false m e).

(** The search, from [p] digits on: of the [p]-digit decimals next to the
    value, the one below is [lo]; the exponent of the first digit is [x].
    Seventeen digits always read back. *)
Fixpoint shortest (fuel : nat) (p : Z) (m : positive) (e : Z) : Z * Z * Z :=
  let '(num, den) := F64.to_fraction m e in
  let x := Fmt.decimal_exponent num den in
  let s := p - 1 - x in
  let '(a, b) := if 0 <=? s then (num * 10 ^ s, den)
                 else (num, den * 10 ^ (- s)) in
  let lo := a / b in
  let r := a mod b in
  let hi := lo + 1 in
  match fuel with
  | O => (Fmt.round_half_even a b, p, x)
  | S fuel' =>
      match reads_back m e lo s, reads_back m e hi s with
      | true, true =>
          (if 2 * r <? b then lo
           else if b <? 2 * r then hi
           else if Z.even lo then lo else hi, p, x)
      | true, false => (lo, p, x)
      | false, true => (hi, p, x)
      | false, false => shortest fuel' (p + 1) m e
      end
  end.

(** The digits of [repr] and the position of the point after the first
    of them ([decpt]). *)
Definition repr_digits (m : positive) (e : Z) : list ascii * Z :=
  let '(d, p, x) := shortest 16 1 m e in
  if d =? 10 ^ p then (["1"%char], x + 2)
  else (Fmt.strip_trailing_zeros (Fmt.digits (Z.to_nat p) d), x + 1).

(** [PyOS_double_to_string(x, 'r', 0, flags, NULL)]; [add_dot_0] is
    [Py_DTSF_ADD_DOT_0]. *)
Definition double_to_string_r (add_dot_0 : bool) (x : Py.float) : list ascii :=
  match x with
  | S754_nan => list_ascii_of_string "nan"
  | S754_infinity s => Fmt.sign_chars s ++ list_ascii_of_string "inf"
  | S754_zero s =>
      Fmt.sign_chars s ++ (if add_dot_0 then list_ascii_of_string "0.0"
                           else ["0"%char])
  | S754_finite s m e =>
      let '(ds, decpt) := repr_digits m e in
      let n := Z.of_nat (length ds) in
      Fmt.sign_chars s ++
      if (decpt <=? -4) || (16 <? decpt) then
        Fmt.with_point (firstn 1 ds) (skipn 1 ds) ++
        Fmt.exponent_chars (decpt - 1)
      else if decpt <=? 0 then
        "0"%char :: "."%char :: repeat "0"%char (Z.to_nat (- decpt)) ++ ds
      else if n <=? decpt then
        ds ++ repeat "0"%char (Z.to_nat (decpt - n)) ++
        (if add_dot_0 then list_ascii_of_string ".0" else [])
      else
        firstn (Z.to_nat decpt) ds ++ "."%char :: skipn (Z.to_nat decpt) ds
  end%list.

(** [repr(x)] and [str(x)] of a [float]. *)
Definition float_repr (x : Py.float) : string :=
  string_of_list_ascii (double_to_string_r true x).

End Repr.

(** The texts of a [complex] (complexobject.c). *)
Module Cplx.

Local Open Scope string_scope.

Definition starts_with_minus (l : list ascii) : bool :=
  match l with c :: _ => Ascii.eqb c "-" | [] => false end.

(** The imaginary part always carries its sign. *)
Definition signed (l : list ascii) : list ascii :=
  if starts_with_minus l then l else "+"%char :: l.

(** [format(z, ".<prec>e")] of a [complex]: both parts, no parentheses. *)
Definition format_e (prec : nat) (re im : Py.float) : string :=
  string_of_list_ascii
    (Fmt.format_e_chars prec re ++ signed (Fmt.format_e_chars prec im) ++
     ["j"%char]).

(** [str(z)] and [repr(z)] of a [complex]: the real part is left out when
    it is a positive zero. *)
Definition complex_repr (re im : Py.float) : string :=
  string_of_list_ascii
    (match re with
     | S754_zero false => Repr.double_to_string_r false im ++ ["j"%char]
     | _ =>
         "("%char :: Repr.double_to_string_r false re ++
         signed (Repr.double_to_string_r false im) ++ ["j"%char; ")"%char]
     end).

End Cplx.

(** ** Texts *)

(** [s.strip()] and [s.lower()] on a text of the modelled characters: its
    blanks are the space and the tab, its letters are ASCII. *)
Module Str.

Fixpoint lstrip (l : list ascii) : list ascii :=
  match l with
  | c :: l' => if Parser.is_blank c then lstrip l' else l
  | [] => []
  end.

Definition strip (s : string) : string :=
  string_of_list_ascii (rev (lstrip (rev (lstrip (list_ascii_of_string s))))).

Definition lower_char (c : ascii) : ascii :=
  let n := nat_of_ascii c in
  if Nat.leb 65 n && Nat.leb n 90 then ascii_of_nat (n + 32) else c.

Definition lower (s : string) : string :=
  string_of_list_ascii (map lower_char (list_ascii_of_string s)).

(** [s in (a, b, ...)]. *)
Definition among (s : string) (l : list string) : bool :=
  existsb (String.eqb s) l.

End Str.

(** ** The command line and the interactive loop *)

(** What the program does to its terminal: [print(text)] and
    [input(prompt)]. *)
Inductive effect : Type :=
| Print (text : string)
| Input (prompt : string).

(** What [input] meets: a line, or an interrupt from the keyboard; the end
    of the list is the end of the input. *)
Inductive input_event : Type :=
| Line (s : string)
| KeyboardInterrupt.

Definition nl : string := String (ascii_of_nat 10) "".

(** [str(x)] of a result. *)
Definition str_value (v : Py.value) : string :=
  match v with
  | Py.VFloat x => Repr.float_repr x
  | Py.VComplex re im => Cplx.complex_repr re im
  end.

(** [f"{i:2d}"]. *)
Definition format_2d (i : Z) : string :=
  let s := Py.str_int i in
  if Nat.ltb (String.length s) 2 then " " ++ s else s.

(** [l[-n:]]. *)
Definition last_n {A : Type} (n : nat) (l : list A) : list A :=
  skipn (length l - n) l.

Definition c_1e_9 : Py.float := F64.of_decimal 1 (-9).

(** The table of [run_tests], in the order of the source. *)
Definition tests : list (string * Z) :=
  [ ("1+2*3", 7); ("(1+2)*3", 9); ("2**3**1", 8); ("4/2", 2); ("5%2", 1);
    ("-3 + 7", 4); ("9//2", 4);
    ("sqrt(16)", 4); ("sin(0)", 0); ("abs(-5)", 5); ("ceil(3.2)", 4);
    ("floor(3.8)", 3); ("round(3.7)", 4);
    ("pi/pi", 1); ("e/e", 1);
    ("log10(100)", 2); ("exp(0)", 1); ("degrees(pi)", 180) ].

(** The parsed command line: [args.expr] and [args.test]. *)
Record Namespace : Type := { args_expr : option string; args_test : bool }.

Section Program.

Variable libm : Py.Libm.
Variable syntax_error_msg : string -> string.

(** [format_result] on what [evaluate_expression] returned, which can be a
    [complex]: its magnitude is compared, and [int(result)] refuses it. *)
Definition format_result_value (result : Py.value) : Py.result string :=
  match result with
  | Py.VFloat x => format_result x
  | Py.VComplex re im =>
      a ← Py.complex_abs libm re im;
      if F64.gtb a c_1e15 then Py.Return (Cplx.format_e 6 re im)
      else
        a' ← Py.complex_abs libm re im;
        if F64.ltb a' c_1e_4 &&
           negb (F64.eqb re F64.zero && F64.eqb im F64.zero)
        then Py.Return (Cplx.format_e 6 re im)
        else
          Py.raise Py.TypeError
            ("int() argument must be a string, a bytes-like object or a " ++
             "real number, not 'complex'")
  end.

(** The history of the loop: the expressions and their printed results. *)
Definition history_t : Type := list (string * string).

(** How an iteration of the loop ends: [continue] or the end of the body,
    [break], or an exception that no clause catches. *)
Inductive control : Type :=
| Next (history : history_t)
| Break
| Uncaught (e : Py.exception).

Definition help_lines : list effect :=
  [ Print (nl ++ "=== Calculator Help ===");
    Print "Operators: + - * / % ** // (floor division)";
    Print "Functions: sqrt, sin, cos, tan, log, log10, exp, abs, ceil, floor, round";
    Print "           degrees, radians, asin, acos, atan, sinh, cosh, tanh";
    Print "Constants: pi, e, tau, inf";
    Print "Commands: 'history' - show calculation history";
    Print "          'clear' - clear history";
    Print "Examples: pi * 2, sqrt(16), sin(pi/2), abs(-5)";
    Print ("======================" ++ nl) ].

(** [for i, (expr, res) in enumerate(l, i): print(...)]. *)
Fixpoint history_lines (i : Z) (l : history_t) : list effect :=
  match l with
  | [] => []
  | (expr, res) :: l' =>
      Print (format_2d i ++ ". " ++ expr ++ " = " ++ res) ::
      history_lines (i + 1) l'
  end.

(** The body of the loop of [repl], after [s = input("calc> ").strip()]. *)
Definition repl_line (history : history_t) (s : string)
    : option (list effect * control) :=
  if String.eqb s "" then Some ([], Next history)
  else if Str.among (Str.lower s) ["quit"; "exit"] then Some ([], Break)
  else if Str.among (Str.lower s) ["help"; "h"]
  then Some (help_lines, Next history)
  else if String.eqb (Str.lower s) "history" then
    Some (match history with
          | [] => [Print "No calculation history yet."]
          | _ =>
              (Print (nl ++ "=== Calculation History ===") ::
               history_lines 1 (last_n 10 history) ++
               [Print ("===========================" ++ nl)])%list
          end, Next history)
  else if String.eqb (Str.lower s) "clear"
  then Some ([Print "History cleared."], Next [])
  else
    r ← evaluate_expression libm syntax_error_msg s;
    Some
      match r with
      | Py.Raise e =>
          if Py.issubclass (Py.exc_class e) Py.EvalError
          then ([Print ("Error: " ++ Py.exc_str e)], Next history)
          else if existsb (Py.issubclass (Py.exc_class e)) Py.Exception
          then ([Print ("Unexpected error: " ++ Py.exc_str e)], Next history)
          else ([], Uncaught e)
      | Py.Return result =>
          match format_result_value result with
          | Py.Raise e => ([], Uncaught e)
          | Py.Return formatted_result =>
              ([Print formatted_result],
               Next (history ++ [(s, formatted_result)])%list)
          end
      end.

(** The loop of [repl]. [input] raises [EOFError] at the end of the
    input; that and the interrupt are answered by an empty line and
    [break]. *)
Fixpoint repl_loop (events : list input_event) (history : history_t)
    : option (list effect * Py.result unit) :=
  match events with
  | [] | KeyboardInterrupt :: _ =>
      Some ([Input "calc> "; Print ""], Py.Return tt)
  | Line raw :: rest =>
      if negb (forallb Parser.modelled_char (list_ascii_of_string raw))
      then None
      else
        '(out, c) ← repl_line history (Str.strip raw);
        match c with
        | Next history' =>
            '(out', r) ← repl_loop rest history';
            Some (Input "calc> " :: (out ++ out')%list, r)
        | Break => Some (Input "calc> " :: out, Py.Return tt)
        | Uncaught e => Some (Input "calc> " :: out, Py.Raise e)
        end
  end.

Definition banner : list effect :=
  [ Print "Enhanced Calculator REPL — Enhanced with more functions, constants, and history!";
    Print "Type 'help' for commands, 'quit' or 'exit' to leave." ].

(** [repl]. *)
Definition repl (events : list input_event)
    : option (list effect * Py.result unit) :=
  '(out, r) ← repl_loop events [];
  Some ((banner ++ out)%list, r).

(** The loop of [run_tests] over the rest of the table. *)
Fixpoint run_tests_from (l : list (string * Z)) (ok : bool)
    : option (list effect * Py.result bool) :=
  match l with
  | [] => Some ([], Py.Return ok)
  | (expr, expected) :: l' =>
      r ← evaluate_expression libm syntax_error_msg expr;
      match r with
      | Py.Raise e =>
          if Py.issubclass (Py.exc_class e) Py.EvalError then
            '(out, res) ← run_tests_from l' false;
            Some (Print ("FAIL: " ++ expr ++ " -> raised EvalError: " ++
                         Py.exc_str e) :: out, res)
          else Some ([], Py.Raise e)
      | Py.Return got =>
          match (d ← Py.py_sub got (Py.VFloat (F64.of_Z expected));
                 a ← Py.builtin_abs libm d;
                 Py.builtin_float a) with
          | Py.Raise e => Some ([], Py.Raise e)
          | Py.Return a =>
              if F64.gtb a c_1e_9 then
                '(out, res) ← run_tests_from l' false;
                Some (Print ("FAIL: " ++ expr ++ " = " ++ str_value got ++
                             " (expected " ++ Py.str_int expected ++ ")")
                      :: out, res)
              else
                '(out, res) ← run_tests_from l' ok;
                Some (Print ("OK:   " ++ expr ++ " = " ++ str_value got)
                      :: out, res)
          end
      end
  end.

(** [run_tests]. *)
Definition run_tests : option (list effect * Py.result bool) :=
  run_tests_from tests true.

(** [main], from the parsed command line on. *)
Definition main (args : Namespace) (events : list input_event)
    : option (list effect * Py.result Z) :=
  if args_test args then
    '(out, r) ← run_tests;
    Some
      match r : Py.result bool with
      | Py.Raise e => (out, Py.Raise e)
      | Py.Return success =>
          ((out ++ [Print (if success then "All tests passed."
                           else "Some tests failed.")])%list,
           Py.Return (if success then 0 else 2))
      end
  else
    match args_expr args with
    | Some (String c e) =>
        r ← evaluate_expression libm syntax_error_msg (String c e);
        Some
          match r with
          | Py.Raise ex =>
              if Py.issubclass (Py.exc_class ex) Py.EvalError
              then ([Print ("Error: " ++ Py.exc_str ex)], Py.Return 1)
              else ([], Py.Raise ex)
          | Py.Return result =>
              match format_result_value result with
              | Py.Raise ex => ([], Py.Raise ex)
              | Py.Return text => ([Print text], Py.Return 0)
              end
          end
    | _ =>
        '(out, r) ← repl events;
        Some (out, _ ← r; Py.Return 0)
    end.

End Program.

(** The texts that [repl] answers itself: the empty line and the command
    words, in any case of letters. *)
Definition is_command (s : string) : bool :=
  String.eqb s "" ||
  Str.among (Str.lower s) ["quit"; "exit"; "help"; "h"; "history"; "clear"].

(** What the history holds when every entry is an expression with the
    text that [format_result] made of its value. *)
Definition recorded (libm : Py.Libm) (syntax_error_msg : string -> string)
    (history : history_t) : Prop :=
  Forall (fun entry : string * string =>
            exists v,
              evaluate_expression libm syntax_error_msg (fst entry) =
                Some (Py.Return v) /\
              format_result_value libm v = Py.Return (snd entry))
         history.

(** What [run_tests] needs of the platform beside its [pow]: the three
    values of libm that its table asks for are the exact ones. *)
Definition exact_at_the_tests (m : Py.Libm) : Prop :=
  Py.libm1 m Py.c_sin (F64.of_Z 0) = (F64.of_Z 0, Py.ENONE) /\
  Py.libm1 m Py.c_log10 (F64.of_Z 100) = (F64.of_Z 2, Py.ENONE) /\
  Py.libm1 m Py.c_exp (F64.of_Z 0) = (F64.of_Z 1, Py.ENONE).

(** A C library that knows these values and the exact powers, and nothing
    else; it shows that the two assumptions can be met. *)
Definition tests_libm : Py.Libm :=
  {| Py.libm1 := fun f x =>
       match f with
       | Py.c_sin => (F64.of_Z 0, Py.ENONE)
       | Py.c_log10 => (F64.of_Z 2, Py.ENONE)
       | Py.c_exp => (F64.of_Z 1, Py.ENONE)
       | _ => (F64.nan, Py.EDOM)
       end;
     Py.libm_pow := Py.libm_pow Py.exact_powers_libm;
     Py.libm_hypot := Py.libm_hypot Py.exact_powers_libm;
     Py.libm_cpow := Py.libm_cpow Py.exact_powers_libm |}.

(** A C library that knows the square root of [-1] as CPython computes it,
    [(6.123233995736766e-17+1j)], and its magnitude; it shows that the
    assumptions on a complex power can be met. *)
Definition imaginary_unit_libm : Py.Libm :=
  {| Py.libm1 := Py.libm1 Py.exact_powers_libm;
     Py.libm_pow := Py.libm_pow Py.exact_powers_libm;
     Py.libm_hypot := fun _ _ => F64.one;
     Py.libm_cpow := fun a b =>
       match a, b with
       | (S754_finite true 4503599627370496 (-52), S754_zero false),
         (S754_finite false 4503599627370496 (-53), S754_zero false) =>
           ((S754_finite false 4967757600021511 (-106), F64.one), Py.ENONE)
       | _, _ => ((F64.nan, F64.nan), Py.EDOM)
       end |}.

(** * Properties *)

(** ** Unfolding [safe_eval] *)

Section Unfolding.

Variable libm : Py.Libm.

Lemma ast_Num_exists : ast_getattr "Num" = Py.Return tt.
Proof. reflexivity. Qed.

Lemma ast_Paren_missing :
  ast_getattr "Paren" =
  Py.raise Py.AttributeError "module 'ast' has no attribute 'Paren'".
Proof. reflexivity. Qed.

Lemma safe_eval_Name (id : string) :
  safe_eval_expr libm (Ast.Name id) =
  match constants !! id with
  | Some c => Py.Return (Py.VFloat c)
  | None => Py.raise Py.EvalError ("Undefined variable: " ++ id)
  end.
Proof. reflexivity. Qed.

Lemma safe_eval_BinOp (l r : Ast.expr) (op : Ast.operator) :
  safe_eval_expr libm (Ast.BinOp l op r) =
  (left ← safe_eval_expr libm l;
   right ← safe_eval_expr libm r;
   match ALLOWED_BINARY_OPS libm op with
   | None =>
       Py.raise Py.EvalError
         ("Operator " ++ Ast.operator_name op ++ " not allowed")
   | Some func =>
       Py.try_except (func left right) Py.Exception
         (fun e => Py.raise Py.EvalError
                     ("Error evaluating binary op: " ++ Py.exc_str e))
   end).
Proof. reflexivity. Qed.

Lemma safe_eval_Call_allowed (name : string) (args : list Ast.expr)
    (keywords : list (string * Ast.expr)) :
  name ∈ allowed_functions ->
  safe_eval_expr libm (Ast.Call (Ast.Name name) args keywords) =
  (vs ← eval_args libm args; call_function libm name vs).
Proof.
  intros Hin. change (safe_eval_expr libm (Ast.Call (Ast.Name name) args keywords))
    with (if bool_decide (name ∈ allowed_functions)
          then vs ← eval_args libm args; call_function libm name vs
          else Py.raise Py.EvalError disallowed_call_message).
  by rewrite bool_decide_eq_true_2.
Qed.

Lemma safe_eval_Call_disallowed (func : Ast.expr) (args : list Ast.expr)
    (keywords : list (string * Ast.expr)) :
  (forall f, func = Ast.Name f -> f ∉ allowed_functions) ->
  safe_eval_expr libm (Ast.Call func args keywords) =
  Py.raise Py.EvalError disallowed_call_message.
Proof.
  intros Hf. destruct func; try reflexivity.
  change (safe_eval_expr libm (Ast.Call (Ast.Name id) args keywords))
    with (if bool_decide (id ∈ allowed_functions)
          then vs ← eval_args libm args; call_function libm id vs
          else Py.raise Py.EvalError disallowed_call_message).
  rewrite bool_decide_eq_false_2; [reflexivity | by apply Hf].
Qed.

End Unfolding.

(** ** The two tables *)

Lemma constants_names :
  dom constants = ({[ "pi"; "e"; "tau"; "inf" ]} : gset string).
Proof. reflexivity. Qed.

Lemma sorted_allowed_functions :
  sorted allowed_functions =
  [ "abs"; "acos"; "asin"; "atan"; "ceil"; "cos"; "cosh"; "degrees"; "exp";
    "floor"; "log"; "log10"; "radians"; "round"; "sin"; "sinh"; "sqrt";
    "tan"; "tanh" ].
Proof. vm_compute. reflexivity. Qed.

(** ** C1: the allowlists *)

(** C1, as the code has it. For every identifier that is not one of the
    four constants [pi], [e], [tau], [inf], evaluating the name fails with
    the error "Undefined variable: <name>"; for every call whose callee is
    not a bare identifier of the function table, evaluation fails with the
    error for disallowed calls, whatever the arguments and the platform
    are (no argument is evaluated and no function is called). The message
    lists the allowed names in ascending order; the table holds 19 names. *)
Theorem allowlist_enforced (libm : Py.Libm) (name : string)
    (func : Ast.expr) (args : list Ast.expr)
    (keywords : list (string * Ast.expr)) :
  name ∉ ({[ "pi"; "e"; "tau"; "inf" ]} : gset string) ->
  (forall f, func = Ast.Name f -> f ∉ allowed_functions) ->
  safe_eval_expr libm (Ast.Name name) =
    Py.raise Py.EvalError ("Undefined variable: " ++ name)
  /\ safe_eval_expr libm (Ast.Call func args keywords) =
       Py.raise Py.EvalError
         ("Function calls are not allowed except math functions: " ++
          join ", " (sorted allowed_functions))
  /\ StronglySorted String.le (sorted allowed_functions)
  /\ sorted allowed_functions ≡ₚ elements allowed_functions
  /\ join ", " (sorted allowed_functions) =
       "abs, acos, asin, atan, ceil, cos, cosh, degrees, exp, floor, log, log10, radians, round, sin, sinh, sqrt, tan, tanh"
  /\ size allowed_functions = 19%nat.
Proof.
  intros Hname Hfunc. split_and!.
  - rewrite safe_eval_Name.
    assert (constants !! name = None) as ->; [|reflexivity].
    apply not_elem_of_dom. by rewrite constants_names.
  - by apply safe_eval_Call_disallowed.
  - apply StronglySorted_merge_sort; apply _.
  - apply merge_sort_Permutation.
  - by rewrite sorted_allowed_functions.
  - reflexivity.
Qed.

(** The spec's examples [foo] and [open('x')], the latter with an argument
    whose own evaluation would not succeed. *)
Lemma allowlist_enforced_witness :
  safe_eval_expr Py.exact_powers_libm (Ast.Name "foo") =
    Py.raise Py.EvalError "Undefined variable: foo"
  /\ safe_eval_expr Py.exact_powers_libm
       (Ast.Call (Ast.Name "open") [Ast.Constant (Ast.CStr "x")] []) =
     Py.raise Py.EvalError
       ("Function calls are not allowed except math functions: " ++
        join ", " (sorted allowed_functions)).
Proof.
  pose proof (allowlist_enforced Py.exact_powers_libm "foo" (Ast.Name "open")
                [Ast.Constant (Ast.CStr "x")] []) as H.
  destruct H as (H1 & H2 & _).
  - compute_done.
  - intros f [= <-]. compute_done.
  - split; [exact H1 | exact H2].
Defined.

(** The claim counts 18 names in the table; the source lists 19. *)
Lemma function_table_is_not_18_names : size allowed_functions <> 18%nat.
Proof. vm_compute. discriminate. Qed.

(** ** C2: exceptions that [safe_eval] lets through *)

(** Whatever a call returns is a [float]: each branch of the [try] wraps
    its result in [float(...)]. *)
Lemma call_returns_float (libm : Py.Libm) (name : string)
    (args : list Py.value) (v : Py.value) :
  call_function libm name args = Py.Return v -> Py.is_float v = true.
Proof.
  unfold call_function, Py.try_except.
  repeat match goal with
  | |- context [if ?c then _ else _] => destruct c
  | |- context [mbind _ ?r] => destruct r; simpl
  | |- context [match ?r with Py.Return _ => _ | Py.Raise _ => _ end] =>
      destruct r; simpl
  end; intros [= <-] || discriminate; reflexivity.
Qed.

(** C2 at the failing inputs. [ceil(inf)] overflows inside [math.ceil];
    the [except] clause of the call branch names [AttributeError],
    [ValueError] and [TypeError] only, so the [OverflowError] leaves
    [evaluate_expression] as it is. [1 < 2] is a node of no handled class:
    it reaches the test against [ast.Paren], a name the [ast] module does
    not have, and the [AttributeError] of that lookup is what leaves. In
    neither case is the exception an [EvalError]. *)
Theorem exceptions_escape_safe_eval (libm : Py.Libm)
    (syntax_error_msg : string -> string) :
  evaluate_expression libm syntax_error_msg "ceil(inf)" =
    Some (Py.raise Py.OverflowError "cannot convert float infinity to integer")
  /\ evaluate_expression libm syntax_error_msg "1 < 2" =
       Some (Py.raise Py.AttributeError
               "module 'ast' has no attribute 'Paren'").
Proof. split; reflexivity. Qed.

(** ** C9: booleans are numbers *)

(** C9. [True] and [False] are [ast.Constant] nodes whose value passes
    [isinstance(value, (int, float))], [bool] being a subclass of [int]:
    they evaluate to [1.0] and [0.0]. The two doubles are written out:
    [1.0] is the mantissa [2^52 = 4503599627370496] with the exponent
    [-52], [0.0] is the zero of positive sign; they are printed as [1.0]
    and [0.0] by [repr], as [1] and [0] by [format_result]. *)
Theorem boolean_literals_are_numbers (libm : Py.Libm)
    (syntax_error_msg : string -> string) :
  evaluate_expression libm syntax_error_msg "True" =
    Some (Py.Return (Py.VFloat (S754_finite false 4503599627370496 (-52))))
  /\ evaluate_expression libm syntax_error_msg "False" =
       Some (Py.Return (Py.VFloat (S754_zero false)))
  /\ (forall b : bool,
        safe_eval libm (Ast.Expression (Ast.Constant (Ast.CBool b))) =
        Py.Return (Py.VFloat (if b
                              then S754_finite false 4503599627370496 (-52)
                              else S754_zero false)))
  /\ Repr.float_repr (S754_finite false 4503599627370496 (-52)) = "1.0"
  /\ Repr.float_repr (S754_zero false) = "0.0"
  /\ format_result (S754_finite false 4503599627370496 (-52)) =
       Py.Return "1"
  /\ format_result (S754_zero false) = Py.Return "0".
Proof. split_and!; try reflexivity. by intros []. Qed.

(** ** C10: [format_result] on NaN *)

(** C10. A NaN is neither above [1e15] nor below [1e-4] in magnitude, so
    [format_result] goes on to [int(result)], which raises [ValueError]. *)
Theorem format_result_nan_raises :
  format_result F64.nan =
  Py.raise Py.ValueError "cannot convert float NaN to integer".
Proof. reflexivity. Qed.

(** ** C3: what the parser accepts *)

(** A comparison is no syntax error: [ast.parse] builds a [Compare] node. *)
Lemma comparison_is_parsed :
  Parser.parse "1<2" =
  Parser.Parsed
    (Ast.Expression
       (Ast.Compare (Ast.Constant (Ast.CInt 1)) [Ast.Lt]
          [Ast.Constant (Ast.CInt 2)])).
Proof. reflexivity. Qed.

(** C3, as the code has it. Of the constructs outside the calculator's
    grammar only assignment fails at the syntax level, and
    [evaluate_expression] reports it as an [EvalError] that starts with
    "Syntax error: ". Comparison, boolean logic, string and boolean
    literals, list literals, attribute and index access and lambda are
    parsed into [Compare], [BoolOp], [Constant], [List], [Attribute],
    [Subscript] and [Lambda] nodes; refusing them is left to [safe_eval],
    which refuses every string constant with "Unsupported constant type:
    str". *)
Theorem constructs_outside_the_grammar (libm : Py.Libm)
    (syntax_error_msg : string -> string) (s : string) :
  Parser.parse "x = 1" = Parser.SyntaxErr
  /\ evaluate_expression libm syntax_error_msg "x = 1" =
       Some (Py.raise Py.EvalError
               ("Syntax error: " ++ syntax_error_msg "x = 1"))
  /\ Parser.parse "1 < 2" =
       Parser.Parsed (Ast.Expression
         (Ast.Compare (Ast.Constant (Ast.CInt 1)) [Ast.Lt]
            [Ast.Constant (Ast.CInt 2)]))
  /\ Parser.parse "1 and 2" =
       Parser.Parsed (Ast.Expression
         (Ast.BoolOp Ast.And
            [Ast.Constant (Ast.CInt 1); Ast.Constant (Ast.CInt 2)]))
  /\ Parser.parse "'abc'" =
       Parser.Parsed (Ast.Expression (Ast.Constant (Ast.CStr "abc")))
  /\ Parser.parse "True" =
       Parser.Parsed (Ast.Expression (Ast.Constant (Ast.CBool true)))
  /\ Parser.parse "[1, 2]" =
       Parser.Parsed (Ast.Expression
         (Ast.List_ [Ast.Constant (Ast.CInt 1); Ast.Constant (Ast.CInt 2)]))
  /\ Parser.parse "pi.real" =
       Parser.Parsed (Ast.Expression (Ast.Attribute (Ast.Name "pi") "real"))
  /\ Parser.parse "pi[0]" =
       Parser.Parsed (Ast.Expression
         (Ast.Subscript (Ast.Name "pi") (Ast.Constant (Ast.CInt 0))))
  /\ Parser.parse "lambda: 1" =
       Parser.Parsed (Ast.Expression
         (Ast.Lambda [] (Ast.Constant (Ast.CInt 1))))
  /\ safe_eval libm (Ast.Expression (Ast.Constant (Ast.CStr s))) =
       Py.raise Py.EvalError "Unsupported constant type: str".
Proof. split_and!; reflexivity. Qed.

(** The two limits of the parser: 200 nested brackets are accepted and 201
    are a syntax error; a tree of 500 nodes in depth is built, a deeper one
    is left outside the model. *)
Example nesting_limits :
  let nested (n : nat) :=
    string_of_list_ascii
      (repeat "("%char n ++ ["1"%char] ++ repeat ")"%char n) in
  let negated (n : nat) :=
    string_of_list_ascii (repeat "-"%char n ++ ["1"%char]) in
  Parser.parse (nested 200%nat) =
    Parser.Parsed (Ast.Expression (Ast.Constant (Ast.CInt 1)))
  /\ Parser.parse (nested 201%nat) = Parser.SyntaxErr
  /\ (exists tree, Parser.parse (negated 499%nat) = Parser.Parsed tree)
  /\ Parser.parse (negated 500%nat) = Parser.Outside.
Proof.
  cbv zeta. split_and!; [vm_compute; reflexivity .. | | vm_compute; reflexivity].
  eexists. vm_compute. reflexivity.
Qed.

(** ** C4: division by zero *)

(** [1/0] is an error, not an infinity. *)
Lemma division_by_zero_is_an_error :
  Parser.parse "1/0" =
    Parser.Parsed (Ast.Expression
      (Ast.BinOp (Ast.Constant (Ast.CInt 1)) Ast.Div
         (Ast.Constant (Ast.CInt 0))))
  /\ forall libm syntax_error_msg,
       evaluate_expression libm syntax_error_msg "1/0" =
       Some (Py.raise Py.EvalError
               "Error evaluating binary op: float division by zero").
Proof. split; [reflexivity | intros; reflexivity]. Qed.

(** C4, as the code has it. Python's [/] raises [ZeroDivisionError] for a
    zero divisor, of either sign, whatever the dividend is (a NaN and the
    infinities included); the [except Exception] clause of the [BinOp]
    branch turns it into an [EvalError]. No division by zero yields an
    infinity or a NaN. *)
Theorem division_by_zero_raises (libm : Py.Libm) (l r : Ast.expr)
    (x : Py.value) (y : Py.float) :
  safe_eval_expr libm l = Py.Return x ->
  safe_eval_expr libm r = Py.Return (Py.VFloat y) ->
  F64.eqb y F64.zero = true ->
  safe_eval_expr libm (Ast.BinOp l Ast.Div r) =
  Py.raise Py.EvalError
    ("Error evaluating binary op: " ++
     Py.type_name x ++ " division by zero").
Proof.
  intros Hl Hr Hy. rewrite safe_eval_BinOp, Hl, Hr. simpl.
  destruct y as [s | s | | s m e]; destruct x as [a | re im];
    try destruct s; try discriminate Hy; reflexivity.
Qed.

Lemma division_by_zero_raises_witness :
  safe_eval_expr Py.exact_powers_libm
    (Ast.BinOp (Ast.Constant (Ast.CInt 1)) Ast.Div
       (Ast.Constant (Ast.CInt 0))) =
  Py.raise Py.EvalError "Error evaluating binary op: float division by zero".
Proof.
  apply (division_by_zero_raises Py.exact_powers_libm
           (Ast.Constant (Ast.CInt 1)) (Ast.Constant (Ast.CInt 0))
           (Py.VFloat (F64.of_Z 1)) F64.zero); reflexivity.
Defined.

(** ** C6: the number of arguments *)

(** C6 at the failing inputs. [abs(-5, 99)] evaluates to [5.0] (the
    mantissa [5 * 2^50] with the exponent [-50]): the branch of [abs]
    reads [args[0]] and never looks at the number of arguments, where the
    branch of [round] tests [len(args)] and the last branch passes all of
    them on; with no argument, its [args[0]] leaves an [IndexError].
    [sqrt(16, x=5)] evaluates to [4.0] (the mantissa [2^52] with the
    exponent [-50]): [node.keywords] is never read. Both are the silent
    success that ignores further arguments. In general the keywords of a
    call change nothing, whatever the callee is, and [abs] of one
    argument and more is [abs] of the first. *)
Theorem further_arguments_are_ignored (libm : Py.Libm)
    (syntax_error_msg : string -> string) :
  Parser.parse "abs(-5, 99)" =
    Parser.Parsed (Ast.Expression
      (Ast.Call (Ast.Name "abs")
         [Ast.UnaryOp Ast.USub (Ast.Constant (Ast.CInt 5));
          Ast.Constant (Ast.CInt 99)] []))
  /\ evaluate_expression libm syntax_error_msg "abs(-5, 99)" =
       Some (Py.Return
               (Py.VFloat (S754_finite false 5629499534213120 (-50))))
  /\ Parser.parse "sqrt(16, x=5)" =
       Parser.Parsed (Ast.Expression
         (Ast.Call (Ast.Name "sqrt") [Ast.Constant (Ast.CInt 16)]
            [("x", Ast.Constant (Ast.CInt 5))]))
  /\ evaluate_expression libm syntax_error_msg "sqrt(16, x=5)" =
       Some (Py.Return
               (Py.VFloat (S754_finite false 4503599627370496 (-50))))
  /\ evaluate_expression libm syntax_error_msg "abs()" =
       Some (Py.raise Py.IndexError "list index out of range")
  /\ (forall (func : Ast.expr) (args : list Ast.expr)
             (keywords : list (string * Ast.expr)),
        safe_eval_expr libm (Ast.Call func args keywords) =
        safe_eval_expr libm (Ast.Call func args []))
  /\ (forall (v : Py.value) (vs : list Py.value),
        call_function libm "abs" (v :: vs) = call_function libm "abs" [v]).
Proof. split_and!; reflexivity. Qed.

(** Where the number of arguments is not ignored. The calculator has no
    check of its own on the number of arguments and no error kind for it:
    it passes the positional arguments on, and the [TypeError] (for
    [round], the [AttributeError]) of the runtime comes back as the
    [EvalError] "Error calling <name>: <text of the runtime>". This holds
    for every function of the table but [abs], and for every number of
    positional arguments that the function does not take: any number but
    one, and for [log] any number but one and two. *)
Theorem arity_mismatch_is_an_error (libm : Py.Libm) (name : string)
    (args : list Ast.expr) (keywords : list (string * Ast.expr))
    (vs : list Py.value) :
  name ∈ allowed_functions ->
  name <> "abs" ->
  eval_args libm args = Py.Return vs ->
  accepts name (length vs) = false ->
  safe_eval_expr libm (Ast.Call (Ast.Name name) args keywords) =
  Py.raise Py.EvalError
    ("Error calling " ++ name ++ ": " ++
     arity_error_detail name (length vs)).
Proof.
  intros Hin Habs Hargs Hacc.
  rewrite safe_eval_Call_allowed by done. rewrite Hargs.
  change (call_function libm name vs =
          Py.raise Py.EvalError
            ("Error calling " ++ name ++ ": " ++
             arity_error_detail name (length vs))).
  unfold allowed_functions in Hin. set_unfold in Hin.
  repeat (destruct Hin as [Hin | Hin]); subst name; try done;
    destruct vs as [|a [|b [|c vs]]]; try discriminate Hacc; reflexivity.
Qed.

(** [sqrt(1, 2)]. *)
Lemma arity_mismatch_is_an_error_witness :
  safe_eval_expr Py.exact_powers_libm
    (Ast.Call (Ast.Name "sqrt")
       [Ast.Constant (Ast.CInt 1); Ast.Constant (Ast.CInt 2)] []) =
  Py.raise Py.EvalError
    "Error calling sqrt: math.sqrt() takes exactly one argument (2 given)".
Proof.
  apply (arity_mismatch_is_an_error Py.exact_powers_libm "sqrt"
           [Ast.Constant (Ast.CInt 1); Ast.Constant (Ast.CInt 2)] []
           [Py.VFloat (F64.of_Z 1); Py.VFloat (F64.of_Z 2)]).
  - compute_done.
  - discriminate.
  - reflexivity.
  - reflexivity.
Defined.

(** ** C7: the power operator *)

Section Power.

Variable libm : Py.Libm.
Hypothesis pow_exact : Py.pow_is_exact libm.

(** The platform's [pow] on an exact power, through [float_pow]. *)
Lemma float_pow_computes (x y r : Py.float) :
  Py.exact_pow x y = Some r ->
  F64.eqb x F64.one = false ->
  Py.float_pow libm x y = Py.Return (Py.VFloat r).
Proof.
  intros He Hx. pose proof (pow_exact x y r He) as Hpow.
  unfold Py.exact_pow in He.
  destruct x as [| | |[] mx ex]; try discriminate He.
  destruct y as [sy| | |sy my ey]; try discriminate He.
  destruct (F64.trunc_Z (S754_finite sy my ey)) as [n|] eqn:Ht;
    [|discriminate He].
  destruct (Z.ltb 0 n) eqn:Hn; [|discriminate He].
  assert (sy = false) as ->.
  { destruct sy; [exfalso|reflexivity].
    simpl in Ht. injection Ht as <-. apply Z.ltb_lt in Hn.
    unfold cond_Zopp in Hn.
    assert (0 <= fst (F64.trunc_parts my ey)); [|lia].
    unfold F64.trunc_parts. destruct (0 <=? ey) eqn:E; simpl.
    - apply Z.mul_nonneg_nonneg; [lia | apply Z.pow_nonneg; lia].
    - apply Z.leb_gt in E.
      apply Z.div_pos; [lia | apply Z.pow_pos_nonneg; lia]. }
  unfold Py.float_pow.
  change (F64.eqb (S754_finite false my ey) F64.zero) with false.
  change (F64.is_nan (S754_finite false mx ex)) with false.
  change (F64.is_nan (S754_finite false my ey)) with false.
  change (F64.is_inf (S754_finite false my ey)) with false.
  change (F64.is_inf (S754_finite false mx ex)) with false.
  change (F64.eqb (S754_finite false mx ex) F64.zero) with false.
  change (F64.ltb (S754_finite false mx ex) F64.zero) with false.
  cbn [andb]. cbv zeta. rewrite Hx, Hpow.
  assert (F64.is_inf r = false) as Hr.
  { cbn [andb] in He.
    repeat case_match; try discriminate He. by injection He as <-. }
  unfold Py.adjust_erange1. rewrite Hr. reflexivity.
Qed.

Lemma safe_eval_Pow (l r : Ast.expr) (x y v : Py.float) :
  safe_eval_expr libm l = Py.Return (Py.VFloat x) ->
  safe_eval_expr libm r = Py.Return (Py.VFloat y) ->
  Py.exact_pow x y = Some v ->
  F64.eqb x F64.one = false ->
  safe_eval_expr libm (Ast.BinOp l Ast.Pow r) = Py.Return (Py.VFloat v).
Proof.
  intros Hl Hr He Hx. rewrite safe_eval_BinOp, Hl, Hr.
  change (Py.try_except (Py.float_pow libm x y) Py.Exception
            (fun e => Py.raise Py.EvalError
                        ("Error evaluating binary op: " ++ Py.exc_str e)) =
          Py.Return (Py.VFloat v)).
  by rewrite (float_pow_computes x y v).
Qed.

(** C7, as the code has it. [2**3**1] parses as [2**(3**1)] and evaluates
    to 8, which is not 64. The left association [(2**3)**1] evaluates to 8
    as well; the two associations differ on [2**3**2], which is 512 where
    [(2**3)**2] is 64. *)
Theorem power_is_right_associative (syntax_error_msg : string -> string) :
  Parser.parse "2**3**1" =
    Parser.Parsed (Ast.Expression
      (Ast.BinOp (Ast.Constant (Ast.CInt 2)) Ast.Pow
         (Ast.BinOp (Ast.Constant (Ast.CInt 3)) Ast.Pow
            (Ast.Constant (Ast.CInt 1)))))
  /\ evaluate_expression libm syntax_error_msg "2**3**1" =
       Some (Py.Return (Py.VFloat (F64.of_Z 8)))
  /\ F64.eqb (F64.of_Z 8) (F64.of_Z 64) = false
  /\ evaluate_expression libm syntax_error_msg "(2**3)**1" =
       Some (Py.Return (Py.VFloat (F64.of_Z 8)))
  /\ evaluate_expression libm syntax_error_msg "2**3**2" =
       Some (Py.Return (Py.VFloat (F64.of_Z 512)))
  /\ evaluate_expression libm syntax_error_msg "(2**3)**2" =
       Some (Py.Return (Py.VFloat (F64.of_Z 64))).
Proof.
  assert (P : forall l r x y v,
             safe_eval_expr libm l = Py.Return (Py.VFloat (F64.of_Z x)) ->
             safe_eval_expr libm r = Py.Return (Py.VFloat (F64.of_Z y)) ->
             Py.exact_pow (F64.of_Z x) (F64.of_Z y) = Some (F64.of_Z v) ->
             F64.eqb (F64.of_Z x) F64.one = false ->
             safe_eval_expr libm (Ast.BinOp l Ast.Pow r) =
             Py.Return (Py.VFloat (F64.of_Z v))).
  { intros l r x y v. apply safe_eval_Pow. }
  assert (E31 := P (num 3) (num 1) 3 1 3 eq_refl eq_refl eq_refl eq_refl).
  assert (E32 := P (num 3) (num 2) 3 2 9 eq_refl eq_refl eq_refl eq_refl).
  assert (E23 := P (num 2) (num 3) 2 3 8 eq_refl eq_refl eq_refl eq_refl).
  assert (E2_31 := P (num 2) _ 2 3 8 eq_refl E31 eq_refl eq_refl).
  assert (E2_32 := P (num 2) _ 2 9 512 eq_refl E32 eq_refl eq_refl).
  assert (E23_1 := P _ (num 1) 8 1 8 E23 eq_refl eq_refl eq_refl).
  assert (E23_2 := P _ (num 2) 8 2 64 E23 eq_refl eq_refl eq_refl).
  split_and!; try reflexivity; unfold evaluate_expression.
  - change (Parser.parse "2**3**1") with
      (Parser.Parsed (Ast.Expression
         (Ast.BinOp (num 2) Ast.Pow (Ast.BinOp (num 3) Ast.Pow (num 1))))).
    f_equal. exact E2_31.
  - change (Parser.parse "(2**3)**1") with
      (Parser.Parsed (Ast.Expression
         (Ast.BinOp (Ast.BinOp (num 2) Ast.Pow (num 3)) Ast.Pow (num 1)))).
    f_equal. exact E23_1.
  - change (Parser.parse "2**3**2") with
      (Parser.Parsed (Ast.Expression
         (Ast.BinOp (num 2) Ast.Pow (Ast.BinOp (num 3) Ast.Pow (num 2))))).
    f_equal. exact E2_32.
  - change (Parser.parse "(2**3)**2") with
      (Parser.Parsed (Ast.Expression
         (Ast.BinOp (Ast.BinOp (num 2) Ast.Pow (num 3)) Ast.Pow (num 2)))).
    f_equal. exact E23_2.
Qed.

End Power.

Lemma exact_powers_libm_is_exact : Py.pow_is_exact Py.exact_powers_libm.
Proof. intros x y r H. simpl. by rewrite H. Qed.

(** On the libm of the exact powers. *)
Lemma power_is_right_associative_witness :
  evaluate_expression Py.exact_powers_libm (fun _ => "invalid syntax")
    "2**3**1" = Some (Py.Return (Py.VFloat (F64.of_Z 8))).
Proof.
  exact (proj1 (proj2 (power_is_right_associative Py.exact_powers_libm
                         exact_powers_libm_is_exact
                         (fun _ => "invalid syntax")))).
Defined.

(** The left association of [2**3**1] does not give 64. *)
Lemma left_association_gives_8 :
  Parser.parse "(2**3)**1" =
    Parser.Parsed (Ast.Expression
      (Ast.BinOp
         (Ast.BinOp (Ast.Constant (Ast.CInt 2)) Ast.Pow
            (Ast.Constant (Ast.CInt 3)))
         Ast.Pow (Ast.Constant (Ast.CInt 1))))
  /\ evaluate_expression Py.exact_powers_libm (fun _ => "invalid syntax")
       "(2**3)**1" = Some (Py.Return (Py.VFloat (F64.of_Z 8)))
  /\ F64.eqb (F64.of_Z 8) (F64.of_Z 64) = false.
Proof. split_and!; reflexivity. Qed.

(** ** C5: the sign of a remainder *)

Section Remainder.

Local Open Scope Z_scope.

(** Shifting a mantissa left multiplies it by a power of two. *)
Lemma iter_xO_value (m d : positive) :
  Zpos (Pos.iter xO m d) = Zpos m * 2 ^ Zpos d.
Proof.
  apply (Pos.iter_ind _ xO m (fun p a => Zpos a = Zpos m * 2 ^ Zpos p)).
  - rewrite Pos2Z.inj_xO. lia.
  - intros p a IH. rewrite Pos2Z.inj_xO, IH, Pos2Z.inj_succ, Z.pow_succ_r; lia.
Qed.

Lemma shl_align_value (m : positive) (e e' : Z) :
  e' <= e -> Zpos (fst (shl_align m e e')) = Zpos m * 2 ^ (e - e').
Proof.
  intros He. unfold shl_align.
  destruct (e' - e) as [|d|d] eqn:Hd; simpl.
  - replace (e - e') with 0 by lia. lia.
  - lia.
  - rewrite iter_xO_value. f_equal. f_equal. lia.
Qed.

(** Rounding keeps the sign: the result of [binary_round_aux] carries the
    sign it was given, unless it is a NaN. *)
Lemma binary_round_aux_sign (sx : bool) (mx ex : Z) (lx : location) :
  let r := binary_round_aux F64.prec F64.emax sx mx ex lx in
  F64.is_nan r = true \/ F64.signbit r = sx.
Proof.
  unfold binary_round_aux.
  destruct (shr_fexp F64.prec F64.emax mx ex lx) as [mrs' e'].
  destruct (shr_fexp _ _ _ e' loc_Exact) as [mrs'' e''].
  destruct (shr_m mrs''); [right | | left]; try reflexivity.
  destruct (_ <=? _); right; reflexivity.
Qed.

Lemma binary_normalize_sign (z e : Z) :
  z <> 0 ->
  let r := binary_normalize F64.prec F64.emax z e false in
  F64.is_nan r = true \/ F64.signbit r = (z <? 0).
Proof.
  intros Hz. destruct z as [|p|p]; [done | |];
    unfold binary_normalize, binary_round;
    destruct (shl_align _ _ _) as [mz ez]; apply binary_round_aux_sign.
Qed.

(** The sum of two finite doubles of opposite signs has the sign of the
    one of larger magnitude. *)
Lemma add_opposite_sign (s : bool) (m1 m2 : positive) (e1 e2 : Z) :
  Zpos m1 * 2 ^ (e1 - Z.min e1 e2) < Zpos m2 * 2 ^ (e2 - Z.min e1 e2) ->
  let r := F64.add (S754_finite (negb s) m1 e1) (S754_finite s m2 e2) in
  F64.is_nan r = true \/ F64.signbit r = s.
Proof.
  intros Hlt. unfold F64.add, SFadd.
  rewrite !shl_align_value by lia.
  set (a := Zpos m1 * 2 ^ (e1 - Z.min e1 e2)) in *.
  set (b := Zpos m2 * 2 ^ (e2 - Z.min e1 e2)) in *.
  assert (Ha : 0 < a).
  { apply Z.mul_pos_pos; [lia | apply Z.pow_pos_nonneg; lia]. }
  destruct s; unfold cond_Zopp, negb.
  - destruct (binary_normalize_sign (a + - b) (Z.min e1 e2)) as [H | H];
      [lia | by left | right].
    rewrite H. apply Z.ltb_lt. lia.
  - destruct (binary_normalize_sign (- a + b) (Z.min e1 e2)) as [H | H];
      [lia | by left | right].
    rewrite H. apply Z.ltb_ge. lia.
Qed.

(** The magnitude of [canonical s p e] is [p * 2^e]. *)
Lemma canonical_value (s : bool) (p : positive) (e : Z) :
  exists (m : positive) (k : Z),
    F64.canonical s p e = S754_finite s m (e - k) /\ 0 <= k /\
    Zpos m = Zpos p * 2 ^ k.
Proof.
  unfold F64.canonical.
  set (k := Z.max 0 _).
  exists (Z.to_pos (Zpos p * 2 ^ k)), k. split_and!; [done | lia |].
  apply Z2Pos.id. apply Z.mul_pos_pos; [lia | apply Z.pow_pos_nonneg; lia].
Qed.

(** What C's [fmod] returns for finite operands, the second one not zero:
    a zero, or a double of the sign of [x] that is smaller than [y] in
    magnitude. *)
Lemma fmod_finite (sx sy : bool) (mx my : positive) (ex ey : Z) :
  let r := F64.fmod (S754_finite sx mx ex) (S754_finite sy my ey) in
  r = S754_zero sx \/
  exists m e, r = S754_finite sx m e /\
    Zpos m * 2 ^ (e - Z.min e ey) < Zpos my * 2 ^ (ey - Z.min e ey).
Proof.
  unfold F64.fmod.
  set (e0 := Z.min ex ey).
  set (X := Zpos mx * 2 ^ (ex - e0)).
  set (Y := Zpos my * 2 ^ (ey - e0)).
  assert (HY : 0 < Y).
  { apply Z.mul_pos_pos; [lia | apply Z.pow_pos_nonneg; lia]. }
  pose proof (Z.mod_pos_bound X Y HY) as HR.
  destruct (X mod Y) as [|p|p] eqn:Hmod; [by left | | by left].
  right. destruct (canonical_value sx p e0) as (m & k & -> & Hk & Hm).
  exists m, (e0 - k). split; [done|].
  rewrite Hm.
  assert (Hmin : Z.min (e0 - k) ey = e0 - k) by lia. rewrite Hmin.
  replace (e0 - k - (e0 - k)) with 0 by lia.
  replace (ey - (e0 - k)) with ((ey - e0) + k) by lia.
  rewrite Z.pow_add_r by lia. fold Y. rewrite Z.pow_0_r.
  assert (0 < 2 ^ k) by (apply Z.pow_pos_nonneg; lia).
  nia.
Qed.

(** [x % y] on floats: the result is a NaN or has the sign of [y]. *)
Lemma float_rem_sign (a b : Py.float) :
  F64.eqb b F64.zero = false ->
  exists v, Py.float_rem a b = Py.Return (Py.VFloat v) /\
            (F64.is_nan v = true \/ F64.signbit v = F64.signbit b).
Proof.
  intros Hb. unfold Py.float_rem. rewrite Hb. eexists. split; [reflexivity|].
  destruct b as [sb | sb | | sb mb eb]; try discriminate Hb.
  - (* an infinite divisor *)
    destruct sb, a as [[] | [] | | [] ma ea];
      first [left; reflexivity | right; reflexivity].
  - (* a NaN divisor *)
    destruct a; left; reflexivity.
  - (* a finite divisor *)
    destruct a as [sa | sa | | sa ma ea];
      [destruct sb, sa; right; reflexivity
      | destruct sb; left; reflexivity
      | destruct sb; left; reflexivity
      | ].
    destruct (fmod_finite sa sb ma mb ea eb) as [-> | (m & e & -> & Hlt)].
    + destruct sb, sa; right; reflexivity.
    + destruct sa, sb.
      * right; reflexivity.
      * exact (add_opposite_sign false m mb e eb Hlt).
      * exact (add_opposite_sign true m mb e eb Hlt).
      * right; reflexivity.
Qed.

(** Shifting a mantissa that is not negative right leaves it so. *)
Lemma shr_1_nonneg (mrs : shr_record) :
  0 <= shr_m mrs -> 0 <= shr_m (shr_1 mrs).
Proof. destruct mrs as [[|[p|p|]|p] r s]; cbn; lia. Qed.

Lemma iter_shr_1_nonneg (p : positive) (mrs : shr_record) :
  0 <= shr_m mrs -> 0 <= shr_m (SpecFloat.iter_pos shr_1 p mrs).
Proof.
  revert mrs. induction p as [p IH | p IH |]; intros mrs H; cbn [SpecFloat.iter_pos].
  - apply IH, IH, shr_1_nonneg, H.
  - apply IH, IH, H.
  - apply shr_1_nonneg, H.
Qed.

Lemma shr_fexp_nonneg (m e : Z) (l : location) :
  0 <= m -> 0 <= shr_m (fst (shr_fexp F64.prec F64.emax m e l)).
Proof.
  intros H. unfold shr_fexp, shr.
  assert (H0 : 0 <= shr_m (shr_record_of_loc m l)) by (by destruct l as [|[]]).
  destruct (_ - e) as [|p|p]; cbn [fst]; [done | | done].
  by apply iter_shr_1_nonneg.
Qed.

Lemma round_nearest_even_nonneg (m : Z) (l : location) :
  0 <= m -> 0 <= round_nearest_even m l.
Proof.
  intros H. unfold round_nearest_even.
  destruct l as [|[]]; [done | | done | lia].
  destruct (IntDef.Z.even m); lia.
Qed.

(** Rounding a mantissa that is not negative does not give a NaN. *)
Lemma binary_round_aux_not_nan (sx : bool) (mx ex : Z) (lx : location) :
  0 <= mx ->
  F64.is_nan (binary_round_aux F64.prec F64.emax sx mx ex lx) = false.
Proof.
  intros H. unfold binary_round_aux.
  pose proof (shr_fexp_nonneg mx ex lx H) as H1.
  destruct (shr_fexp F64.prec F64.emax mx ex lx) as [mrs' e']. cbn [fst] in H1.
  pose proof (shr_fexp_nonneg _ e' loc_Exact
                (round_nearest_even_nonneg _ (loc_of_shr_record mrs') H1))
    as H2.
  destruct (shr_fexp _ _ _ e' loc_Exact) as [mrs'' e'']. cbn [fst] in H2.
  destruct (shr_m mrs'') as [|m|m]; [done | | lia].
  by destruct (_ <=? _).
Qed.

Lemma binary_normalize_not_nan (z e : Z) (szero : bool) :
  F64.is_nan (binary_normalize F64.prec F64.emax z e szero) = false.
Proof.
  destruct z as [|p|p]; [done | |]; unfold binary_normalize, binary_round;
    destruct (shl_align _ _ _) as [mz ez]; by apply binary_round_aux_not_nan.
Qed.

(** The sum of two finite doubles is no NaN. *)
Lemma add_finite_not_nan (s1 s2 : bool) (m1 m2 : positive) (e1 e2 : Z) :
  F64.is_nan (F64.add (S754_finite s1 m1 e1) (S754_finite s2 m2 e2)) = false.
Proof. unfold F64.add, SFadd. apply binary_normalize_not_nan. Qed.

(** [x % y] is a NaN exactly when [x] is infinite or an operand is a NaN. *)
Lemma float_rem_is_nan (a b : Py.float) :
  F64.eqb b F64.zero = false ->
  exists v, Py.float_rem a b = Py.Return (Py.VFloat v) /\
            F64.is_nan v = F64.is_inf a || F64.is_nan a || F64.is_nan b.
Proof.
  intros Hb. unfold Py.float_rem. rewrite Hb. eexists. split; [reflexivity|].
  destruct b as [sb | sb | | sb mb eb]; try discriminate Hb.
  - destruct sb, a as [[] | [] | | [] ma ea]; reflexivity.
  - destruct a; reflexivity.
  - destruct a as [sa | sa | | sa ma ea];
      [destruct sb, sa; reflexivity
      | destruct sb; reflexivity
      | destruct sb; reflexivity
      | ].
    destruct (fmod_finite sa sb ma mb ea eb) as [-> | (m & e & -> & Hlt)].
    + destruct sb, sa; reflexivity.
    + destruct sa, sb; first [reflexivity | apply add_finite_not_nan].
Qed.

End Remainder.

(** The remainder of a negative dividend by a positive divisor is not
    negative: [-7 % 3] is [2.0], the mantissa [2^52] with the exponent
    [-51], where [-7.0] is [-(7 * 2^50)] with the exponent [-50]. *)
Lemma remainder_of_negative_dividend :
  Parser.parse "-7 % 3" =
    Parser.Parsed (Ast.Expression
      (Ast.BinOp (Ast.UnaryOp Ast.USub (Ast.Constant (Ast.CInt 7))) Ast.Mod
         (Ast.Constant (Ast.CInt 3))))
  /\ (forall libm syntax_error_msg,
        evaluate_expression libm syntax_error_msg "-7 % 3" =
          Some (Py.Return
                  (Py.VFloat (S754_finite false 4503599627370496 (-51))))
        /\ evaluate_expression libm syntax_error_msg "-7" =
            Some (Py.Return
                    (Py.VFloat (S754_finite true 7881299347898368 (-50)))))
  /\ F64.signbit (S754_finite false 4503599627370496 (-51)) = false
  /\ F64.signbit (S754_finite true 7881299347898368 (-50)) = true.
Proof. split_and!; (reflexivity || (intros; split; reflexivity)). Qed.

(** C5, as the code has it. For all operands [a] and [b] with [b] not
    zero, [a % b] is a float; it is a NaN exactly when [a] is infinite or
    an operand is a NaN, and in every other case it has the sign of the
    right operand [b], the divisor. *)
Theorem remainder_has_sign_of_divisor (libm : Py.Libm) (l r : Ast.expr)
    (a b : Py.float) :
  safe_eval_expr libm l = Py.Return (Py.VFloat a) ->
  safe_eval_expr libm r = Py.Return (Py.VFloat b) ->
  F64.eqb b F64.zero = false ->
  exists v,
    safe_eval_expr libm (Ast.BinOp l Ast.Mod r) = Py.Return (Py.VFloat v) /\
    F64.is_nan v = F64.is_inf a || F64.is_nan a || F64.is_nan b /\
    (F64.is_nan v = false -> F64.signbit v = F64.signbit b).
Proof.
  intros Hl Hr Hb. rewrite safe_eval_BinOp, Hl, Hr.
  destruct (float_rem_sign a b Hb) as (v & Hv & Hsign).
  destruct (float_rem_is_nan a b Hb) as (v' & Hv' & Hnan).
  rewrite Hv in Hv'. injection Hv' as <-.
  exists v. split_and!.
  - change (Py.try_except (Py.float_rem a b) Py.Exception
              (fun e => Py.raise Py.EvalError
                          ("Error evaluating binary op: " ++ Py.exc_str e)) =
            Py.Return (Py.VFloat v)).
    by rewrite Hv.
  - exact Hnan.
  - intros Hv0. destruct Hsign as [Hsign | Hsign]; [|exact Hsign].
    rewrite Hv0 in Hsign. discriminate Hsign.
Qed.

(** [-7 % 3]: the operands are [-7.0] and [3.0], neither infinite nor a
    NaN, so the remainder is no NaN and is not negative. *)
Lemma remainder_has_sign_of_divisor_witness :
  exists v,
    safe_eval_expr Py.exact_powers_libm
      (Ast.BinOp (Ast.UnaryOp Ast.USub (Ast.Constant (Ast.CInt 7))) Ast.Mod
         (Ast.Constant (Ast.CInt 3))) = Py.Return (Py.VFloat v) /\
    F64.is_nan v =
      F64.is_inf (S754_finite true 7881299347898368 (-50)) ||
      F64.is_nan (S754_finite true 7881299347898368 (-50)) ||
      F64.is_nan (S754_finite false 6755399441055744 (-51)) /\
    (F64.is_nan v = false ->
     F64.signbit v = F64.signbit (S754_finite false 6755399441055744 (-51))).
Proof.
  apply (remainder_has_sign_of_divisor Py.exact_powers_libm
           (Ast.UnaryOp Ast.USub (Ast.Constant (Ast.CInt 7)))
           (Ast.Constant (Ast.CInt 3))
           (S754_finite true 7881299347898368 (-50))
           (S754_finite false 6755399441055744 (-51)));
    reflexivity.
Defined.

(** ** C8: the branches of [format_result] *)

Section FormatResult.

Local Open Scope Z_scope.

Lemma digits2_pos_size (p : positive) : digits2_pos p = Pos.size p.
Proof. induction p; simpl; congruence. Qed.

Lemma digits2_pos_bound (p : positive) : Zpos p < 2 ^ Zpos (digits2_pos p).
Proof.
  rewrite digits2_pos_size. pose proof (Pos.size_gt p) as H.
  apply Pos2Z.pos_lt_pos in H. by rewrite Pos2Z.inj_pow in H.
Qed.

Lemma digits2_pos_shift (p d : positive) :
  digits2_pos (Pos.iter xO p d) = (digits2_pos p + d)%positive.
Proof.
  apply (Pos.iter_ind _ xO p
           (fun k a => digits2_pos a = (digits2_pos p + k)%positive)).
  - simpl. lia.
  - intros k a IH. simpl. rewrite IH. lia.
Qed.

(** A valid double has a mantissa of at most 53 bits. *)
Lemma valid_mantissa (s : bool) (m : positive) (e : Z) :
  valid_binary F64.prec F64.emax (S754_finite s m e) = true ->
  Zpos m < 2 ^ 53.
Proof.
  unfold valid_binary, bounded, canonical_mantissa, fexp, emin.
  intros H. apply andb_prop in H as [H _]. apply Z.eqb_eq in H.
  pose proof (digits2_pos_bound m) as Hm.
  assert (Zpos (digits2_pos m) <= 53) by (unfold F64.prec in H; lia).
  eapply Z.lt_le_trans; [exact Hm|]. apply Z.pow_le_mono_r; lia.
Qed.

(** An integer of at most 53 bits is a double: converting it does not
    overflow. *)
Lemma binary_round_small (s : bool) (p : positive) :
  Zpos p < 2 ^ 53 ->
  F64.is_inf (binary_round F64.prec F64.emax s p 0) = false.
Proof.
  intros Hp.
  assert (Hd : Zpos (digits2_pos p) <= 53).
  { destruct (Z.le_gt_cases (Zpos (digits2_pos p)) 53) as [H | H]; [done|].
    exfalso. rewrite digits2_pos_size in H.
    pose proof (Pos.size_le p) as Hle.
    apply Pos2Z.pos_le_pos in Hle. rewrite Pos2Z.inj_pow in Hle.
    assert (2 ^ 54 <= 2 ^ Zpos (Pos.size p)) by (apply Z.pow_le_mono_r; lia).
    change (Zpos p~0) with (2 * Zpos p) in Hle.
    change (2 ^ 54) with (2 * 2 ^ 53) in *. lia. }
  unfold binary_round.
  set (t := fexp F64.prec F64.emax (Zpos (digits2_pos p) + 0)).
  assert (Ht : t = Zpos (digits2_pos p) - 53).
  { unfold t, fexp, emin, F64.prec, F64.emax. lia. }
  assert (Hshl : exists mz, shl_align p 0 t = (mz, t) /\
                            Zpos (digits2_pos mz) + t = Zpos (digits2_pos p)).
  { unfold shl_align. destruct (t - 0) as [|d|d] eqn:E.
    - exists p. split; [f_equal; lia | lia].
    - lia.
    - exists (Pos.iter xO p d). split; [done|].
      rewrite digits2_pos_shift. lia. }
  destruct Hshl as (mz & -> & Hmz).
  unfold binary_round_aux, shr_fexp. cbn [Zdigits2].
  rewrite Hmz. fold t. rewrite Z.sub_diag. cbn [shr shr_record_of_loc].
  cbn [shr_m loc_of_shr_record round_nearest_even Zdigits2].
  rewrite Hmz. fold t. rewrite Z.sub_diag. cbn [shr shr_record_of_loc shr_m].
  destruct (t <=? F64.emax - F64.prec) eqn:E; [done|].
  apply Z.leb_gt in E. unfold F64.emax, F64.prec in E. lia.
Qed.

Lemma of_Z_small (n : Z) :
  Z.abs n < 2 ^ 53 -> F64.is_inf (F64.of_Z n) = false.
Proof.
  intros Hn. destruct n as [|p|p]; [done | |];
    apply binary_round_small; lia.
Qed.

(** The three constants, as doubles. *)
Lemma c_1e15_value : c_1e15 = S754_finite false 8000000000000000 (-3).
Proof. reflexivity. Qed.

Lemma c_1e_4_value : c_1e_4 = S754_finite false 7378697629483821 (-66).
Proof. reflexivity. Qed.

Lemma c_1e_12_value : c_1e_12 = S754_finite false 4951760157141521 (-92).
Proof. reflexivity. Qed.

(** A valid finite double that is not above [1e15] in magnitude has an
    integer part of less than 53 bits. *)
Lemma trunc_small (v : Py.float) :
  valid_binary F64.prec F64.emax v = true ->
  F64.is_finite v = true ->
  F64.gtb (F64.abs v) c_1e15 = false ->
  exists n, F64.trunc_Z v = Some n /\ Z.abs n < 2 ^ 53.
Proof.
  intros Hv Hfin Hgt. rewrite c_1e15_value in Hgt.
  destruct v as [s | s | | s m e]; try discriminate Hfin.
  - exists 0. by split.
  - eexists. split; [reflexivity|].
    apply valid_mantissa in Hv.
    unfold F64.gtb, SFltb, F64.abs, SFabs, SFcompare in Hgt.
    assert (He : e <= -3).
    { destruct (IntDef.Z.compare (-3) e) eqn:E; [| discriminate Hgt |].
      - change (Z.compare (-3) e = Eq) in E. apply Z.compare_eq_iff in E. lia.
      - change (Z.compare (-3) e = Gt) in E. apply Z.compare_gt_iff in E. lia. }
    assert (0 <= fst (F64.trunc_parts m e) < 2 ^ 53); [|destruct s; simpl; lia].
    unfold F64.trunc_parts.
    destruct (0 <=? e) eqn:E; [apply Z.leb_le in E; lia|]. cbn [fst].
    assert (0 < 2 ^ (- e)) by (apply Z.pow_pos_nonneg; lia).
    split; [apply Z.div_pos; lia|].
    apply Z.div_lt_upper_bound; [lia|].
    assert (1 <= 2 ^ (- e)) by lia. nia.
Qed.


(** *** The digits of the correctly rounded decimal *)

Lemma count_digits_spec (fuel : nat) (n : Z) :
  1 <= n < 2 ^ Z.of_nat fuel ->
  let c := Fmt.count_digits fuel n in
  1 <= c /\ 10 ^ (c - 1) <= n < 10 ^ c.
Proof.
  revert n. induction fuel as [|f IH]; intros n Hn; [simpl in Hn; lia|].
  cbn [Fmt.count_digits]. destruct (n <? 10) eqn:E.
  - apply Z.ltb_lt in E. simpl. lia.
  - apply Z.ltb_ge in E.
    rewrite Nat2Z.inj_succ, Z.pow_succ_r in Hn by lia.
    assert (Hq : 1 <= n / 10 < 2 ^ Z.of_nat f).
    { split; [apply Z.div_le_lower_bound; lia|].
      apply Z.div_lt_upper_bound; lia. }
    specialize (IH _ Hq). cbv zeta in *. destruct IH as (Hc & Hlo & Hhi).
    set (c := Fmt.count_digits f (n / 10)) in *.
    replace (1 + c - 1) with (Z.succ (c - 1)) by lia.
    replace (1 + c) with (Z.succ c) by lia.
    rewrite !Z.pow_succ_r by lia.
    pose proof (Z.div_mod n 10 ltac:(lia)).
    pose proof (Z.mod_pos_bound n 10 ltac:(lia)). lia.
Qed.

Lemma scale_up_spec (fuel : nat) (num den : Z) :
  0 < num < den ->
  den <= num * 2 ^ Z.of_nat fuel ->
  let k := Fmt.scale_up fuel num den in
  1 <= k /\ num * 10 ^ (k - 1) < den <= num * 10 ^ k.
Proof.
  revert num. induction fuel as [|f IH]; intros num Hn Hf;
    [simpl in Hf; lia|].
  cbn [Fmt.scale_up]. destruct (den <=? num * 10) eqn:E.
  - apply Z.leb_le in E. simpl. lia.
  - apply Z.leb_gt in E.
    rewrite Nat2Z.inj_succ, Z.pow_succ_r in Hf by lia.
    assert (0 < 2 ^ Z.of_nat f) by (apply Z.pow_pos_nonneg; lia).
    assert (H1 : 0 < num * 10 < den) by lia.
    assert (H2 : den <= num * 10 * 2 ^ Z.of_nat f) by nia.
    specialize (IH _ H1 H2). cbv zeta in *. destruct IH as (Hk & Hlo & Hhi).
    set (k := Fmt.scale_up f (num * 10) den) in *.
    replace (1 + k - 1) with (Z.succ (k - 1)) by lia.
    replace (1 + k) with (Z.succ k) by lia.
    rewrite !Z.pow_succ_r by lia. lia.
Qed.

(** [decimal_exponent] is the exponent of the first digit. *)
Lemma decimal_exponent_spec (num den : Z) :
  0 < num -> 0 < den ->
  let x := Fmt.decimal_exponent num den in
  (0 <= x /\ den * 10 ^ x <= num < den * 10 ^ (x + 1)) \/
  (x < 0 /\ den <= num * 10 ^ (- x) /\ num * 10 ^ (- x - 1) < den).
Proof.
  intros Hnum Hden. unfold Fmt.decimal_exponent.
  destruct (den <=? num) eqn:E.
  - apply Z.leb_le in E. left.
    assert (Hq : 1 <= num / den < 2 ^ Z.of_nat (S (Z.to_nat (Z.log2 num)))).
    { split; [apply Z.div_le_lower_bound; lia|].
      rewrite Nat2Z.inj_succ, Z2Nat.id by apply Z.log2_nonneg.
      pose proof (Z.log2_spec num Hnum) as [_ Hlt].
      apply Z.le_lt_trans with num; [|lia].
      apply Z.div_le_upper_bound; nia. }
    destruct (count_digits_spec _ _ Hq) as (Hc & Hlo & Hhi).
    set (c := Fmt.count_digits _ _) in *.
    replace (c - 1 + 1) with c by lia.
    pose proof (Z.div_mod num den ltac:(lia)) as Hdm.
    pose proof (Z.mod_pos_bound num den Hden). split; [lia|].
    split; nia.
  - apply Z.leb_gt in E. right.
    assert (Hf : den <= num * 2 ^ Z.of_nat (S (Z.to_nat (Z.log2 den)))).
    { rewrite Nat2Z.inj_succ, Z2Nat.id by apply Z.log2_nonneg.
      pose proof (Z.log2_spec den Hden) as [_ Hlt]. nia. }
    destruct (scale_up_spec _ num den ltac:(lia) Hf) as (Hk & Hlo & Hhi).
    set (k := Fmt.scale_up _ _ _) in *.
    replace (- - k) with k by lia. replace (k - 1) with (k - 1) in Hlo by lia.
    split; [lia|]. split; [lia|]. replace (- - k - 1) with (k - 1) by lia. lia.
Qed.

Lemma round_half_even_bounds (a b lo hi : Z) :
  0 < b -> lo * b <= a < hi * b ->
  lo <= Fmt.round_half_even a b <= hi.
Proof.
  intros Hb [Hlo Hhi]. unfold Fmt.round_half_even.
  pose proof (Z.div_mod a b ltac:(lia)) as Hdm.
  pose proof (Z.mod_pos_bound a b Hb) as Hm.
  assert (lo <= a / b) by (apply Z.div_le_lower_bound; lia).
  assert (a / b < hi) by (apply Z.div_lt_upper_bound; lia).
  repeat case_match; lia.
Qed.

(** [significant] yields exactly [p] digits, the first one not zero. *)
Lemma significant_spec (p num den : Z) :
  1 <= p -> 0 < num -> 0 < den ->
  10 ^ (p - 1) <= fst (Fmt.significant p num den) < 10 ^ p.
Proof.
  intros Hp Hnum Hden. unfold Fmt.significant.
  pose proof (decimal_exponent_spec num den Hnum Hden) as Hx.
  cbv zeta in Hx. set (x := Fmt.decimal_exponent num den) in *.
  assert (Hpow : 10 ^ p = 10 * 10 ^ (p - 1)).
  { replace p with (Z.succ (p - 1)) at 1 by lia. apply Z.pow_succ_r. lia. }
  assert (Hp1 : 0 < 10 ^ (p - 1)) by (apply Z.pow_pos_nonneg; lia).
  set (d := if 0 <=? p - 1 - x then _ else _).
  assert (Hd : 10 ^ (p - 1) <= d <= 10 ^ p).
  { unfold d. destruct (0 <=? p - 1 - x) eqn:E.
    - apply Z.leb_le in E. apply round_half_even_bounds; [lia|].
      destruct Hx as [(Hx0 & Hlo & Hhi) | (Hx0 & Hlo & Hhi)].
      + assert (0 < 10 ^ (p - 1 - x)) by (apply Z.pow_pos_nonneg; lia).
        replace (p - 1) with (x + (p - 1 - x)) at 1 by lia.
        replace p with ((x + 1) + (p - 1 - x)) at 4 by lia.
        rewrite !Z.pow_add_r by lia.
        rewrite !Z.pow_add_r in Hhi by lia. nia.
      + replace (p - 1 - x) with ((- x - 1) + p) at 2 by lia.
        replace (p - 1 - x) with ((- x) + (p - 1)) at 1 by lia.
        rewrite !Z.pow_add_r by lia.
        assert (0 < 10 ^ p) by (apply Z.pow_pos_nonneg; lia). nia.
    - apply Z.leb_gt in E. 
      assert (0 < 10 ^ (- (p - 1 - x))) by (apply Z.pow_pos_nonneg; lia).
      apply round_half_even_bounds; [nia|].
      destruct Hx as [(Hx0 & Hlo & Hhi) | (Hx0 & _)]; [|lia].
      replace x with ((- (p - 1 - x)) + (p - 1)) in Hlo at 1 by lia.
      replace (x + 1) with ((- (p - 1 - x)) + p) in Hhi by lia.
      rewrite !Z.pow_add_r in Hlo, Hhi by lia. nia. }
  destruct (10 ^ p <=? d) eqn:E; cbn [fst].
  - lia.
  - apply Z.leb_gt in E. lia.
Qed.


(** *** The shapes of the three renderings *)

Lemma digit_char_is_digit (z : Z) : Fmt.is_digit (Fmt.digit_char z) = true.
Proof.
  unfold Fmt.digit_char. pose proof (Z.mod_pos_bound z 10 ltac:(lia)) as H.
  set (k := z mod 10) in *.
  assert (Hk : k = 0 \/ k = 1 \/ k = 2 \/ k = 3 \/ k = 4 \/ k = 5 \/
               k = 6 \/ k = 7 \/ k = 8 \/ k = 9) by lia.
  clearbody k. repeat (destruct Hk as [-> | Hk]; [reflexivity|]).
  by subst k.
Qed.

Lemma digit_char_nonzero (z : Z) :
  1 <= z <= 9 -> Fmt.is_nonzero_digit (Fmt.digit_char z) = true.
Proof.
  intros H.
  assert (Hk : z = 1 \/ z = 2 \/ z = 3 \/ z = 4 \/ z = 5 \/
               z = 6 \/ z = 7 \/ z = 8 \/ z = 9) by lia.
  repeat (destruct Hk as [-> | Hk]; [reflexivity|]). by subst z.
Qed.

Lemma digit_is_not_minus (c : ascii) :
  Fmt.is_digit c = true -> Ascii.eqb c "-" = false.
Proof.
  intros H. destruct (Ascii.eqb_spec c "-") as [-> | ]; [discriminate H | done].
Qed.

Lemma nonzero_digit_is_digit (c : ascii) :
  Fmt.is_nonzero_digit c = true -> Fmt.is_digit c = true.
Proof.
  unfold Fmt.is_nonzero_digit, Fmt.is_digit. intros H.
  apply andb_prop in H as [H1 H2]. rewrite H2, andb_true_r.
  apply Nat.leb_le in H1. apply Nat.leb_le. lia.
Qed.

Lemma uint_digits (d : Decimal.uint) :
  forallb Fmt.is_digit (list_ascii_of_string (NilEmpty.string_of_uint d)) = true.
Proof. induction d; simpl; auto. Qed.

(** [str(n)] is an optional minus sign and digits. *)
Lemma str_int_nonneg_digits (n : Z) :
  0 <= n -> Fmt.is_digits (list_ascii_of_string (Py.str_int n)) = true.
Proof.
  intros Hn. unfold Py.str_int. destruct n as [|p|p]; [reflexivity | | lia].
  cbn [Z.to_int NilZero.string_of_int]. unfold NilZero.string_of_uint.
  pose proof (DecimalPos.Unsigned.to_uint_nonnil p) as Hnil.
  pose proof (uint_digits (Pos.to_uint p)) as Hd.
  destruct (Pos.to_uint p); try done; exact Hd.
Qed.

Lemma str_int_is_plain_integer (n : Z) :
  Fmt.is_plain_integer (Py.str_int n) = true.
Proof.
  unfold Fmt.is_plain_integer. destruct n as [|p|p].
  - reflexivity.
  - pose proof (str_int_nonneg_digits (Zpos p) ltac:(lia)) as H.
    unfold Fmt.is_digits in H.
    destruct (list_ascii_of_string (Py.str_int (Zpos p))) as [|c l] eqn:E;
      [discriminate H|].
    cbn [Fmt.drop_minus]. rewrite digit_is_not_minus.
    + exact H.
    + cbn [forallb] in H. by apply andb_prop in H as [H _].
  - change (Py.str_int (Zneg p)) with (String "-" (Py.str_int (Zpos p))).
    cbn [list_ascii_of_string Fmt.drop_minus]. 
    change (Ascii.eqb "-" "-") with true. cbv iota.
    apply (str_int_nonneg_digits (Zpos p)). lia.
Qed.

Lemma exponent_chars_shape (x : Z) :
  exists sign ex,
    Fmt.exponent_chars x = "e"%char :: sign :: ex /\
    (Ascii.eqb sign "+" || Ascii.eqb sign "-") = true /\
    Fmt.is_digits ex = true.
Proof.
  unfold Fmt.exponent_chars. eexists _, _. split; [reflexivity|]. split.
  - by destruct (x <? 0).
  - pose proof (str_int_nonneg_digits (Z.abs x) ltac:(lia)) as H.
    destruct (Z.abs x <? 10); [|exact H].
    unfold Fmt.is_digits in *. cbn [app forallb].
    destruct (list_ascii_of_string _); [discriminate H | exact H].
Qed.

Lemma to_fraction_pos (m : positive) (e : Z) :
  0 < fst (F64.to_fraction m e) /\ 0 < snd (F64.to_fraction m e).
Proof.
  unfold F64.to_fraction. destruct (0 <=? e) eqn:E; cbn [fst snd].
  - apply Z.leb_le in E. split; [|lia].
    apply Z.mul_pos_pos; [lia | apply Z.pow_pos_nonneg; lia].
  - apply Z.leb_gt in E. split; [lia | apply Z.pow_pos_nonneg; lia].
Qed.

(** [format(x, ".6e")] of a finite double that is not zero is normalized
    scientific notation with six digits after the point. *)
Lemma format_e_6_shape (s : bool) (m : positive) (e : Z) :
  Fmt.is_scientific 6 (Fmt.format_e 6 (S754_finite s m e)) = true.
Proof.
  unfold Fmt.is_scientific, Fmt.format_e.
  rewrite list_ascii_of_string_of_list_ascii. unfold Fmt.format_e_chars.
  destruct (to_fraction_pos m e) as [Hnum Hden].
  destruct (F64.to_fraction m e) as [num den]. cbn [fst snd] in *.
  pose proof (significant_spec 7 num den ltac:(lia) Hnum Hden) as Hd.
  change (Z.of_nat 7) with 7.
  destruct (Fmt.significant 7 num den) as [d x10]. cbn [fst] in Hd.
  change (10 ^ (7 - 1)) with 1000000 in Hd.
  change (10 ^ 7) with 10000000 in Hd.
  destruct (exponent_chars_shape x10) as (sign & ex & -> & Hsign & Hex).
  cbn [Fmt.digits app firstn skipn Fmt.with_point].
  set (c := Fmt.digit_char (d / 10 / 10 / 10 / 10 / 10 / 10)).
  assert (Hc : Fmt.is_nonzero_digit c = true).
  { apply digit_char_nonzero. 
    repeat match goal with
    | |- context [?a / 10] =>
        lazymatch a with
        | _ / _ => fail
        | _ => pose proof (Z.div_mod a 10 ltac:(lia));
               pose proof (Z.mod_pos_bound a 10 ltac:(lia));
               generalize dependent (a mod 10); generalize dependent (a / 10);
               intros
        end
    end. lia. }
  assert (Hdrop : forall rest,
            Fmt.drop_minus (Fmt.sign_chars s ++ c :: rest) = c :: rest).
  { intros rest. destruct s; cbn [Fmt.sign_chars app Fmt.drop_minus].
    - reflexivity.
    - by rewrite digit_is_not_minus by by apply nonzero_digit_is_digit. }
  rewrite Hdrop. rewrite Hc.
  cbn [firstn skipn length forallb Nat.eqb andb].
  rewrite !digit_char_is_digit, Hsign, Hex. reflexivity.
Qed.


(** *** The closeness test in exact arithmetic *)

(** The number of bits of a mantissa is the least that holds it. *)
Lemma digits2_pos_lower (p : positive) :
  2 ^ (Zpos (digits2_pos p) - 1) <= Zpos p.
Proof.
  rewrite digits2_pos_size. pose proof (Pos.size_le p) as H.
  apply Pos2Z.pos_le_pos in H. rewrite Pos2Z.inj_pow in H.
  change (Zpos p~0) with (2 * Zpos p) in H.
  replace (Zpos (Pos.size p)) with (Z.succ (Zpos (Pos.size p) - 1)) in H by lia.
  rewrite Z.pow_succ_r in H by lia. lia.
Qed.

Lemma digits2_pos_unique (p : positive) (d : Z) :
  2 ^ (d - 1) <= Zpos p < 2 ^ d -> Zpos (digits2_pos p) = d.
Proof.
  intros [Hlo Hhi].
  pose proof (digits2_pos_lower p) as Hl.
  pose proof (digits2_pos_bound p) as Hu.
  set (k := Zpos (digits2_pos p)) in *.
  assert (Hk : 0 < k) by (unfold k; lia).
  destruct (Z.lt_trichotomy k d) as [H | [H | H]]; [exfalso | done | exfalso].
  - assert (2 ^ k <= 2 ^ (d - 1)) by (apply Z.pow_le_mono_r; lia). lia.
  - destruct (Z.le_gt_cases d 0).
    + assert (2 ^ d <= 2 ^ 0) by (apply Z.pow_le_mono_r; lia). simpl in *. lia.
    + assert (2 ^ d <= 2 ^ (k - 1)) by (apply Z.pow_le_mono_r; lia). lia.
Qed.

Lemma digits2_pos_le (p : positive) (d : Z) :
  Zpos p < 2 ^ d -> Zpos (digits2_pos p) <= d.
Proof.
  intros Hp. pose proof (digits2_pos_lower p) as Hl.
  destruct (Z.le_gt_cases (Zpos (digits2_pos p)) d) as [H | H]; [done|].
  assert (2 ^ d <= 2 ^ (Zpos (digits2_pos p) - 1)); [|lia].
  destruct (Z.le_gt_cases 0 d).
  - apply Z.pow_le_mono_r; lia.
  - rewrite Z.pow_neg_r by lia. apply Z.pow_nonneg. lia.
Qed.

(** Above the least exponent, the mantissa of a valid double has all of
    its 53 bits. *)
Lemma valid_normal (s : bool) (m : positive) (e : Z) :
  valid_binary F64.prec F64.emax (S754_finite s m e) = true ->
  -1074 < e -> 2 ^ 52 <= Zpos m.
Proof.
  unfold valid_binary, bounded, canonical_mantissa, fexp, emin.
  intros H He. apply andb_prop in H as [H _]. apply Z.eqb_eq in H.
  unfold F64.prec, F64.emax in H.
  assert (Hd : Zpos (digits2_pos m) = 53) by lia.
  pose proof (digits2_pos_lower m) as Hl. rewrite Hd in Hl. exact Hl.
Qed.

(** A mantissa of at most 53 bits is not rounded: it is shifted to the
    full width, and the exponent follows. *)
Lemma binary_round_exact (s : bool) (r : positive) (e : Z) :
  let t := Zpos (digits2_pos r) + e - 53 in
  Zpos (digits2_pos r) <= 53 -> -1074 <= t <= 971 ->
  exists r' : positive,
    binary_round F64.prec F64.emax s r e = S754_finite s r' t /\
    Zpos r' = Zpos r * 2 ^ (e - t).
Proof.
  intros t Hd Ht. unfold binary_round.
  assert (Hf : fexp F64.prec F64.emax (Zpos (digits2_pos r) + e) = t).
  { unfold fexp, emin, F64.prec, F64.emax, t. lia. }
  rewrite Hf.
  assert (Hshl : exists mz,
            shl_align r e t = (mz, t) /\
            Zpos (digits2_pos mz) + t = Zpos (digits2_pos r) + e /\
            Zpos mz = Zpos r * 2 ^ (e - t)).
  { unfold shl_align. destruct (t - e) as [|d|d] eqn:E.
    - exists r. replace (e - t) with 0 by lia.
      split_and!; [f_equal; lia | lia | lia].
    - lia.
    - exists (Pos.iter xO r d). split_and!; [done | |].
      + rewrite digits2_pos_shift. lia.
      + rewrite iter_xO_value. f_equal. f_equal. lia. }
  destruct Hshl as (mz & -> & Hmz & Hval). exists mz. split; [|exact Hval].
  unfold binary_round_aux, shr_fexp. cbn [Zdigits2].
  rewrite Hmz, Hf. rewrite Z.sub_diag. cbn [shr shr_record_of_loc].
  cbn [shr_m loc_of_shr_record round_nearest_even Zdigits2].
  rewrite Hmz, Hf. rewrite Z.sub_diag. cbn [shr shr_record_of_loc shr_m].
  destruct (t <=? F64.emax - F64.prec) eqn:E; [done|].
  apply Z.leb_gt in E. unfold F64.emax, F64.prec in E. lia.
Qed.

Lemma pow2_ge_2 (k : Z) : 0 < k -> 2 <= 2 ^ k.
Proof.
  intros Hk. change 2 with (2 ^ 1) at 1. apply Z.pow_le_mono_r; lia.
Qed.

Lemma scaled_lt (r c P A B : Z) :
  0 < A -> 2 <= B -> 0 < P -> r < 2 * P -> P <= c -> r * A < c * (A * B).
Proof.
  intros HA HB HP Hr Hc.
  assert (r * A < 2 * P * A) by nia.
  assert (2 * P * A <= 2 * c * A) by nia.
  assert (2 * (c * A) <= B * (c * A)) by (apply Z.mul_le_mono_nonneg_r; nia).
  lia.
Qed.

(** The order of two positive doubles with full mantissas. *)
Lemma ltb_normal (r c : positive) (t u : Z) :
  2 ^ 52 <= Zpos r < 2 ^ 53 -> 2 ^ 52 <= Zpos c < 2 ^ 53 ->
  t <= 0 -> u <= 0 ->
  F64.ltb (S754_finite false r t) (S754_finite false c u) =
    (Zpos r * 2 ^ (- u) <? Zpos c * 2 ^ (- t)).
Proof.
  intros Hr Hc Ht Hu.
  unfold F64.ltb, SFltb, SFcompare.
  change (IntDef.Z.compare t u) with (Z.compare t u).
  change (PosDef.Pos.compare_cont Eq r c) with (Z.compare (Zpos r) (Zpos c)).
  symmetry. destruct (Z.compare_spec t u) as [-> | E | E].
  - assert (0 < 2 ^ (- u)) by (apply Z.pow_pos_nonneg; lia).
    destruct (Z.compare_spec (Zpos r) (Zpos c)) as [Heq | Hlt | Hgt];
      [apply Z.ltb_ge; rewrite Heq; lia
      | apply Z.ltb_lt; apply Z.mul_lt_mono_pos_r; lia
      | apply Z.ltb_ge; apply Z.mul_le_mono_nonneg_r; lia].
  - apply Z.ltb_lt.
    replace (- t) with (- u + (u - t)) by lia. rewrite Z.pow_add_r by lia.
    assert (0 < 2 ^ (- u)) by (apply Z.pow_pos_nonneg; lia).
    pose proof (pow2_ge_2 (u - t) ltac:(lia)).
    apply (scaled_lt _ _ (2 ^ 52)); [lia | lia | lia | | lia].
    change (2 * 2 ^ 52) with (2 ^ 53). lia.
  - apply Z.ltb_ge.
    replace (- u) with (- t + (t - u)) by lia. rewrite Z.pow_add_r by lia.
    assert (0 < 2 ^ (- t)) by (apply Z.pow_pos_nonneg; lia).
    pose proof (pow2_ge_2 (t - u) ltac:(lia)).
    apply Z.lt_le_incl.
    apply (scaled_lt _ _ (2 ^ 52)); [lia | lia | lia | | lia].
    change (2 * 2 ^ 52) with (2 ^ 53). lia.
Qed.

(** What [scientific_range v = false] says of a finite double that is not
    zero: its exponent is between -66 and -3. *)
Lemma fixed_range_exponent (s : bool) (m : positive) (e : Z) :
  scientific_range (S754_finite s m e) = false -> -66 <= e <= -3.
Proof.
  unfold scientific_range. rewrite c_1e15_value, c_1e_4_value.
  intros H. apply orb_false_elim in H as [Hgt Hlt].
  rewrite andb_false_iff in Hlt. destruct Hlt as [Hlt | Hne]; [|by destruct s].
  unfold F64.gtb, F64.ltb, SFltb, F64.abs, SFabs, SFcompare in Hgt, Hlt.
  change (IntDef.Z.compare (-3) e) with (Z.compare (-3) e) in Hgt.
  change (IntDef.Z.compare e (-66)) with (Z.compare e (-66)) in Hlt.
  destruct (Z.compare_spec (-3) e); [| discriminate Hgt |];
  destruct (Z.compare_spec e (-66)); try discriminate Hlt; lia.
Qed.

(** The closeness test of [format_result], in exact arithmetic: the
    fraction that [int] drops is below the double [1e-12]. *)
Lemma near_integer_exact (s : bool) (m : positive) (e : Z) :
  valid_binary F64.prec F64.emax (S754_finite s m e) = true ->
  scientific_range (S754_finite s m e) = false ->
  near_integer (S754_finite s m e) (cond_Zopp s (Zpos m / 2 ^ (- e))) =
    (Zpos m mod 2 ^ (- e) * 2 ^ 92 <? 4951760157141521 * 2 ^ (- e)).
Proof.
  intros Hv Hs. pose proof (fixed_range_exponent _ _ _ Hs) as He.
  pose proof (valid_normal _ _ _ Hv ltac:(lia)) as Hlo.
  pose proof (valid_mantissa _ _ _ Hv) as Hhi.
  assert (Hden : 0 < 2 ^ (- e)) by (apply Z.pow_pos_nonneg; lia).
  pose proof (Z.div_mod (Zpos m) (2 ^ (- e)) ltac:(lia)) as Hdm.
  pose proof (Z.mod_pos_bound (Zpos m) (2 ^ (- e)) Hden) as Hr.
  assert (Hp0 : 0 <= Zpos m / 2 ^ (- e)) by (apply Z.div_pos; lia).
  set (den := 2 ^ (- e)) in *. set (p := Zpos m / den) in *.
  set (r := Zpos m mod den) in *. clearbody p r.
  unfold near_integer.
  destruct p as [|p'|p'] eqn:Ep; [| |lia].
  - (* the integer part is zero *)
    assert (Hz : F64.of_Z (cond_Zopp s 0) = S754_zero false) by (by destruct s).
    rewrite Hz. cbn [F64.sub SFsub F64.abs SFabs].
    rewrite c_1e_12_value, ltb_normal by lia.
    change (- -92) with 92. fold den.
    rewrite Z.mul_0_r, Z.add_0_l in Hdm. by rewrite Hdm.
  - (* a positive integer part *)
    assert (Hd : Zpos (digits2_pos p') = 53 + e).
    { apply digits2_pos_unique.
      assert (0 < 53 + e).
      { destruct (Z.le_gt_cases (53 + e) 0); [|lia].
        assert (2 ^ 53 <= den) by (apply Z.pow_le_mono_r; lia). nia. }
      assert (H52 : 2 ^ 52 = 2 ^ (53 + e - 1) * den).
      { unfold den. rewrite <- Z.pow_add_r by lia. f_equal. lia. }
      assert (H53 : 2 ^ 53 = 2 ^ (53 + e) * den).
      { unfold den. rewrite <- Z.pow_add_r by lia. f_equal. lia. }
      assert (0 < 2 ^ (53 + e - 1)) by (apply Z.pow_pos_nonneg; lia).
      assert (0 < 2 ^ (53 + e)) by (apply Z.pow_pos_nonneg; lia).
      rewrite H52 in Hlo. rewrite H53 in Hhi. nia. }
    destruct (binary_round_exact s p' 0 ltac:(lia) ltac:(lia))
      as (q & Hq & Hqv).
    replace (Zpos (digits2_pos p') + 0 - 53) with e in Hq, Hqv by lia.
    assert (Hofz : F64.of_Z (cond_Zopp s (Zpos p')) = S754_finite s q e).
    { rewrite <- Hq. by destruct s. }
    rewrite Hofz.
    unfold F64.sub, SFsub. rewrite Z.min_id.
    unfold shl_align. rewrite Z.sub_diag. cbn [fst].
    assert (Hsub : cond_Zopp s (Zpos m) - cond_Zopp s (Zpos q) = cond_Zopp s r).
    { replace (0 - e) with (- e) in Hqv by lia. fold den in Hqv.
      destruct s; cbn [cond_Zopp]; nia. }
    rewrite Hsub.
    destruct r as [|r'|r'] eqn:Er; [| |lia].
    + assert (Hz : binary_normalize F64.prec F64.emax (cond_Zopp s 0) e false =
                   S754_zero false) by (by destruct s).
      rewrite Hz, c_1e_12_value. symmetry. apply Z.ltb_lt. lia.
    + pose proof (digits2_pos_lower r') as Hrl.
      pose proof (digits2_pos_bound r') as Hru.
      assert (Hrd : Zpos (digits2_pos r') <= 53).
      { apply digits2_pos_le. lia. }
      set (d := Zpos (digits2_pos r')) in *.
      assert (Hd1 : 1 <= d) by (unfold d; lia).
      destruct (binary_round_exact s r' e Hrd ltac:(fold d; lia))
        as (r2 & Hr2 & Hr2v).
      fold d in Hr2, Hr2v.
      assert (Hnorm : binary_normalize F64.prec F64.emax
                        (cond_Zopp s (Zpos r')) e false =
                      S754_finite s r2 (d + e - 53)).
      { rewrite <- Hr2. by destruct s. }
      rewrite Hnorm. cbn [F64.abs SFabs].
      replace (e - (d + e - 53)) with (53 - d) in Hr2v by lia.
      assert (Hk : 0 < 2 ^ (53 - d)) by (apply Z.pow_pos_nonneg; lia).
      assert (H52 : 2 ^ 52 = 2 ^ (d - 1) * 2 ^ (53 - d)).
      { rewrite <- Z.pow_add_r by lia. f_equal. lia. }
      assert (H53 : 2 ^ 53 = 2 ^ d * 2 ^ (53 - d)).
      { rewrite <- Z.pow_add_r by lia. f_equal. lia. }
      rewrite c_1e_12_value, ltb_normal; [| nia | lia | lia | lia].
      change (- -92) with 92.
      replace (- (d + e - 53)) with (- e + (53 - d)) by lia.
      rewrite Z.pow_add_r by lia. fold den. rewrite Hr2v.
      apply eq_iff_eq_true. rewrite !Z.ltb_lt.
      set (K := 2 ^ (53 - d)) in *.
      replace (Zpos r' * K * 2 ^ 92) with (Zpos r' * 2 ^ 92 * K) by lia.
      replace (4951760157141521 * (den * K))
        with (4951760157141521 * den * K) by lia.
      symmetry. apply Z.mul_lt_mono_pos_r. lia.
Qed.

(** *** A value just below an integer *)

(** Rounding to the nearest integer finds the integer that is less than
    one half away. *)
Lemma round_half_even_near (a b n : Z) :
  0 < b -> 2 * Z.abs (a - n * b) < b -> Fmt.round_half_even a b = n.
Proof.
  intros Hb Hn. unfold Fmt.round_half_even.
  pose proof (Z.div_mod a b ltac:(lia)) as Hdm.
  pose proof (Z.mod_pos_bound a b Hb) as Hm.
  destruct (Z.le_gt_cases (n * b) a) as [Hle | Hgt].
  - assert (Hq : a / b = n).
    { symmetry. apply (Z.div_unique a b n (a - n * b)); lia. }
    rewrite Hq in *.
    destruct (2 * (a mod b) <? b) eqn:E; [done|]. apply Z.ltb_ge in E. lia.
  - assert (Hq : a / b = n - 1).
    { symmetry. apply (Z.div_unique a b (n - 1) (a - (n - 1) * b)); lia. }
    rewrite Hq in *.
    destruct (2 * (a mod b) <? b) eqn:E; [apply Z.ltb_lt in E; lia|].
    destruct (b <? 2 * (a mod b)) eqn:E'; [lia|]. apply Z.ltb_ge in E'. lia.
Qed.

(** The ten significant digits of a value that is less than [1e-12] below
    the integer [n]: those of [n], and zeros. *)
Lemma significant_below_integer (num den n r : Z) :
  0 < den -> 1 <= n <= 8192 -> 0 < r -> r * 10 ^ 12 < den ->
  num = den * n - r ->
  exists k, 0 <= k <= 3 /\ 10 ^ k <= n < 10 ^ (k + 1) /\
    Fmt.significant 10 num den = (n * 10 ^ (9 - k), k).
Proof.
  intros Hden Hn Hr Hclose Hnum.
  change (10 ^ 12) with 1000000000000 in Hclose.
  assert (Hpos : 0 < num) by nia.
  pose proof (decimal_exponent_spec num den Hpos Hden) as Hx.
  unfold Fmt.significant. cbv zeta in Hx.
  set (x := Fmt.decimal_exponent num den) in *. clearbody x.
  assert (Hxr : (x = -1 /\ n = 1) \/
                (0 <= x <= 3 /\ 10 ^ x < n <= 10 ^ (x + 1))).
  { destruct Hx as [(Hx0 & Hlo & Hhi) | (Hx0 & Hlo & Hhi)].
    - right.
      assert (x <= 3).
      { destruct (Z.le_gt_cases x 3); [done|].
        assert (10 ^ 4 <= 10 ^ x) by (apply Z.pow_le_mono_r; lia).
        change (10 ^ 4) with 10000 in *. nia. }
      split; [lia|].
      assert (0 < 10 ^ x) by (apply Z.pow_pos_nonneg; lia).
      assert (0 < 10 ^ (x + 1)) by (apply Z.pow_pos_nonneg; lia).
      split; nia.
    - left.
      assert (1 <= 10 ^ (- x - 1)).
      { change 1 with (10 ^ 0) at 1. apply Z.pow_le_mono_r; lia. }
      assert (n = 1) by nia. subst n. split; [|done].
      destruct (Z.le_gt_cases x (-2)); [|lia].
      assert (10 ^ 1 <= 10 ^ (- x - 1)) by (apply Z.pow_le_mono_r; lia).
      change (10 ^ 1) with 10 in *. nia. }
  assert (Hround : forall t, 0 < t <= 10000000000 ->
            Fmt.round_half_even (num * t) den = n * t).
  { intros t Ht. apply round_half_even_near; [done|]. subst num.
    replace ((den * n - r) * t - n * t * den) with (- (r * t)) by lia.
    rewrite Z.abs_opp, Z.abs_eq by nia. nia. }
  assert (Hx4 : x = -1 /\ n = 1 \/ (x = 0 \/ x = 1 \/ x = 2 \/ x = 3) /\
                                   10 ^ x < n <= 10 ^ (x + 1)).
  { destruct Hxr as [? | [? ?]]; [by left | right; split; [lia | done]]. }
  clear Hxr Hx.
  destruct (0 <=? 10 - 1 - x) eqn:E; [|apply Z.leb_gt in E; lia]. clear E.
  rewrite Hround.
  2:{ split; [apply Z.pow_pos_nonneg; lia|].
      change 10000000000 with (10 ^ 10). apply Z.pow_le_mono_r; lia. }
  clear Hround Hnum Hclose.
  destruct Hx4 as [[-> ->] | [[-> | [-> | [-> | ->]]] Hnx]].
  - exists 0. split; [lia|]. split; [cbn; lia|]. reflexivity.
  - cbn in Hnx. change (10 - 1 - 0) with 9. change (10 ^ 9) with 1000000000.
    change (10 ^ 10) with 10000000000.
    destruct (Z.leb_spec 10000000000 (n * 1000000000)).
    + exists 1. split; [lia|]. split; [cbn; lia|]. cbn. f_equal. lia.
    + exists 0. split; [lia|]. split; [cbn; lia|]. reflexivity.
  - cbn in Hnx. change (10 - 1 - 1) with 8. change (10 ^ 8) with 100000000.
    change (10 ^ 10) with 10000000000.
    destruct (Z.leb_spec 10000000000 (n * 100000000)).
    + exists 2. split; [lia|]. split; [cbn; lia|]. cbn. f_equal. lia.
    + exists 1. split; [lia|]. split; [cbn; lia|]. reflexivity.
  - cbn in Hnx. change (10 - 1 - 2) with 7. change (10 ^ 7) with 10000000.
    change (10 ^ 10) with 10000000000.
    destruct (Z.leb_spec 10000000000 (n * 10000000)).
    + exists 3. split; [lia|]. split; [cbn; lia|]. cbn. f_equal. lia.
    + exists 2. split; [lia|]. split; [cbn; lia|]. reflexivity.
  - cbn in Hnx. change (10 - 1 - 3) with 6. change (10 ^ 6) with 1000000.
    change (10 ^ 10) with 10000000000.
    destruct (Z.leb_spec 10000000000 (n * 1000000)).
    + lia.
    + exists 3. split; [lia|]. split; [cbn; lia|]. reflexivity.
Qed.

Lemma digits_length (n : nat) (d : Z) : length (Fmt.digits n d) = n.
Proof.
  revert d. induction n as [|n IH]; intros d; [done|].
  cbn [Fmt.digits]. rewrite length_app, IH. simpl. lia.
Qed.

(** The digits of a multiple of a power of ten end in zeros. *)
Lemma digits_zeros (a b : nat) (n : Z) :
  Fmt.digits (a + b) (n * 10 ^ Z.of_nat b) =
    (Fmt.digits a n ++ repeat "0"%char b)%list.
Proof.
  induction b as [|b IH].
  - rewrite Nat.add_0_r, Z.mul_1_r. cbn [repeat]. by rewrite app_nil_r.
  - rewrite Nat.add_succ_r. cbn [Fmt.digits].
    rewrite Nat2Z.inj_succ, Z.pow_succ_r by lia.
    replace (n * (10 * 10 ^ Z.of_nat b)) with (n * 10 ^ Z.of_nat b * 10) by lia.
    rewrite Z.div_mul by lia. rewrite IH.
    unfold Fmt.digit_char. rewrite Z.mod_mul by lia.
    change (ascii_of_nat (48 + Z.to_nat 0)) with "0"%char.
    rewrite <- app_assoc. f_equal. symmetry. apply repeat_cons.
Qed.

Lemma split_digits (a : nat) (n : Z) (l : list ascii) :
  firstn a (Fmt.digits a n ++ l)%list = Fmt.digits a n /\
  skipn a (Fmt.digits a n ++ l)%list = l.
Proof.
  pose proof (digits_length a n) as H. split.
  - by apply take_app_length'.
  - by apply drop_app_length'.
Qed.

Lemma strip_zeros_rev_zeros (l : list ascii) :
  (forall c, In c l -> c = "0"%char) -> Fmt.strip_zeros_rev l = [].
Proof.
  induction l as [|c l IH]; intros H; [done|].
  cbn [Fmt.strip_zeros_rev]. rewrite (H c) by by left.
  change (Ascii.eqb "0" "0") with true. cbv iota.
  apply IH. intros c' Hc'. apply H. by right.
Qed.

Lemma strip_trailing_zeros_zeros (b : nat) :
  Fmt.strip_trailing_zeros (repeat "0"%char b) = [].
Proof.
  unfold Fmt.strip_trailing_zeros. rewrite strip_zeros_rev_zeros; [done|].
  intros c Hc. apply in_rev in Hc. by apply repeat_spec in Hc.
Qed.

Lemma to_lu_add (t : N) (k : nat) :
  DecimalPos.Unsigned.to_lu (t + N.of_nat k) =
    Nat.iter k Decimal.Little.succ (DecimalPos.Unsigned.to_lu t).
Proof.
  induction k as [|k IH]; [by rewrite N.add_0_r|].
  rewrite Nat2N.inj_succ, N.add_succ_r, DecimalPos.Unsigned.to_lu_succ, IH.
  reflexivity.
Qed.

Lemma to_lu_digit (q : positive) (d : nat) :
  (d < 10)%nat ->
  DecimalPos.Unsigned.to_lu (10 * Npos q + N.of_nat d) =
    Py.digit_cons d (DecimalPos.Unsigned.to_lu (Npos q)).
Proof.
  intros Hd. rewrite to_lu_add, DecimalPos.Unsigned.to_ldec_tenfold.
  do 10 (destruct d as [|d]; [reflexivity|]). lia.
Qed.

Lemma string_app_assoc (a b c : string) :
  ((a ++ b) ++ c = a ++ (b ++ c))%string.
Proof.
  induction a as [|x a IH]; [done|].
  change (String x ((a ++ b) ++ c) = String x (a ++ (b ++ c)))%string.
  by rewrite IH.
Qed.

Lemma string_of_uint_revapp (u acc : Decimal.uint) :
  NilEmpty.string_of_uint (Decimal.revapp u acc) =
    (NilEmpty.string_of_uint (Decimal.revapp u Decimal.Nil) ++
     NilEmpty.string_of_uint acc)%string.
Proof.
  revert acc. induction u; intros acc; cbn [Decimal.revapp];
    [done | rewrite IHu; symmetry; rewrite IHu; symmetry;
            rewrite string_app_assoc; reflexivity ..].
Qed.

Lemma string_of_uint_nonnil (d : Decimal.uint) :
  d <> Decimal.Nil -> NilZero.string_of_uint d = NilEmpty.string_of_uint d.
Proof. by destruct d. Qed.

(** [str] of a positive integer, digit by digit. *)
Lemma str_int_step (q d : Z) :
  1 <= q -> 0 <= d < 10 ->
  Py.str_int (10 * q + d) =
    (Py.str_int q ++ String (Fmt.digit_char d) EmptyString)%string.
Proof.
  intros Hq Hd. destruct q as [|q|q]; [lia | | lia].
  destruct (10 * Zpos q + d) as [|p|p] eqn:Ep; [lia | | lia].
  unfold Py.str_int. cbn [Z.to_int NilZero.string_of_int].
  set (k := Z.to_nat d).
  assert (Hp : Npos p = (10 * Npos q + N.of_nat k)%N) by lia.
  pose proof (to_lu_digit q k ltac:(lia)) as Hlu.
  rewrite <- Hp in Hlu. cbn [DecimalPos.Unsigned.to_lu] in Hlu.
  rewrite !string_of_uint_nonnil by apply DecimalPos.Unsigned.to_uint_nonnil.
  unfold Pos.to_uint, Decimal.rev. rewrite Hlu.
  replace d with (Z.of_nat k) by lia.
  assert (Hk : (k < 10)%nat) by lia. clearbody k. clear Hlu Hp Ep Hd.
  do 10 (destruct k as [|k];
         [cbn [Py.digit_cons Decimal.revapp];
          rewrite string_of_uint_revapp; reflexivity|]).
  lia.
Qed.

(** [str] of a positive integer of [k + 1] digits: these digits. *)
Lemma str_int_digits (k : nat) (n : Z) :
  1 <= n -> 10 ^ Z.of_nat k <= n < 10 ^ (Z.of_nat k + 1) ->
  Py.str_int n = string_of_list_ascii (Fmt.digits (S k) n).
Proof.
  revert n. induction k as [|k IH]; intros n Hn Hk.
  - change (10 ^ (Z.of_nat 0 + 1)) with 10 in Hk.
    replace n with (Z.of_nat (Z.to_nat n)) by lia.
    assert (Hlt : (Z.to_nat n < 10)%nat) by lia.
    assert (Hpos : (1 <= Z.to_nat n)%nat) by lia.
    set (i := Z.to_nat n) in *. clearbody i.
    destruct i as [|i]; [lia|].
    do 9 (destruct i as [|i]; [reflexivity|]). lia.
  - rewrite Nat2Z.inj_succ in Hk.
    rewrite !Z.pow_succ_r in Hk by lia.
    replace (Z.succ (Z.of_nat k) + 1) with (Z.succ (Z.of_nat k + 1)) in Hk
      by lia.
    rewrite Z.pow_succ_r in Hk by lia.
    pose proof (Z.div_mod n 10 ltac:(lia)) as Hdm.
    pose proof (Z.mod_pos_bound n 10 ltac:(lia)) as Hm.
    assert (Hpk : 0 < 10 ^ Z.of_nat k) by (apply Z.pow_pos_nonneg; lia).
    assert (Hq : 10 ^ Z.of_nat k <= n / 10 < 10 ^ (Z.of_nat k + 1)).
    { split; [apply Z.div_le_lower_bound; lia|].
      apply Z.div_lt_upper_bound; lia. }
    rewrite Hdm at 1. rewrite str_int_step by lia.
    rewrite (IH (n / 10)) by lia.
    cbn [Fmt.digits].
    assert (Happ : forall (l : list ascii) (c : ascii),
              string_of_list_ascii (l ++ [c]) =
              (string_of_list_ascii l ++ String c EmptyString)%string).
    { intros l c. induction l as [|x l IHl]; [done|].
      cbn [app string_of_list_ascii]. by rewrite IHl. }
    rewrite !Happ. f_equal. f_equal.
    unfold Fmt.digit_char. by rewrite Z.mod_mod by lia.
Qed.

Lemma str_int_small (n k : Z) :
  1 <= n -> 0 <= k -> 10 ^ k <= n < 10 ^ (k + 1) ->
  Py.str_int n = string_of_list_ascii (Fmt.digits (S (Z.to_nat k)) n).
Proof.
  intros Hn Hk Hnk. apply str_int_digits; [done|].
  by rewrite Z2Nat.id by lia.
Qed.

Lemma str_int_opp (n : Z) :
  0 < n -> Py.str_int (- n) = String "-" (Py.str_int n).
Proof. intros H. destruct n; [lia | reflexivity | lia]. Qed.

(** A double that is less than [1e-12] below an integer is printed by
    [format(x, ".10g")] as that integer. *)
Lemma format_g_below_integer (s : bool) (m : positive) (e : Z) :
  Zpos m < 2 ^ 53 -> e <= -3 ->
  let den := 2 ^ (- e) in
  (den - Zpos m mod den) * 2 ^ 92 < 4951760157141521 * den ->
  Fmt.format_g 10 (S754_finite s m e) =
    Py.str_int (cond_Zopp s (Zpos m / den + 1)).
Proof.
  intros Hhi He den Hfar.
  assert (Hden : 0 < den) by (apply Z.pow_pos_nonneg; lia).
  pose proof (Z.div_mod (Zpos m) den ltac:(lia)) as Hdm.
  pose proof (Z.mod_pos_bound (Zpos m) den Hden) as Hr.
  assert (Hp0 : 0 <= Zpos m / den) by (apply Z.div_pos; lia).
  set (p := Zpos m / den) in *. set (r := den - Zpos m mod den) in *.
  assert (Hr0 : 0 < r) by (unfold r; lia).
  assert (Hnum : Zpos m = den * (p + 1) - r) by (unfold r; lia).
  clearbody p r. clear Hdm Hr.
  assert (Hclose : r * 10 ^ 12 < den).
  { apply (Z.mul_lt_mono_pos_l 4951760157141521); [lia|].
    eapply Z.le_lt_trans; [|exact Hfar].
    replace (4951760157141521 * (r * 10 ^ 12))
      with (r * (4951760157141521 * 10 ^ 12)) by lia.
    apply Z.mul_le_mono_nonneg_l; [lia|]. by vm_compute. }
  assert (He40 : e <= -40).
  { destruct (Z.le_gt_cases e (-40)); [done | exfalso].
    assert (den <= 2 ^ 39) by (apply Z.pow_le_mono_r; lia).
    assert (1 * 2 ^ 92 <= r * 2 ^ 92) by (apply Z.mul_le_mono_nonneg_r; lia).
    assert (4951760157141521 * den <= 4951760157141521 * 2 ^ 39)
      by (apply Z.mul_le_mono_nonneg_l; lia).
    assert (4951760157141521 * 2 ^ 39 < 1 * 2 ^ 92) by (by vm_compute).
    lia. }
  assert (Hn : 1 <= p + 1 <= 8192).
  { split; [lia|].
    assert (2 ^ 40 <= den) by (apply Z.pow_le_mono_r; lia).
    change (2 ^ 53) with (8192 * 2 ^ 40) in Hhi.
    assert (p * 2 ^ 40 <= p * den) by (apply Z.mul_le_mono_nonneg_l; lia).
    assert (p < 8192); [|lia].
    apply (Z.mul_lt_mono_pos_r (2 ^ 40)); [lia|]. nia. }
  destruct (significant_below_integer (Zpos m) den (p + 1) r
              Hden Hn Hr0 Hclose Hnum) as (k & Hk & Hnk & Hsig).
  unfold Fmt.format_g, Fmt.format_g_chars, F64.to_fraction.
  destruct (0 <=? e) eqn:E; [apply Z.leb_le in E; lia|]. clear E.
  fold den. change (Z.of_nat 10) with 10. rewrite Hsig.
  assert (Hstr : Py.str_int (cond_Zopp s (p + 1)) =
            string_of_list_ascii
              (Fmt.sign_chars s ++ Fmt.digits (S (Z.to_nat k)) (p + 1))%list).
  { destruct s; cbn [cond_Zopp Fmt.sign_chars app].
    - rewrite str_int_opp by lia. cbn [string_of_list_ascii]. f_equal.
      apply str_int_small; [lia | lia | done].
    - apply str_int_small; [lia | lia | done]. }
  rewrite Hstr. f_equal. f_equal.
  assert (Hds : Fmt.digits 10 ((p + 1) * 10 ^ (9 - k)) =
            (Fmt.digits (S (Z.to_nat k)) (p + 1) ++
             repeat "0"%char (9 - Z.to_nat k))%list).
  { rewrite <- digits_zeros. f_equal; [lia|]. do 2 f_equal. lia. }
  rewrite Hds.
  destruct (k <? -4) eqn:E1; [apply Z.ltb_lt in E1; lia|].
  destruct (10 <=? k) eqn:E2; [apply Z.leb_le in E2; lia|].
  destruct (0 <=? k) eqn:E3; [|apply Z.leb_gt in E3; lia].
  cbn [orb]. cbv zeta.
  destruct (split_digits (S (Z.to_nat k)) (p + 1)
              (repeat "0"%char (9 - Z.to_nat k))) as [-> ->].
  rewrite strip_trailing_zeros_zeros. unfold Fmt.with_point.
  by rewrite app_nil_r.
Qed.

(** *** The nearest integer *)

Lemma abs_cond_Zopp (s : bool) (a b d : Z) :
  Z.abs (cond_Zopp s a - cond_Zopp s b * d) = Z.abs (a - b * d).
Proof. destruct s; cbn [cond_Zopp]; lia. Qed.

(** The integer test of [format_result] against the nearest integer: the
    two choose the same rendering. *)
Lemma integer_branch (s : bool) (m : positive) (e : Z) :
  valid_binary F64.prec F64.emax (S754_finite s m e) = true ->
  scientific_range (S754_finite s m e) = false ->
  let v := S754_finite s m e in
  let n := cond_Zopp s (Zpos m / 2 ^ (- e)) in
  (if near_integer v n then Py.str_int n else Fmt.format_g 10 v) =
  (if near_nearest_integer v then Py.str_int (nearest_integer v)
   else Fmt.format_g 10 v).
Proof.
  intros Hv Hs v n. unfold v, n.
  rewrite (near_integer_exact s m e Hv Hs).
  pose proof (fixed_range_exponent _ _ _ Hs) as He.
  pose proof (valid_mantissa _ _ _ Hv) as Hhi.
  unfold near_nearest_integer, closer_than, nearest_integer, fraction.
  rewrite c_1e_12_value. unfold F64.to_fraction.
  destruct (0 <=? e) eqn:E; [apply Z.leb_le in E; lia|]. clear E.
  change (0 <=? -92) with false. cbv iota. cbn [cond_Zopp].
  change (- -92) with 92.
  pose proof (format_g_below_integer s m e Hhi ltac:(lia)) as Hfar.
  cbv zeta in Hfar.
  assert (Hden : 0 < 2 ^ (- e)) by (apply Z.pow_pos_nonneg; lia).
  pose proof (Z.div_mod (Zpos m) (2 ^ (- e)) ltac:(lia)) as Hdm.
  pose proof (Z.mod_pos_bound (Zpos m) (2 ^ (- e)) Hden) as Hr.
  rewrite abs_cond_Zopp.
  set (den := 2 ^ (- e)) in *. set (p := Zpos m / den) in *.
  set (r := Zpos m mod den) in *. clearbody den p r.
  assert (H92 : 2 * 4951760157141521 < 2 ^ 92) by (by vm_compute).
  destruct (Z.ltb_spec (r * 2 ^ 92) (4951760157141521 * den)) as [Hnear | Hnear].
  - (* above the integer part, and close *)
    assert (Hn : Fmt.round_half_even (Zpos m) den = p).
    { apply round_half_even_near; [done|].
      replace (Zpos m - p * den) with r by lia. rewrite Z.abs_eq; lia. }
    rewrite Hn. replace (Zpos m - p * den) with r by lia.
    rewrite Z.abs_eq by lia.
    destruct (Z.ltb_spec (r * 2 ^ 92) (4951760157141521 * den)); [done | lia].
  - destruct (Z.lt_ge_cases ((den - r) * 2 ^ 92) (4951760157141521 * den))
      as [Hup | Hup].
    + (* below the next integer, and close *)
      assert (Hn : Fmt.round_half_even (Zpos m) den = p + 1).
      { apply round_half_even_near; [done|].
        replace (Zpos m - (p + 1) * den) with (- (den - r)) by lia.
        rewrite Z.abs_opp, Z.abs_eq; lia. }
      rewrite Hn. replace (Zpos m - (p + 1) * den) with (- (den - r)) by lia.
      rewrite Z.abs_opp, Z.abs_eq by lia.
      destruct (Z.ltb_spec ((den - r) * 2 ^ 92) (4951760157141521 * den));
        [|lia].
      by apply Hfar.
    + (* far from both *)
      pose proof (round_half_even_bounds (Zpos m) den p (p + 1) Hden
                    ltac:(lia)) as Hb.
      set (n0 := Fmt.round_half_even (Zpos m) den) in *. clearbody n0.
      assert (Hc : n0 = p \/ n0 = p + 1) by lia.
      destruct (Z.ltb_spec (Z.abs (Zpos m - n0 * den) * 2 ^ 92)
                  (4951760157141521 * den)) as [Hlt | Hge]; [|done].
      exfalso. destruct Hc as [-> | ->].
      * replace (Zpos m - p * den) with r in Hlt by lia.
        rewrite Z.abs_eq in Hlt; lia.
      * replace (Zpos m - (p + 1) * den) with (- (den - r)) in Hlt by lia.
        rewrite Z.abs_opp, Z.abs_eq in Hlt; lia.
Qed.


(** *** The rule *)

Lemma scientific_range_zero (s : bool) : scientific_range (S754_zero s) = false.
Proof.
  unfold scientific_range. rewrite c_1e15_value, c_1e_4_value.
  by destruct s.
Qed.

(** [format_result] on a finite double, as the source computes it: the
    integer it compares with, and prints, is [int(result)]. *)
Lemma format_result_unfold (v : Py.float) :
  valid_binary F64.prec F64.emax v = true ->
  F64.is_finite v = true ->
  exists n : Z,
    F64.trunc_Z v = Some n /\
    format_result v =
      Py.Return (if scientific_range v then Fmt.format_e 6 v
                 else if near_integer v n then Py.str_int n
                 else Fmt.format_g 10 v).
Proof.
  intros Hvalid Hfin.
  assert (Hn : exists n, F64.trunc_Z v = Some n).
  { destruct v; try discriminate Hfin; eexists; reflexivity. }
  destruct Hn as [n Hn]. exists n. split; [exact Hn|].
  unfold format_result. fold (scientific_range v).
  destruct (scientific_range v) eqn:Hs; [reflexivity|].
  unfold scientific_range in Hs. apply orb_false_elim in Hs as [Hgt _].
  destruct (trunc_small v Hvalid Hfin Hgt) as (n' & Hn' & Hsmall).
  rewrite Hn in Hn'. injection Hn' as <-.
  unfold Py.int_of_float, Py.float_of_int. rewrite Hn.
  cbn [mbind Py.result_bind Py.bind].
  rewrite (of_Z_small n Hsmall).
  cbn [mbind Py.result_bind Py.bind].
  fold (near_integer v n). by destruct (near_integer v n).
Qed.

(** C8, for the finite doubles. [format_result] obeys the three-branch
    rule: if [|value| > 1e15], or [|value| < 1e-4] with [value != 0], it
    renders normalized scientific notation with 6 digits after the decimal
    point ([format(value, ".6e")]); otherwise, if [value] is within [1e-12]
    of its nearest integer, it renders that integer as a plain integer
    string with no decimal point or exponent (so
    [format_result(4.0) = "4"] and [format_result(180.0) = "180"]);
    otherwise it renders with 10 significant digits
    ([format(value, ".10g")]). *)
Theorem format_result_branches (v : Py.float) :
  valid_binary F64.prec F64.emax v = true ->
  F64.is_finite v = true ->
  format_result v =
    Py.Return (if scientific_range v then Fmt.format_e 6 v
               else if near_nearest_integer v
                    then Py.str_int (nearest_integer v)
               else Fmt.format_g 10 v) /\
  (scientific_range v = true ->
   Fmt.is_scientific 6 (Fmt.format_e 6 v) = true) /\
  Fmt.is_plain_integer (Py.str_int (nearest_integer v)) = true /\
  format_result (F64.of_Z 4) = Py.Return "4" /\
  format_result (F64.of_Z 180) = Py.Return "180".
Proof.
  intros Hvalid Hfin.
  split_and!; [ | | apply str_int_is_plain_integer | reflexivity | reflexivity].
  - destruct (format_result_unfold v Hvalid Hfin) as (n & Hn & ->). f_equal.
    destruct (scientific_range v) eqn:Hs; [reflexivity|].
    destruct v as [s | s | | s m e]; try discriminate Hfin.
    + injection Hn as <-.
      unfold near_integer, near_nearest_integer, closer_than.
      rewrite c_1e_12_value. by destruct s.
    + pose proof (fixed_range_exponent _ _ _ Hs) as He.
      cbn [F64.trunc_Z] in Hn. unfold F64.trunc_parts in Hn.
      destruct (0 <=? e) eqn:E; [apply Z.leb_le in E; lia|].
      cbn [fst] in Hn. injection Hn as <-.
      by apply integer_branch.
  - intros Hs. destruct v as [s | s | | s m e]; try discriminate Hfin.
    + by rewrite scientific_range_zero in Hs.
    + apply format_e_6_shape.
Qed.

(** [format_result(4.0)] is ["4"]. *)
Lemma format_result_branches_witness :
  format_result (F64.of_Z 4) =
    Py.Return (if scientific_range (F64.of_Z 4)
               then Fmt.format_e 6 (F64.of_Z 4)
               else if near_nearest_integer (F64.of_Z 4)
                    then Py.str_int (nearest_integer (F64.of_Z 4))
               else Fmt.format_g 10 (F64.of_Z 4)) /\
  (scientific_range (F64.of_Z 4) = true ->
   Fmt.is_scientific 6 (Fmt.format_e 6 (F64.of_Z 4)) = true) /\
  Fmt.is_plain_integer (Py.str_int (nearest_integer (F64.of_Z 4))) = true /\
  format_result (F64.of_Z 4) = Py.Return "4" /\
  format_result (F64.of_Z 180) = Py.Return "180".
Proof.
  apply (format_result_branches (F64.of_Z 4)); reflexivity.
Defined.

End FormatResult.

(** An infinity is above [1e15]: it is rendered as [inf], which is no
    scientific notation. *)
Lemma format_result_of_infinity :
  format_result F64.infinity = Py.Return "inf"
  /\ Fmt.is_scientific 6 "inf" = false.
Proof. split; reflexivity. Qed.

(** The three renderings on the examples of the source, and on the
    double just below [1]: the test of the source, which compares with
    [int(result)], fails on it, and the third branch prints the nearest
    integer all the same. *)
Example format_result_examples :
  format_result (F64.of_decimal 123 14) = Py.Return "1.230000e+16"
  /\ format_result (F64.of_decimal 5 (-5)) = Py.Return "5.000000e-05"
  /\ format_result (F64.of_decimal 25 (-1)) = Py.Return "2.5"
  /\ format_result (S754_finite false 9007199254740991 (-53)) = Py.Return "1"
  /\ near_integer (S754_finite false 9007199254740991 (-53)) 0 = false
  /\ nearest_integer (S754_finite false 9007199254740991 (-53)) = 1.
Proof. split_and!; reflexivity. Qed.

(** ** The test table of the source *)

(** The entries of [run_tests] that do not go through libm evaluate, on
    every platform, to the numbers the table expects; so does the
    formatted result. *)
Example run_tests_entries (libm : Py.Libm)
    (syntax_error_msg : string -> string) :
  let value (expr : string) (n : Z) :=
    evaluate_expression libm syntax_error_msg expr =
      Some (Py.Return (Py.VFloat (F64.of_Z n)))
    /\ format_result (F64.of_Z n) = Py.Return (Py.str_int n) in
  value "1+2*3" 7 /\ value "(1+2)*3" 9 /\ value "4/2" 2 /\ value "5%2" 1
  /\ value "-3 + 7" 4 /\ value "9//2" 4 /\ value "sqrt(16)" 4
  /\ value "abs(-5)" 5 /\ value "ceil(3.2)" 4 /\ value "floor(3.8)" 3
  /\ value "round(3.7)" 4 /\ value "pi/pi" 1 /\ value "e/e" 1
  /\ value "degrees(pi)" 180.
Proof. cbv zeta. split_and!; reflexivity. Qed.

(** * The program around the evaluator *)

(** ** The interactive loop *)

Section ProgramProperties.

Variable libm : Py.Libm.
Variable syntax_error_msg : string -> string.

(** Every class of the model derives from [Exception]. *)
Lemma every_class_is_an_Exception (c : Py.exc_type) :
  existsb (Py.issubclass c) Py.Exception = true.
Proof. by destruct c. Qed.

(** A line that is no command goes to [evaluate_expression]. *)
Lemma repl_line_expression (history : history_t) (s : string) :
  is_command s = false ->
  repl_line libm syntax_error_msg history s =
  (r ← evaluate_expression libm syntax_error_msg s;
   Some
     match r with
     | Py.Raise e =>
         if Py.issubclass (Py.exc_class e) Py.EvalError
         then ([Print ("Error: " ++ Py.exc_str e)], Next history)
         else ([Print ("Unexpected error: " ++ Py.exc_str e)], Next history)
     | Py.Return result =>
         match format_result_value libm result with
         | Py.Raise e => ([], Uncaught e)
         | Py.Return formatted_result =>
             ([Print formatted_result],
              Next (history ++ [(s, formatted_result)])%list)
         end
     end).
Proof.
  unfold is_command, repl_line, Str.among. cbn [existsb].
  intros H. apply orb_false_elim in H as [H1 H].
  apply orb_false_elim in H as [Hq H]. apply orb_false_elim in H as [He H].
  apply orb_false_elim in H as [Hh H]. apply orb_false_elim in H as [Hh' H].
  apply orb_false_elim in H as [Hhi H]. apply orb_false_elim in H as [Hc _].
  rewrite H1, Hq, He, Hh, Hh', Hhi, Hc. cbn [orb].
  destruct (evaluate_expression libm syntax_error_msg s) as [[v | e] |];
    [reflexivity | | reflexivity].
  cbn [mbind option_bind]. by rewrite every_class_is_an_Exception.
Qed.


(** X1. The loop goes on after every exception of the evaluation, whatever
    its class: it prints the message and reads the next line with the
    history as it was. *)
Theorem repl_survives_every_error (history : history_t)
    (rest : list input_event) (raw : string) (e : Py.exception) :
  forallb Parser.modelled_char (list_ascii_of_string raw) = true ->
  is_command (Str.strip raw) = false ->
  evaluate_expression libm syntax_error_msg (Str.strip raw) =
    Some (Py.Raise e) ->
  repl_loop libm syntax_error_msg (Line raw :: rest) history =
    ('(out, r) ← repl_loop libm syntax_error_msg rest history;
     Some (Input "calc> " ::
           Print ((if Py.issubclass (Py.exc_class e) Py.EvalError
                   then "Error: " else "Unexpected error: ") ++
                  Py.exc_str e) :: out, r)).
Proof.
  intros Hm Hc He. cbn [repl_loop]. rewrite Hm. cbn [negb].
  rewrite repl_line_expression by done. rewrite He.
  cbn [mbind option_bind].
  by destruct (Py.issubclass (Py.exc_class e) Py.EvalError).
Qed.

(** X2. An exception of [format_result] is caught nowhere: [repl] calls it in
    the [else] clause of its [try], [main] after its [try]. It ends the
    loop, with no line printed and the rest of the input unread, and it
    leaves [main]. *)
Theorem formatting_failure_is_uncaught (history : history_t)
    (rest : list input_event) (raw : string) (v : Py.value)
    (e : Py.exception) :
  forallb Parser.modelled_char (list_ascii_of_string raw) = true ->
  is_command (Str.strip raw) = false ->
  evaluate_expression libm syntax_error_msg (Str.strip raw) =
    Some (Py.Return v) ->
  format_result_value libm v = Py.Raise e ->
  repl_loop libm syntax_error_msg (Line raw :: rest) history =
    Some ([Input "calc> "], Py.Raise e)
  /\ main libm syntax_error_msg
       {| args_expr := Some (Str.strip raw); args_test := false |} rest =
     Some ([], Py.Raise e).
Proof.
  intros Hm Hc He Hf. split.
  - cbn [repl_loop]. rewrite Hm. cbn [negb].
    rewrite repl_line_expression by done. rewrite He.
    cbn [mbind option_bind]. by rewrite Hf.
  - unfold main. cbn [args_test args_expr].
    destruct (Str.strip raw) as [|c s'] eqn:Es; [discriminate Hc|].
    rewrite He. cbn [mbind option_bind]. by rewrite Hf.
Qed.


(** X3. [quit] and [exit], in any case of letters and between blanks, end the
    loop at once: no line after them is read. *)
Theorem nothing_is_read_after_quit (history : history_t)
    (rest : list input_event) (raw : string) :
  forallb Parser.modelled_char (list_ascii_of_string raw) = true ->
  Str.among (Str.lower (Str.strip raw)) ["quit"; "exit"] = true ->
  repl_loop libm syntax_error_msg (Line raw :: rest) history =
    Some ([Input "calc> "], Py.Return tt).
Proof.
  intros Hm Hq. cbn [repl_loop]. rewrite Hm. cbn [negb]. unfold repl_line.
  destruct (String.eqb_spec (Str.strip raw) "") as [E | _].
  - rewrite E in Hq. discriminate Hq.
  - by rewrite Hq.
Qed.

(** X4. [clear] forgets the whole history, whatever it held: a [history]
    right after it finds nothing. *)
Theorem clear_empties_the_history (history : history_t)
    (rest : list input_event) (raw1 raw2 : string) :
  forallb Parser.modelled_char (list_ascii_of_string raw1) = true ->
  forallb Parser.modelled_char (list_ascii_of_string raw2) = true ->
  Str.lower (Str.strip raw1) = "clear" ->
  Str.lower (Str.strip raw2) = "history" ->
  repl_loop libm syntax_error_msg (Line raw1 :: Line raw2 :: rest) history =
    ('(out, r) ← repl_loop libm syntax_error_msg rest [];
     Some (Input "calc> " :: Print "History cleared." ::
           Input "calc> " :: Print "No calculation history yet." :: out, r)).
Proof.
  intros Hm1 Hm2 H1 H2. cbn [repl_loop]. rewrite Hm1, Hm2. cbn [negb].
  unfold repl_line. rewrite H1, H2.
  destruct (String.eqb_spec (Str.strip raw1) "") as [E | _];
    [by rewrite E in H1|].
  destruct (String.eqb_spec (Str.strip raw2) "") as [E | _];
    [by rewrite E in H2|].
  cbn. by destruct (repl_loop libm syntax_error_msg rest []) as [[out r]|].
Qed.

(** The lines of the history, written out: a history of ten entries at
    most is numbered from [ 1] to [10], in two columns. *)
Lemma history_lines_numbered (l : history_t) :
  (length l <= 10)%nat ->
  history_lines 1 l =
  zip_with (fun (number : string) (entry : string * string) =>
              Print (number ++ ". " ++ fst entry ++ " = " ++ snd entry))
    [" 1"; " 2"; " 3"; " 4"; " 5"; " 6"; " 7"; " 8"; " 9"; "10"] l.
Proof.
  intros H. do 11 (destruct l as [|[? ?] l]; [reflexivity|]).
  cbn [length] in H. lia.
Qed.

(** X5. On a history that is not empty, [history] prints between its two
    rules the ten latest entries, or all of them when they are fewer: the
    oldest of them first, one line [<number>. <expression> = <result>]
    for each, numbered from [ 1] on in two columns; what is older is not
    shown, and the history is kept. The first rule starts with an empty
    line and the second one is followed by one. *)
Theorem history_shows_the_last_ten (history : history_t)
    (rest : list input_event) (raw : string) :
  forallb Parser.modelled_char (list_ascii_of_string raw) = true ->
  Str.lower (Str.strip raw) = "history" ->
  history <> [] ->
  repl_loop libm syntax_error_msg (Line raw :: rest) history =
    ('(out, r) ← repl_loop libm syntax_error_msg rest history;
     Some (Input "calc> " ::
           Print (String "010" "=== Calculation History ===") ::
           zip_with (fun (number : string) (entry : string * string) =>
                       Print (number ++ ". " ++ fst entry ++ " = " ++
                              snd entry))
             [" 1"; " 2"; " 3"; " 4"; " 5"; " 6"; " 7"; " 8"; " 9"; "10"]
             (skipn (length history - 10) history) ++
           Print ("===========================" ++ String "010" "") ::
           out, r))%list.
Proof.
  intros Hm Hh Hne.
  rewrite <- history_lines_numbered by (rewrite length_skipn; lia).
  cbn [repl_loop]. rewrite Hm. cbn [negb]. unfold repl_line. rewrite Hh.
  destruct (String.eqb_spec (Str.strip raw) "") as [E | _];
    [by rewrite E in Hh|].
  cbn. destruct history as [|entry history']; [done|].
  cbn [mbind option_bind].
  destruct (repl_loop libm syntax_error_msg rest (entry :: history'))
    as [[out r]|]; [|done].
  cbn. by rewrite <- app_assoc.
Qed.

(** X6. The history only grows by an expression that was evaluated and
    formatted, with the text that was printed for it: every entry is an
    expression and the text of its value. *)
Theorem history_records_what_was_printed (history history' : history_t)
    (s : string) (out : list effect) :
  recorded libm syntax_error_msg history ->
  repl_line libm syntax_error_msg history s = Some (out, Next history') ->
  recorded libm syntax_error_msg history' /\
  (history' = history \/ history' = [] \/
   exists text, history' = (history ++ [(s, text)])%list /\
                out = [Print text]).
Proof.
  intros Hrec. unfold repl_line.
  repeat match goal with
  | |- context [if ?c then _ else _] =>
      destruct c; [intros [= <- <-] || intros [=]; eauto using Forall_nil|]
  end.
  all: try (split; [done || constructor | eauto]).
  destruct (evaluate_expression libm syntax_error_msg s) as [[v | e] |] eqn:Ev;
    cbn [mbind option_bind]; [ | | discriminate].
  - destruct (format_result_value libm v) as [text | e] eqn:Ef;
      [|discriminate].
    intros [= <- <-]. split; [|right; right; eauto].
    apply Forall_app. split; [done|]. constructor; [|constructor].
    exists v. by split.
  - repeat match goal with
    | |- context [if ?c then _ else _] => destruct c
    end; intros [= <- <-] || intros [=]; eauto.
Qed.

End ProgramProperties.

Lemma formatting_failure_is_uncaught_witness :
  repl_loop Py.exact_powers_libm (fun _ => "invalid syntax")
    [Line " inf - inf "; Line "1+1"] [] =
    Some ([Input "calc> "],
          Py.raise Py.ValueError "cannot convert float NaN to integer")
  /\ main Py.exact_powers_libm (fun _ => "invalid syntax")
       {| args_expr := Some (Str.strip " inf - inf "); args_test := false |}
       [Line "1+1"] =
     Some ([], Py.raise Py.ValueError "cannot convert float NaN to integer").
Proof.
  apply (formatting_failure_is_uncaught Py.exact_powers_libm
           (fun _ => "invalid syntax") [] [Line "1+1"] " inf - inf "
           (Py.VFloat F64.nan)); reflexivity.
Defined.

Lemma repl_survives_every_error_witness :
  repl_loop Py.exact_powers_libm (fun _ => "invalid syntax")
    [Line "ceil(inf)"] [] =
    Some ([Input "calc> ";
           Print "Unexpected error: cannot convert float infinity to integer";
           Input "calc> "; Print ""],
          Py.Return tt).
Proof.
  apply (repl_survives_every_error Py.exact_powers_libm
           (fun _ => "invalid syntax") [] [] "ceil(inf)"
           (Py.Exc Py.OverflowError
              "cannot convert float infinity to integer")); reflexivity.
Defined.

Lemma nothing_is_read_after_quit_witness :
  repl_loop Py.exact_powers_libm (fun _ => "invalid syntax")
    [Line "  QuIt "; Line "1+1"] [("1", "1")] =
    Some ([Input "calc> "], Py.Return tt).
Proof.
  apply (nothing_is_read_after_quit Py.exact_powers_libm
           (fun _ => "invalid syntax") [("1", "1")] [Line "1+1"] "  QuIt ");
    reflexivity.
Defined.

Lemma clear_empties_the_history_witness :
  repl_loop Py.exact_powers_libm (fun _ => "invalid syntax")
    [Line "Clear"; Line " history"] [("1", "1"); ("2+2", "4")] =
    Some ([Input "calc> "; Print "History cleared.";
           Input "calc> "; Print "No calculation history yet.";
           Input "calc> "; Print ""],
          Py.Return tt).
Proof.
  apply (clear_empties_the_history Py.exact_powers_libm
           (fun _ => "invalid syntax") [("1", "1"); ("2+2", "4")] []
           "Clear" " history"); reflexivity.
Defined.

(** Twelve entries: the two oldest are not shown, and the third is
    numbered [ 1]. *)
Lemma history_shows_the_last_ten_witness :
  repl_loop Py.exact_powers_libm (fun _ => "invalid syntax")
    [Line " HiStory "]
    [("1", "1"); ("2", "2"); ("3", "3"); ("4", "4"); ("5", "5"); ("6", "6");
     ("7", "7"); ("8", "8"); ("9", "9"); ("10", "10"); ("11", "11");
     ("12", "12")] =
    Some ([Input "calc> ";
           Print (String "010" "=== Calculation History ===");
           Print " 1. 3 = 3"; Print " 2. 4 = 4"; Print " 3. 5 = 5";
           Print " 4. 6 = 6"; Print " 5. 7 = 7"; Print " 6. 8 = 8";
           Print " 7. 9 = 9"; Print " 8. 10 = 10"; Print " 9. 11 = 11";
           Print "10. 12 = 12";
           Print ("===========================" ++ String "010" "");
           Input "calc> "; Print ""],
          Py.Return tt).
Proof.
  exact (history_shows_the_last_ten Py.exact_powers_libm
           (fun _ => "invalid syntax")
           [("1", "1"); ("2", "2"); ("3", "3"); ("4", "4"); ("5", "5");
            ("6", "6"); ("7", "7"); ("8", "8"); ("9", "9"); ("10", "10");
            ("11", "11"); ("12", "12")] [] " HiStory "
           eq_refl eq_refl ltac:(discriminate)).
Defined.

Lemma history_records_what_was_printed_witness :
  recorded Py.exact_powers_libm (fun _ => "invalid syntax") [("2+2", "4")] /\
  ([("2+2", "4")] = [] \/ [("2+2", "4")] = [] \/
   exists text, [("2+2", "4")] = ([] ++ [("2+2", text)])%list /\
                [Print "4"] = [Print text]).
Proof.
  apply (history_records_what_was_printed Py.exact_powers_libm
           (fun _ => "invalid syntax") [] [("2+2", "4")] "2+2" [Print "4"]);
    [constructor | reflexivity].
Defined.

(** ** [main] *)

Section MainProperties.

Variable libm : Py.Libm.
Variable syntax_error_msg : string -> string.

(** X7. What [main] returns, when it returns: [2] only after a failed
    [--test]; [1] only for an [EvalError] of the expression of [--expr],
    after its message was printed; [0] after the tests passed, after the
    value of the expression was printed, or after the loop ended. [--test]
    comes before [--expr], and an empty [--expr] is no expression: the
    loop is entered. *)
Theorem main_exit_codes (args : Namespace) (events : list input_event)
    (out : list effect) (code : Z) :
  main libm syntax_error_msg args events = Some (out, Py.Return code) ->
  (args_test args = true /\
   exists lines success,
     run_tests libm syntax_error_msg = Some (lines, Py.Return success) /\
     out = (lines ++ [Print (if success then "All tests passed."
                             else "Some tests failed.")])%list /\
     code = (if success then 0 else 2))
  \/
  (args_test args = false /\
   exists s, args_expr args = Some s /\ s <> "" /\
     ((exists e,
         evaluate_expression libm syntax_error_msg s = Some (Py.Raise e) /\
         Py.exc_class e = Py.EvalError /\
         out = [Print ("Error: " ++ Py.exc_str e)] /\ code = 1)
      \/
      (exists v text,
         evaluate_expression libm syntax_error_msg s = Some (Py.Return v) /\
         format_result_value libm v = Py.Return text /\
         out = [Print text] /\ code = 0)))
  \/
  (args_test args = false /\
   (args_expr args = None \/ args_expr args = Some "") /\
   repl libm syntax_error_msg events = Some (out, Py.Return tt) /\
   code = 0).
Proof.
  unfold main. destruct args as [e t]. cbn [args_test args_expr].
  destruct t.
  - destruct (run_tests libm syntax_error_msg) as [[lines [ok | ex]] |];
      cbn [mbind option_bind]; intros [= <- <-]. left. split; [done|].
    by exists lines, ok.
  - assert (Hrepl :
      ('(out0, r) ← repl libm syntax_error_msg events;
       Some (out0, _ ← r; Py.Return 0)) = Some (out, Py.Return code) ->
      repl libm syntax_error_msg events = Some (out, Py.Return tt) /\
      code = 0).
    { destruct (repl libm syntax_error_msg events) as [[out0 [[] | ex]] |];
        cbn; intros [= <- <-]; by split. }
    destruct e as [[|c s] |].
    + intros H. right; right. apply Hrepl in H as [H ->]. by auto.
    + destruct (evaluate_expression libm syntax_error_msg (String c s))
        as [[v | ex] |] eqn:Ev; cbn [mbind option_bind]; [ | | discriminate].
      * destruct (format_result_value libm v) as [text | ex] eqn:Ef;
          intros [= <- <-].
        right; left. split; [done|]. exists (String c s).
        split_and!; [done | done |]. right. by exists v, text.
      * destruct (Py.issubclass (Py.exc_class ex) Py.EvalError) eqn:Ec;
          intros [= <- <-].
        right; left. split; [done|]. exists (String c s).
        split_and!; [done | done |]. left. exists ex.
        split_and!; [done | | done | done].
        by destruct (Py.exc_class ex).
    + intros H. right; right. apply Hrepl in H as [H ->]. by auto.
Qed.

(** X8. The expression of [--expr] is taken as it is: [main] does not strip
    it as the loop does its lines. Of the expressions of one line of the
    modelled characters (printable ASCII and tabs, without [#] and the
    backslash), each one that starts with a space or a tab is a syntax
    error (an [IndentationError]), reported as [Error: Syntax error: ...]
    with the exit code [1]. An expression of several lines is outside the
    model: the parser skips a first line of blanks. *)
Theorem main_does_not_strip (c : ascii) (s : string)
    (events : list input_event) :
  Parser.is_blank c = true ->
  forallb Parser.modelled_char (list_ascii_of_string s) = true ->
  main libm syntax_error_msg
    {| args_expr := Some (String c s); args_test := false |} events =
    Some ([Print ("Error: Syntax error: " ++
                  syntax_error_msg (String c s))], Py.Return 1).
Proof.
  intros Hc Hs.
  assert (He : evaluate_expression libm syntax_error_msg (String c s) =
               Some (Py.raise Py.EvalError
                       ("Syntax error: " ++ syntax_error_msg (String c s)))).
  { unfold evaluate_expression, Parser.parse.
    cbn [list_ascii_of_string forallb]. rewrite Hs, andb_true_r.
    assert (Hmc : Parser.modelled_char c = true).
    { unfold Parser.is_blank in Hc. unfold Parser.modelled_char.
      apply orb_prop in Hc as [Hc | Hc]; apply Nat.eqb_eq in Hc;
        rewrite Hc; reflexivity. }
    rewrite Hmc. cbn [negb]. by rewrite Hc. }
  unfold main. cbn [args_test args_expr]. by rewrite He.
Qed.

End MainProperties.

Lemma main_exit_codes_witness :
  (false = true /\
   exists lines success,
     run_tests Py.exact_powers_libm (fun _ => "invalid syntax") =
       Some (lines, Py.Return success) /\
     [Print "Error: Error evaluating binary op: float division by zero"] =
       (lines ++ [Print (if success then "All tests passed."
                         else "Some tests failed.")])%list /\
     1 = (if success then 0 else 2))
  \/
  (false = false /\
   exists s, Some "1/0" = Some s /\ s <> "" /\
     ((exists e,
         evaluate_expression Py.exact_powers_libm (fun _ => "invalid syntax")
           s = Some (Py.Raise e) /\
         Py.exc_class e = Py.EvalError /\
         [Print "Error: Error evaluating binary op: float division by zero"] =
           [Print ("Error: " ++ Py.exc_str e)] /\ 1 = 1)
      \/
      (exists v text,
         evaluate_expression Py.exact_powers_libm (fun _ => "invalid syntax")
           s = Some (Py.Return v) /\
         format_result_value Py.exact_powers_libm v = Py.Return text /\
         [Print "Error: Error evaluating binary op: float division by zero"] =
           [Print text] /\ 1 = 0)))
  \/
  (false = false /\
   (Some "1/0" = None \/ Some "1/0" = Some "") /\
   repl Py.exact_powers_libm (fun _ => "invalid syntax") [] =
     Some ([Print "Error: Error evaluating binary op: float division by zero"],
           Py.Return tt) /\
   1 = 0).
Proof.
  apply (main_exit_codes Py.exact_powers_libm (fun _ => "invalid syntax")
           {| args_expr := Some "1/0"; args_test := false |} []).
  reflexivity.
Defined.

Lemma main_does_not_strip_witness :
  main Py.exact_powers_libm (fun _ => "unexpected indent")
    {| args_expr := Some " 1+1"; args_test := false |} [] =
    Some ([Print "Error: Syntax error: unexpected indent"], Py.Return 1).
Proof.
  apply (main_does_not_strip Py.exact_powers_libm
           (fun _ => "unexpected indent") " "%char "1+1" []); reflexivity.
Defined.

(** ** [run_tests] on a platform with an exact libm *)

Section RunTests.

Variable libm : Py.Libm.
Variable syntax_error_msg : string -> string.
Hypothesis pow_exact : Py.pow_is_exact libm.
Hypothesis libm_exact : exact_at_the_tests libm.

(** An entry that evaluates to its expected number is printed as passed,
    and leaves the verdict as it was. *)
Lemma run_tests_passed (expr : string) (expected : Z)
    (l : list (string * Z)) (ok : bool) :
  evaluate_expression libm syntax_error_msg expr =
    Some (Py.Return (Py.VFloat (F64.of_Z expected))) ->
  F64.gtb (F64.abs (F64.sub (F64.of_Z expected) (F64.of_Z expected)))
    c_1e_9 = false ->
  run_tests_from libm syntax_error_msg ((expr, expected) :: l) ok =
    ('(out, res) ← run_tests_from libm syntax_error_msg l ok;
     Some (Print ("OK:   " ++ expr ++ " = " ++
                  Repr.float_repr (F64.of_Z expected)) :: out, res)).
Proof.
  intros He Hd. cbn [run_tests_from]. rewrite He.
  cbn [mbind option_bind Py.py_sub Py.result_bind Py.bind Py.builtin_abs
       Py.builtin_float].
  by rewrite Hd.
Qed.

Lemma sin_0 :
  evaluate_expression libm syntax_error_msg "sin(0)" =
    Some (Py.Return (Py.VFloat (F64.of_Z 0))).
Proof.
  destruct libm_exact as (Hsin & _).
  unfold evaluate_expression.
  change (Parser.parse "sin(0)") with
    (Parser.Parsed (Ast.Expression (Ast.Call (Ast.Name "sin") [num 0] []))).
  f_equal. unfold safe_eval.
  rewrite safe_eval_Call_allowed by compute_done.
  change (eval_args libm [num 0]) with
    (Py.Return [Py.VFloat (F64.of_Z 0)] : Py.result (list Py.value)).
  cbn [mbind Py.result_bind Py.bind].
  unfold call_function.
  change (Py.math_getattr libm "sin") with
    (Py.Return (Py.meth_o "sin" (Py.math_1 (Py.libm1 libm Py.c_sin) false))
       : Py.result (list Py.value -> Py.result Py.number)).
  cbn [String.eqb Ascii.eqb Bool.eqb andb mbind Py.result_bind Py.bind
       Py.meth_o Py.math_1 Py.as_double].
  by rewrite Hsin.
Qed.

Lemma log10_100 :
  evaluate_expression libm syntax_error_msg "log10(100)" =
    Some (Py.Return (Py.VFloat (F64.of_Z 2))).
Proof.
  destruct libm_exact as (_ & Hlog & _).
  unfold evaluate_expression.
  change (Parser.parse "log10(100)") with
    (Parser.Parsed
       (Ast.Expression (Ast.Call (Ast.Name "log10") [num 100] []))).
  f_equal. unfold safe_eval.
  rewrite safe_eval_Call_allowed by compute_done.
  change (eval_args libm [num 100]) with
    (Py.Return [Py.VFloat (F64.of_Z 100)] : Py.result (list Py.value)).
  cbn [mbind Py.result_bind Py.bind].
  unfold call_function.
  change (Py.math_getattr libm "log10") with
    (Py.Return (Py.meth_o "log10"
                  (Py.math_1 (Py.m_log_with libm Py.c_log10) false))
       : Py.result (list Py.value -> Py.result Py.number)).
  cbn [String.eqb Ascii.eqb Bool.eqb andb mbind Py.result_bind Py.bind
       Py.meth_o Py.math_1 Py.as_double].
  change (Py.m_log_with libm Py.c_log10 (F64.of_Z 100)) with
    (Py.libm1 libm Py.c_log10 (F64.of_Z 100)).
  by rewrite Hlog.
Qed.

Lemma exp_0 :
  evaluate_expression libm syntax_error_msg "exp(0)" =
    Some (Py.Return (Py.VFloat (F64.of_Z 1))).
Proof.
  destruct libm_exact as (_ & _ & Hexp).
  unfold evaluate_expression.
  change (Parser.parse "exp(0)") with
    (Parser.Parsed (Ast.Expression (Ast.Call (Ast.Name "exp") [num 0] []))).
  f_equal. unfold safe_eval.
  rewrite safe_eval_Call_allowed by compute_done.
  change (eval_args libm [num 0]) with
    (Py.Return [Py.VFloat (F64.of_Z 0)] : Py.result (list Py.value)).
  cbn [mbind Py.result_bind Py.bind].
  unfold call_function.
  change (Py.math_getattr libm "exp") with
    (Py.Return (Py.meth_o "exp" (Py.math_1 (Py.libm1 libm Py.c_exp) true))
       : Py.result (list Py.value -> Py.result Py.number)).
  cbn [String.eqb Ascii.eqb Bool.eqb andb mbind Py.result_bind Py.bind
       Py.meth_o Py.math_1 Py.as_double].
  by rewrite Hexp.
Qed.

Lemma pow_2_3_1 :
  evaluate_expression libm syntax_error_msg "2**3**1" =
    Some (Py.Return (Py.VFloat (F64.of_Z 8))).
Proof.
  unfold evaluate_expression.
  change (Parser.parse "2**3**1") with
    (Parser.Parsed (Ast.Expression
       (Ast.BinOp (num 2) Ast.Pow (Ast.BinOp (num 3) Ast.Pow (num 1))))).
  f_equal. unfold safe_eval.
  apply (safe_eval_Pow libm pow_exact _ _ (F64.of_Z 2) (F64.of_Z 3));
    [reflexivity | | reflexivity | reflexivity].
  apply (safe_eval_Pow libm pow_exact _ _ (F64.of_Z 3) (F64.of_Z 1));
    reflexivity.
Qed.

(** X9. On a platform whose [pow] is exact on the exact powers and whose
    [sin], [log10] and [exp] are exact at the arguments of the table,
    every entry of [run_tests] passes: it prints eighteen lines, returns
    [True], and [main] with [--test] exits with [0]. *)
Theorem run_tests_passes (e : option string) (events : list input_event) :
  run_tests libm syntax_error_msg =
    Some ([ Print "OK:   1+2*3 = 7.0"; Print "OK:   (1+2)*3 = 9.0";
            Print "OK:   2**3**1 = 8.0"; Print "OK:   4/2 = 2.0";
            Print "OK:   5%2 = 1.0"; Print "OK:   -3 + 7 = 4.0";
            Print "OK:   9//2 = 4.0"; Print "OK:   sqrt(16) = 4.0";
            Print "OK:   sin(0) = 0.0"; Print "OK:   abs(-5) = 5.0";
            Print "OK:   ceil(3.2) = 4.0"; Print "OK:   floor(3.8) = 3.0";
            Print "OK:   round(3.7) = 4.0"; Print "OK:   pi/pi = 1.0";
            Print "OK:   e/e = 1.0"; Print "OK:   log10(100) = 2.0";
            Print "OK:   exp(0) = 1.0"; Print "OK:   degrees(pi) = 180.0" ],
          Py.Return true)
  /\ exists lines,
       main libm syntax_error_msg {| args_expr := e; args_test := true |}
         events =
       Some ((lines ++ [Print "All tests passed."])%list, Py.Return 0).
Proof.
  match goal with |- ?A /\ _ => assert (H : A) end.
  { unfold run_tests, tests.
    rewrite !run_tests_passed;
      [ | first [ reflexivity | exact sin_0 | exact log10_100 | exact exp_0
                | exact pow_2_3_1 ] .. ].
    vm_compute. reflexivity. }
  split; [exact H|]. eexists. unfold main. cbn [args_test].
  rewrite H. reflexivity.
Qed.

End RunTests.

Lemma tests_libm_meets_the_assumptions :
  Py.pow_is_exact tests_libm /\ exact_at_the_tests tests_libm.
Proof.
  split; [|by split_and!].
  intros x y r H. cbn. by rewrite H.
Qed.

Lemma run_tests_passes_witness :
  run_tests tests_libm (fun _ => "invalid syntax") =
    Some ([ Print "OK:   1+2*3 = 7.0"; Print "OK:   (1+2)*3 = 9.0";
            Print "OK:   2**3**1 = 8.0"; Print "OK:   4/2 = 2.0";
            Print "OK:   5%2 = 1.0"; Print "OK:   -3 + 7 = 4.0";
            Print "OK:   9//2 = 4.0"; Print "OK:   sqrt(16) = 4.0";
            Print "OK:   sin(0) = 0.0"; Print "OK:   abs(-5) = 5.0";
            Print "OK:   ceil(3.2) = 4.0"; Print "OK:   floor(3.8) = 3.0";
            Print "OK:   round(3.7) = 4.0"; Print "OK:   pi/pi = 1.0";
            Print "OK:   e/e = 1.0"; Print "OK:   log10(100) = 2.0";
            Print "OK:   exp(0) = 1.0"; Print "OK:   degrees(pi) = 180.0" ],
          Py.Return true)
  /\ exists lines,
       main tests_libm (fun _ => "invalid syntax")
         {| args_expr := None; args_test := true |} [] =
       Some ((lines ++ [Print "All tests passed."])%list, Py.Return 0).
Proof.
  apply (run_tests_passes tests_libm (fun _ => "invalid syntax")
           (proj1 tests_libm_meets_the_assumptions)
           (proj2 tests_libm_meets_the_assumptions) None []).
Defined.

(** ** Integers *)

Section Integers.

(** An integer of at most 53 bits is the double [float(n)] exactly: a
    full mantissa and the exponent that makes up for the shift. *)
Lemma of_Z_exact (p : positive) :
  Zpos p < 2 ^ 53 ->
  exists (q : positive) (t : Z),
    F64.of_Z (Zpos p) = S754_finite false q t /\
    -52 <= t <= 0 /\ 2 ^ 52 <= Zpos q < 2 ^ 53 /\
    Zpos q = Zpos p * 2 ^ (- t).
Proof.
  intros Hp.
  pose proof (digits2_pos_lower p) as Hl.
  pose proof (digits2_pos_bound p) as Hu.
  pose proof (digits2_pos_le p 53 Hp) as Hd.
  set (d := Zpos (digits2_pos p)) in *.
  assert (Hd1 : 1 <= d) by (unfold d; lia).
  destruct (binary_round_exact false p 0 Hd ltac:(fold d; lia))
    as (q & Hq & Hqv).
  fold d in Hq, Hqv. exists q, (d + 0 - 53).
  replace (0 - (d + 0 - 53)) with (53 - d) in Hqv by lia.
  replace (- (d + 0 - 53)) with (53 - d) by lia.
  split_and!; [exact Hq | lia | lia | | | exact Hqv].
  - rewrite Hqv.
    replace (2 ^ 52) with (2 ^ (d - 1) * 2 ^ (53 - d)).
    2:{ rewrite <- Z.pow_add_r by lia. f_equal. lia. }
    apply Z.mul_le_mono_nonneg_r; [apply Z.pow_nonneg|]; lia.
  - rewrite Hqv.
    replace (2 ^ 53) with (2 ^ d * 2 ^ (53 - d)).
    2:{ rewrite <- Z.pow_add_r by lia. f_equal. lia. }
    apply Z.mul_lt_mono_pos_r; [apply Z.pow_pos_nonneg|]; lia.
Qed.

(** [format_result] prints an integer from [0] to [10^15] as it is. *)
Lemma format_result_integer (n : Z) :
  0 <= n <= 10 ^ 15 ->
  format_result (F64.of_Z n) = Py.Return (Py.str_int n).
Proof.
  intros Hn. destruct n as [|p|p]; [reflexivity | | lia].
  assert (Hp : Zpos p < 2 ^ 53).
  { change (10 ^ 15) with 1000000000000000 in Hn.
    change (2 ^ 53) with 9007199254740992. lia. }
  destruct (of_Z_exact p Hp) as (q & t & Hx & Ht & Hq & Hqv).
  assert (Hpow : 0 < 2 ^ (- t)) by (apply Z.pow_pos_nonneg; lia).
  unfold format_result. rewrite Hx.
  cbn [F64.abs SFabs].
  assert (Hgt : F64.gtb (S754_finite false q t) c_1e15 = false).
  { unfold F64.gtb. rewrite c_1e15_value.
    change (SFltb (S754_finite false 8000000000000000 (-3))
              (S754_finite false q t))
      with (F64.ltb (S754_finite false 8000000000000000 (-3))
              (S754_finite false q t)).
    rewrite ltb_normal by lia. apply Z.ltb_ge.
    rewrite Hqv. change (- -3) with 3. change (2 ^ 3) with 8.
    change (10 ^ 15) with 1000000000000000 in Hn. nia. }
  assert (Hlt : F64.ltb (S754_finite false q t) c_1e_4 = false).
  { rewrite c_1e_4_value, ltb_normal by lia. apply Z.ltb_ge.
    change (- -66) with 66.
    assert (7378697629483821 * 2 ^ (- t) <= 2 ^ 66 * 2 ^ (- t)).
    { apply Z.mul_le_mono_nonneg_r; [lia | by vm_compute]. }
    assert (2 ^ 66 * 2 ^ (- t) <= 2 ^ 66 * Zpos q).
    { apply Z.mul_le_mono_nonneg_l; [by vm_compute | nia]. }
    lia. }
  rewrite Hgt, Hlt. cbn [orb andb].
  assert (Htr : F64.trunc_Z (S754_finite false q t) = Some (Zpos p)).
  { cbn [F64.trunc_Z cond_Zopp]. f_equal. unfold F64.trunc_parts.
    destruct (0 <=? t) eqn:E; cbn [fst].
    - apply Z.leb_le in E. assert (t = 0) as -> by lia.
      rewrite Hqv. change (- 0) with 0. rewrite !Z.pow_0_r. lia.
    - rewrite Hqv. apply Z.div_mul. lia. }
  unfold Py.int_of_float. rewrite Htr.
  cbn [mbind Py.result_bind Py.bind].
  unfold Py.float_of_int. rewrite Hx. cbn [F64.is_inf].
  cbn [mbind Py.result_bind Py.bind].
  assert (Hsub : F64.sub (S754_finite false q t) (S754_finite false q t) =
                 S754_zero false).
  { unfold F64.sub, SFsub. rewrite Z.min_id. unfold shl_align.
    rewrite !Z.sub_diag. reflexivity. }
  rewrite Hsub. rewrite c_1e_12_value. reflexivity.
Qed.

(** *** Reading the digits of an integer *)

Lemma digits_are_digits (k : nat) (n : Z) :
  forallb Parser.is_digit (Fmt.digits k n) = true.
Proof.
  revert n. induction k as [|k IH]; intros n; [done|].
  cbn [Fmt.digits]. rewrite forallb_app, IH. cbn [forallb andb].
  rewrite andb_true_r. apply digit_char_is_digit.
Qed.

Lemma span_all (p : ascii -> bool) (l : list ascii) :
  forallb p l = true -> Parser.span p l = (l, []).
Proof.
  induction l as [|c l IH]; [done|]. cbn [forallb Parser.span].
  intros H. apply andb_prop in H as [-> H]. by rewrite IH.
Qed.

Lemma digit_is_modelled (c : ascii) :
  Parser.is_digit c = true ->
  Parser.modelled_char c = true /\ Parser.is_blank c = false.
Proof.
  unfold Parser.is_digit, Parser.modelled_char, Parser.is_blank.
  intros H. apply andb_prop in H as [H1 H2].
  apply Nat.leb_le in H1, H2.
  assert (Nat.leb 32 (Parser.code c) = true) as -> by (apply Nat.leb_le; lia).
  assert (Nat.leb (Parser.code c) 126 = true) as ->
    by (apply Nat.leb_le; lia).
  assert (Nat.eqb (Parser.code c) 35 = false) as ->
    by (apply Nat.eqb_neq; lia).
  assert (Nat.eqb (Parser.code c) 92 = false) as ->
    by (apply Nat.eqb_neq; lia).
  assert (Nat.eqb (Parser.code c) 32 = false) as ->
    by (apply Nat.eqb_neq; lia).
  assert (Nat.eqb (Parser.code c) 9 = false) as ->
    by (apply Nat.eqb_neq; lia).
  done.
Qed.

Lemma digits_are_modelled (l : list ascii) :
  forallb Parser.is_digit l = true -> forallb Parser.modelled_char l = true.
Proof.
  induction l as [|c l IH]; [done|]. cbn [forallb].
  intros H. apply andb_prop in H as [Hc H].
  by rewrite (proj1 (digit_is_modelled c Hc)), IH.
Qed.

Lemma code_digit_char (n : Z) :
  Z.of_nat (Parser.code (Fmt.digit_char n)) - 48 = n mod 10.
Proof.
  unfold Parser.code, Fmt.digit_char.
  pose proof (Z.mod_pos_bound n 10 ltac:(lia)) as H.
  rewrite nat_ascii_embedding by lia. lia.
Qed.

Lemma digits_value_snoc (acc : Z) (l : list ascii) (c : ascii) :
  Parser.digits_value acc (l ++ [c]) =
    10 * Parser.digits_value acc l + (Z.of_nat (Parser.code c) - 48).
Proof.
  revert acc. induction l as [|d l IH]; intros acc; [done|].
  cbn [app Parser.digits_value]. apply IH.
Qed.

(** The digits read back: the value of the last [k] digits of [n]. *)
Lemma digits_value_digits (k : nat) (n : Z) :
  Parser.digits_value 0 (Fmt.digits k n) = n mod 10 ^ Z.of_nat k.
Proof.
  revert n. induction k as [|k IH]; intros n.
  - cbn. by rewrite Z.mod_1_r.
  - cbn [Fmt.digits]. rewrite digits_value_snoc, IH, code_digit_char.
    rewrite Nat2Z.inj_succ, Z.pow_succ_r by lia.
    assert (0 < 10 ^ Z.of_nat k) by (apply Z.pow_pos_nonneg; lia).
    rewrite Z.rem_mul_r by lia. lia.
Qed.

(** The first of [k + 1] digits. *)
Lemma digits_cons (k : nat) (n : Z) :
  Fmt.digits (S k) n =
    Fmt.digit_char (n / 10 ^ Z.of_nat k) :: Fmt.digits k n.
Proof.
  revert n. induction k as [|k IH]; intros n.
  - cbn. by rewrite Z.div_1_r.
  - change (Fmt.digits (S (S k)) n)
      with (Fmt.digits (S k) (n / 10) ++ [Fmt.digit_char n])%list.
    rewrite IH. cbn [app Fmt.digits]. f_equal.
    rewrite Nat2Z.inj_succ, Z.pow_succ_r by lia.
    assert (0 < 10 ^ Z.of_nat k) by (apply Z.pow_pos_nonneg; lia).
    by rewrite Z.div_div by lia.
Qed.

(** A run of digits that does not start with a zero is one integer
    literal. *)
Lemma lex_number_digits (c : ascii) (tl : list ascii) :
  forallb Parser.is_digit (c :: tl) = true ->
  Ascii.eqb c "0" = false ->
  (length (c :: tl) <= 4300)%nat ->
  Parser.lex_number (c :: tl) =
    Parser.Parsed (Parser.NUMBER
                     (Ast.CInt (Parser.digits_value 0 (c :: tl))), []).
Proof.
  intros Hd Hc Hlen. unfold Parser.lex_number.
  rewrite (span_all _ _ Hd).
  cbn [mbind Parser.outcome_bind Parser.obind negb andb].
  assert (Nat.ltb 4300 (length (c :: tl)) = false) as ->
    by (apply Nat.ltb_ge; lia).
  rewrite app_nil_r.
  destruct c as [[] [] [] [] [] [] [] []]; first [reflexivity | discriminate Hc].
Qed.

(** The parser on one number. *)
Lemma parse_integer (c : ascii) (tl : list ascii) :
  forallb Parser.is_digit (c :: tl) = true ->
  Ascii.eqb c "0" = false ->
  (length (c :: tl) <= 4300)%nat ->
  Parser.parse (string_of_list_ascii (c :: tl)) =
    Parser.Parsed
      (Ast.Expression (num (Parser.digits_value 0 (c :: tl)))).
Proof.
  intros Hd Hc Hlen. unfold Parser.parse.
  rewrite list_ascii_of_string_of_list_ascii.
  rewrite (digits_are_modelled _ Hd). cbn [negb].
  pose proof Hd as Hd'. cbn [forallb] in Hd'.
  apply andb_prop in Hd' as [Hdc _].
  rewrite (proj2 (digit_is_modelled c Hdc)).
  cbn [length Parser.lex]. rewrite (proj2 (digit_is_modelled c Hdc)), Hdc.
  cbn [orb]. rewrite (lex_number_digits c tl Hd Hc Hlen).
  reflexivity.
Qed.

(** The decimal text of a positive integer: a digit that is no zero, and
    digits. *)
Lemma str_int_shape (n : Z) :
  1 <= n <= 10 ^ 15 ->
  exists (c : ascii) (tl : list ascii),
    Py.str_int n = String c (string_of_list_ascii tl) /\
    forallb Parser.is_digit (c :: tl) = true /\
    Fmt.is_nonzero_digit c = true /\
    (length (c :: tl) <= 16)%nat /\
    Parser.digits_value 0 (c :: tl) = n.
Proof.
  intros Hn.
  destruct (count_digits_spec 50 n) as (Hc & Hlo & Hhi).
  { split; [lia|]. change (10 ^ 15) with 1000000000000000 in Hn.
    change (2 ^ Z.of_nat 50) with 1125899906842624. lia. }
  set (c := Fmt.count_digits 50 n) in *. clearbody c.
  assert (Hc16 : c <= 16).
  { destruct (Z.le_gt_cases c 16); [done|].
    assert (10 ^ 16 <= 10 ^ (c - 1)) by (apply Z.pow_le_mono_r; lia).
    change (10 ^ 16) with 10000000000000000 in *.
    change (10 ^ 15) with 1000000000000000 in *. lia. }
  set (k := Z.to_nat (c - 1)).
  assert (Hk : Z.of_nat k = c - 1) by lia.
  assert (Hpk : 0 < 10 ^ Z.of_nat k) by (apply Z.pow_pos_nonneg; lia).
  assert (Hnk : 10 ^ Z.of_nat k <= n < 10 ^ (Z.of_nat k + 1)).
  { rewrite Hk. by replace (c - 1 + 1) with c by lia. }
  exists (Fmt.digit_char (n / 10 ^ Z.of_nat k)), (Fmt.digits k n).
  rewrite <- digits_cons. split_and!.
  - rewrite (str_int_digits k n) by lia. by rewrite digits_cons.
  - apply digits_are_digits.
  - apply digit_char_nonzero. split.
    + apply Z.div_le_lower_bound; lia.
    + assert (n / 10 ^ Z.of_nat k < 10); [|lia].
      apply Z.div_lt_upper_bound; [lia|].
      replace (Z.of_nat k + 1) with (Z.succ (Z.of_nat k)) in Hnk by lia.
      rewrite Z.pow_succ_r in Hnk by lia. lia.
  - rewrite digits_length. lia.
  - rewrite digits_value_digits. apply Z.mod_small.
    rewrite Nat2Z.inj_succ, <- Z.add_1_r. lia.
Qed.

End Integers.

(** X10. An integer from [0] to [10^15] is echoed: its decimal text is parsed
    and evaluated to the double of the same value, [format_result] prints
    the same text, and the loop puts the two in its history. *)
Theorem integers_are_echoed (libm : Py.Libm)
    (syntax_error_msg : string -> string) (history : history_t) (n : Z) :
  0 <= n <= 10 ^ 15 ->
  evaluate_expression libm syntax_error_msg (Py.str_int n) =
    Some (Py.Return (Py.VFloat (F64.of_Z n)))
  /\ format_result (F64.of_Z n) = Py.Return (Py.str_int n)
  /\ repl_line libm syntax_error_msg history (Py.str_int n) =
     Some ([Print (Py.str_int n)],
           Next (history ++ [(Py.str_int n, Py.str_int n)])%list).
Proof.
  intros Hn.
  assert (Hf := format_result_integer n Hn).
  assert (He : evaluate_expression libm syntax_error_msg (Py.str_int n) =
               Some (Py.Return (Py.VFloat (F64.of_Z n)))).
  { destruct (Z.eq_dec n 0) as [-> | Hn0]; [reflexivity|].
    destruct (str_int_shape n ltac:(lia)) as (c & tl & Hs & Hd & Hc & Hl & Hv).
    unfold evaluate_expression.
    change (String c (string_of_list_ascii tl))
      with (string_of_list_ascii (c :: tl)) in Hs.
    rewrite Hs, parse_integer; [ | done | | lia].
    - rewrite Hv. unfold safe_eval, num.
      cbn [safe_eval_expr]. unfold Py.float_of_int.
      rewrite of_Z_small; [reflexivity|].
      change (10 ^ 15) with 1000000000000000 in Hn.
      change (2 ^ 53) with 9007199254740992. lia.
    - destruct (Ascii.eqb_spec c "0") as [-> | ]; [discriminate Hc | done]. }
  split_and!; [exact He | exact Hf |].
  rewrite repl_line_expression.
  - rewrite He. cbn [mbind option_bind format_result_value]. by rewrite Hf.
  - destruct (Z.eq_dec n 0) as [-> | Hn0]; [reflexivity|].
    destruct (str_int_shape n ltac:(lia)) as (c & tl & -> & Hd & Hc & _).
    unfold Fmt.is_nonzero_digit in Hc.
    destruct c as [[] [] [] [] [] [] [] []];
      first [discriminate Hc | reflexivity].
Qed.

(** ** The sign and the exponent in [format_result] *)

Lemma format_e_opp (prec : nat) (m : positive) (e : Z) :
  Fmt.format_e prec (S754_finite true m e) =
    "-" ++ Fmt.format_e prec (S754_finite false m e).
Proof.
  unfold Fmt.format_e, Fmt.format_e_chars.
  destruct (F64.to_fraction m e) as [num den].
  by destruct (Fmt.significant _ num den) as [d x10].
Qed.

Lemma format_g_opp (p : nat) (m : positive) (e : Z) :
  Fmt.format_g p (S754_finite true m e) =
    "-" ++ Fmt.format_g p (S754_finite false m e).
Proof.
  unfold Fmt.format_g, Fmt.format_g_chars.
  destruct (F64.to_fraction m e) as [num den].
  by destruct (Fmt.significant _ num den) as [d x10].
Qed.

(** X11. [format_result] is odd: the text of a negative double is the text of
    its magnitude after a minus sign. *)
Theorem format_result_of_a_negative (m : positive) (e : Z) :
  valid_binary F64.prec F64.emax (S754_finite false m e) = true ->
  exists text,
    format_result (S754_finite false m e) = Py.Return text /\
    format_result (S754_finite true m e) = Py.Return ("-" ++ text).
Proof.
  intros Hv.
  destruct (format_result_unfold (S754_finite false m e) Hv eq_refl)
    as (n0 & Hn0 & ->).
  destruct (format_result_unfold (S754_finite true m e) Hv eq_refl)
    as (n1 & Hn1 & ->).
  eexists. split; [reflexivity|]. f_equal.
  change (scientific_range (S754_finite true m e))
    with (scientific_range (S754_finite false m e)).
  destruct (scientific_range (S754_finite false m e)) eqn:Hs;
    [apply format_e_opp|].
  pose proof (fixed_range_exponent _ _ _ Hs) as He.
  cbn [F64.trunc_Z] in Hn0, Hn1. unfold F64.trunc_parts in Hn0, Hn1.
  destruct (0 <=? e) eqn:E; [apply Z.leb_le in E; lia|].
  cbn [fst] in Hn0, Hn1. injection Hn0 as <-. injection Hn1 as <-.
  pose proof (near_integer_exact true m e Hv Hs) as Ht.
  pose proof (near_integer_exact false m e Hv Hs) as Hf.
  cbn [cond_Zopp] in Ht, Hf. rewrite Ht, Hf.
  destruct (_ <? _) eqn:Hnear; [|apply format_g_opp].
  apply Z.ltb_lt in Hnear. apply str_int_opp.
  pose proof (valid_normal _ _ _ Hv ltac:(lia)) as Hlo.
  assert (Hden : 0 < 2 ^ (- e)) by (apply Z.pow_pos_nonneg; lia).
  pose proof (Z.div_mod (Zpos m) (2 ^ (- e)) ltac:(lia)) as Hdm.
  pose proof (Z.mod_pos_bound (Zpos m) (2 ^ (- e)) Hden) as Hr.
  assert (Hp0 : 0 <= Zpos m / 2 ^ (- e)) by (apply Z.div_pos; lia).
  destruct (Z.eq_dec (Zpos m / 2 ^ (- e)) 0) as [Hz | ]; [exfalso | lia].
  rewrite Hz, Z.mul_0_r, Z.add_0_l in Hdm. rewrite <- Hdm in Hnear.
  assert (2 ^ (- e) <= 2 ^ 66) by (apply Z.pow_le_mono_r; lia).
  assert (4951760157141521 * 2 ^ (- e) <= 4951760157141521 * 2 ^ 66)
    by (apply Z.mul_le_mono_nonneg_l; lia).
  assert (2 ^ 52 * 2 ^ 92 <= Zpos m * 2 ^ 92)
    by (apply Z.mul_le_mono_nonneg_r; [by vm_compute | lia]).
  assert (4951760157141521 * 2 ^ 66 < 2 ^ 52 * 2 ^ 92) by (by vm_compute).
  lia.
Qed.

Lemma format_result_of_a_negative_witness :
  exists text,
    format_result (S754_finite false 5629499534213120 (-51)) =
      Py.Return text /\
    format_result (S754_finite true 5629499534213120 (-51)) =
      Py.Return ("-" ++ text).
Proof.
  apply (format_result_of_a_negative 5629499534213120 (-51)). reflexivity.
Defined.

Lemma length_strip_zeros_rev (l : list ascii) :
  (length (Fmt.strip_zeros_rev l) <= length l)%nat.
Proof.
  induction l as [|c l IH]; [done|]. cbn [Fmt.strip_zeros_rev].
  destruct (Ascii.eqb c "0"); cbn [length]; lia.
Qed.

Lemma length_strip_trailing_zeros (l : list ascii) :
  (length (Fmt.strip_trailing_zeros l) <= length l)%nat.
Proof.
  unfold Fmt.strip_trailing_zeros. rewrite length_rev.
  etrans; [apply length_strip_zeros_rev|]. by rewrite length_rev.
Qed.

Lemma length_with_point (a b : list ascii) :
  (length (Fmt.with_point a b) <= length a + 1 + length b)%nat.
Proof.
  unfold Fmt.with_point. rewrite length_app.
  destruct b; cbn [length]; lia.
Qed.

Lemma c_1e10_value :
  F64.of_Z (10 ^ 10) = S754_finite false 5242880000000000 (-19).
Proof. reflexivity. Qed.

(** X12. A value of a magnitude of [1e10] or more that is not within [1e-12]
    of an integer is printed with an exponent, in at most ten significant
    digits: digits of its integer part are not shown. *)
Theorem large_fractions_get_an_exponent (s : bool) (m : positive) (e : Z) :
  let v := S754_finite s m e in
  valid_binary F64.prec F64.emax v = true ->
  scientific_range v = false ->
  near_nearest_integer v = false ->
  F64.ltb (F64.abs v) (F64.of_Z (10 ^ 10)) = false ->
  exists (mantissa : list ascii) (x : Z),
    format_result v =
      Py.Return (string_of_list_ascii (mantissa ++ Fmt.exponent_chars x)) /\
    (length mantissa <= 12)%nat /\ 10 <= x.
Proof.
  intros v Hv Hs Hn Hbig. unfold v in *.
  pose proof (fixed_range_exponent _ _ _ Hs) as He.
  pose proof (valid_normal _ _ _ Hv ltac:(lia)) as Hlo.
  pose proof (valid_mantissa _ _ _ Hv) as Hhi.
  (* the third branch *)
  destruct (format_result_unfold (S754_finite s m e) Hv eq_refl)
    as (n & Htr & ->).
  rewrite Hs.
  cbn [F64.trunc_Z] in Htr. unfold F64.trunc_parts in Htr.
  destruct (0 <=? e) eqn:E; [apply Z.leb_le in E; lia|].
  cbn [fst] in Htr. injection Htr as <-.
  rewrite (integer_branch s m e Hv Hs), Hn.
  (* the magnitude, exactly *)
  cbn [F64.abs SFabs] in Hbig. rewrite c_1e10_value in Hbig.
  rewrite ltb_normal in Hbig by lia. apply Z.ltb_ge in Hbig.
  change (- -19) with 19 in Hbig.
  assert (Hden : 0 < 2 ^ (- e)) by (apply Z.pow_pos_nonneg; lia).
  assert (Hnum : 2 ^ (- e) * 10 ^ 10 <= Zpos m).
  { change 5242880000000000 with (10 ^ 10 * 2 ^ 19) in Hbig.
    apply (Z.mul_le_mono_pos_r _ _ (2 ^ 19)); [by vm_compute | lia]. }
  (* the digits *)
  unfold Fmt.format_g, Fmt.format_g_chars, F64.to_fraction. rewrite E.
  change (Z.of_nat 10) with 10.
  pose proof (decimal_exponent_spec (Zpos m) (2 ^ (- e)) ltac:(lia) Hden)
    as Hx.
  cbv zeta in Hx. unfold Fmt.significant.
  set (x := Fmt.decimal_exponent (Zpos m) (2 ^ (- e))) in *. clearbody x.
  assert (Hx10 : 10 <= x).
  { destruct Hx as [(Hx0 & _ & Hup) | (Hx0 & _ & Hup)].
    - destruct (Z.le_gt_cases 10 x); [done | exfalso].
      assert (10 ^ (x + 1) <= 10 ^ 10) by (apply Z.pow_le_mono_r; lia).
      nia.
    - exfalso.
      assert (1 <= 10 ^ (- x - 1)).
      { change 1 with (10 ^ 0) at 1. apply Z.pow_le_mono_r; lia. }
      change (10 ^ 10) with 10000000000 in Hnum. nia. }
  set (d := if 0 <=? 10 - 1 - x then _ else _). clearbody d.
  destruct (10 ^ 10 <=? d).
  - eexists _, (x + 1). split_and!; [ | | lia].
    + assert ((x + 1 <? -4) || (10 <=? x + 1) = true) as ->.
      { apply orb_true_iff. right. apply Z.leb_le. lia. }
      rewrite app_assoc. reflexivity.
    + rewrite length_app.
      pose proof (length_with_point
                    (firstn 1 (Fmt.digits 10 (10 ^ (10 - 1))))
                    (Fmt.strip_trailing_zeros
                       (skipn 1 (Fmt.digits 10 (10 ^ (10 - 1)))))) as H1.
      pose proof (length_strip_trailing_zeros
                    (skipn 1 (Fmt.digits 10 (10 ^ (10 - 1))))) as H2.
      rewrite length_skipn, digits_length in H2.
      rewrite length_firstn, digits_length in H1.
      destruct s; cbn [Fmt.sign_chars length]; lia.
  - eexists _, x. split_and!; [ | | lia].
    + assert ((x <? -4) || (10 <=? x) = true) as ->.
      { apply orb_true_iff. right. apply Z.leb_le. lia. }
      rewrite app_assoc. reflexivity.
    + rewrite length_app.
      pose proof (length_with_point
                    (firstn 1 (Fmt.digits 10 d))
                    (Fmt.strip_trailing_zeros
                       (skipn 1 (Fmt.digits 10 d)))) as H1.
      pose proof (length_strip_trailing_zeros
                    (skipn 1 (Fmt.digits 10 d))) as H2.
      rewrite length_skipn, digits_length in H2.
      rewrite length_firstn, digits_length in H1.
      destruct s; cbn [Fmt.sign_chars length]; lia.
Qed.

(** [12345678901.5] is printed as [1.23456789e+10]. *)
Lemma large_fractions_get_an_exponent_witness :
  exists (mantissa : list ascii) (x : Z),
    format_result (S754_finite false 6472691299909632 (-19)) =
      Py.Return (string_of_list_ascii (mantissa ++ Fmt.exponent_chars x)) /\
    (length mantissa <= 12)%nat /\ 10 <= x.
Proof.
  apply (large_fractions_get_an_exponent false 6472691299909632 (-19));
    reflexivity.
Defined.

Example format_result_12345678901_5 :
  format_result (S754_finite false 6472691299909632 (-19)) =
    Py.Return "1.23456789e+10"
  /\ F64.of_decimal 123456789015 (-1) =
     S754_finite false 6472691299909632 (-19).
Proof. split; reflexivity. Qed.

(** ** The exceptions of [safe_eval] *)

Section Evaluator.

Variable libm : Py.Libm.

(** X13. Whatever a binary operator raises comes out as an [EvalError]: the
    operands evaluated, a [BinOp] returns a number or raises [EvalError],
    with the message of the operator after [Error evaluating binary op: ],
    or the refusal of an operator that is not in the table. The sum, the
    difference and the product always return: an overflow is an
    infinity. *)
Theorem binary_operators_raise_only_EvalError (l r : Ast.expr)
    (op : Ast.operator) (x y : Py.value) :
  safe_eval_expr libm l = Py.Return x ->
  safe_eval_expr libm r = Py.Return y ->
  ((exists v, safe_eval_expr libm (Ast.BinOp l op r) = Py.Return v)
   \/ (exists text,
         safe_eval_expr libm (Ast.BinOp l op r) =
           Py.raise Py.EvalError ("Error evaluating binary op: " ++ text))
   \/ safe_eval_expr libm (Ast.BinOp l op r) =
        Py.raise Py.EvalError
          ("Operator " ++ Ast.operator_name op ++ " not allowed"))
  /\ (op = Ast.Add \/ op = Ast.Sub \/ op = Ast.Mult ->
      exists v, safe_eval_expr libm (Ast.BinOp l op r) = Py.Return v).
Proof.
  intros Hl Hr. rewrite safe_eval_BinOp, Hl, Hr.
  cbn [mbind Py.result_bind Py.bind]. split.
  - destruct (ALLOWED_BINARY_OPS libm op) as [func|]; [|by right; right].
    destruct (func x y) as [v | e] eqn:E; [left; by exists v|].
    right; left. exists (Py.exc_str e). unfold Py.try_except.
    by rewrite every_class_is_an_Exception.
  - intros [-> | [-> | ->]]; cbn [ALLOWED_BINARY_OPS];
      destruct x, y; cbn; eauto.
Qed.

(** The exceptions of a call that its [except] clause names do not leave
    it. *)
Lemma call_function_exceptions (name : string) (args : list Py.value)
    (e : Py.exception) :
  call_function libm name args = Py.Raise e ->
  Py.exc_class e <> Py.ValueError /\ Py.exc_class e <> Py.TypeError.
Proof.
  unfold call_function, Py.try_except.
  match goal with |- context [match ?b with _ => _ end] =>
    destruct b as [v | e0] end; [discriminate|].
  destruct (existsb _ _) eqn:E.
  - intros [= <-]. by split.
  - intros [= <-]. cbn [existsb] in E.
    destruct (Py.exc_class e0); try discriminate E; by split.
Qed.

(** A node of a class that [safe_eval] does not handle reaches the lookup
    of [ast.Paren]. *)
Lemma unhandled_node (node : Ast.expr) :
  match node with
  | Ast.Constant _ | Ast.Name _ | Ast.BinOp _ _ _ | Ast.UnaryOp _ _
  | Ast.Call _ _ _ => True
  | _ =>
      safe_eval_expr libm node =
      Py.raise Py.AttributeError "module 'ast' has no attribute 'Paren'"
  end.
Proof. destruct node; try exact I; reflexivity. Qed.

Lemma safe_eval_UnaryOp (op : Ast.unaryop) (o : Ast.expr) :
  safe_eval_expr libm (Ast.UnaryOp op o) =
  (operand ← safe_eval_expr libm o;
   match ALLOWED_UNARY_OPS op with
   | None =>
       Py.raise Py.EvalError
         ("Unary operator " ++ Ast.unaryop_name op ++ " not allowed")
   | Some func => func operand
   end).
Proof. reflexivity. Qed.

Lemma safe_eval_Constant (c : Ast.constant) :
  safe_eval_expr libm (Ast.Constant c) =
  match c with
  | Ast.CInt n => x ← Py.float_of_int n; Py.Return (Py.VFloat x)
  | Ast.CBool b =>
      x ← Py.float_of_int (if b then 1 else 0); Py.Return (Py.VFloat x)
  | Ast.CFloat x => Py.Return (Py.VFloat x)
  | _ => Py.raise Py.EvalError ("Unsupported constant type: " ++ Ast.type_name c)
  end.
Proof. by destruct c. Qed.

Lemma float_of_int_exceptions (n : Z) (e : Py.exception) :
  Py.float_of_int n = Py.Raise e -> Py.exc_class e = Py.OverflowError.
Proof.
  unfold Py.float_of_int. destruct (F64.is_inf _); [|discriminate].
  by intros [= <-].
Qed.

Local Ltac raised := intros [= <-]; split; discriminate.

(** X14. No [ValueError] and no [TypeError] leaves [safe_eval]: a domain error
    of a function ([sqrt(-1)], [log(0)]), a wrong number of arguments and
    an operand of a wrong type all come out as [EvalError]. *)
Theorem no_ValueError_or_TypeError (node : Ast.expr) (e : Py.exception) :
  safe_eval_expr libm node = Py.Raise e ->
  Py.exc_class e <> Py.ValueError /\ Py.exc_class e <> Py.TypeError.
Proof.
  revert node e. fix IH 1. intros node e.
  pose proof (unhandled_node node) as Hu.
  destruct node as [ | | l op r | op o | | | | func args kws | c | | | id | | ];
    try (rewrite Hu; raised); clear Hu.
  - (* BinOp *)
    rewrite safe_eval_BinOp.
    destruct (safe_eval_expr libm l) as [x | el] eqn:El;
      [|intros [= <-]; exact (IH l el El)].
    destruct (safe_eval_expr libm r) as [y | er] eqn:Er;
      [|intros [= <-]; exact (IH r er Er)].
    cbn [mbind Py.result_bind Py.bind].
    destruct (ALLOWED_BINARY_OPS libm op) as [f|]; [|raised].
    unfold Py.try_except. destruct (f x y) as [v | e0]; [discriminate|].
    rewrite every_class_is_an_Exception. raised.
  - (* UnaryOp *)
    rewrite safe_eval_UnaryOp.
    destruct (safe_eval_expr libm o) as [x | eo] eqn:Eo;
      [|intros [= <-]; exact (IH o eo Eo)].
    cbn [mbind Py.result_bind Py.bind].
    destruct op; cbn [ALLOWED_UNARY_OPS]; try raised;
      destruct x; discriminate.
  - (* Call *)
    assert (Hargs : forall ea, eval_args libm args = Py.Raise ea ->
              Py.exc_class ea <> Py.ValueError /\
              Py.exc_class ea <> Py.TypeError).
    { induction args as [|a args IHargs]; [discriminate|].
      cbn [eval_args]. intros ea.
      destruct (safe_eval_expr libm a) as [v | e1] eqn:Ea;
        [|intros [= <-]; exact (IH a e1 Ea)].
      cbn [mbind Py.result_bind Py.bind].
      destruct (eval_args libm args) as [vs | e2];
        [discriminate | intros [= <-]; by apply IHargs]. }
    destruct func as [ | | | | | | | | | | | name | | ];
      try (rewrite safe_eval_Call_disallowed by (intros ? [=]); raised).
    destruct (decide (name ∈ allowed_functions)) as [Hin | Hout].
    + rewrite safe_eval_Call_allowed by done.
      destruct (eval_args libm args) as [vs | ea];
        [|intros [= <-]; by apply Hargs].
      cbn [mbind Py.result_bind Py.bind]. apply call_function_exceptions.
    + rewrite safe_eval_Call_disallowed; [raised|].
      by intros f [= ->].
  - (* Constant *)
    rewrite safe_eval_Constant.
    destruct c as [n | x | im | b | s | | ]; try raised; try discriminate.
    + destruct (Py.float_of_int n) as [x | e1] eqn:E; [discriminate|].
      intros [= <-]. apply float_of_int_exceptions in E. rewrite E.
      split; discriminate.
    + destruct (Py.float_of_int _) as [x | e1] eqn:E; [discriminate|].
      intros [= <-]. apply float_of_int_exceptions in E. rewrite E.
      split; discriminate.
  - (* Name *)
    rewrite safe_eval_Name. destruct (constants !! id);
      [discriminate | raised].
Qed.

End Evaluator.

(** ** Complex results *)

Section Complex.

Variable libm : Py.Libm.

Lemma float_pow_complex (x y : Py.float) :
  F64.is_finite x = true -> F64.ltb x F64.zero = true ->
  F64.is_finite y = true -> F64.neb y (F64.c_floor y) = true ->
  Py.float_pow libm x y = Py.complex_pow libm (x, F64.zero) (y, F64.zero).
Proof.
  intros Hx Hneg Hy Hfrac.
  destruct x as [sx | | | sx mx ex]; try discriminate Hx;
    [by destruct sx|].
  destruct sx; [|discriminate Hneg].
  destruct y as [sy | | | sy my ey]; try discriminate Hy;
    [by destruct sy|].
  unfold Py.float_pow. rewrite Hfrac.
  by destruct sy.
Qed.

(** X15. A negative number to a power that is no integer is a complex number:
    [safe_eval] returns it as it is, and [format_result] cannot print it
    unless its magnitude asks for the scientific notation: [int(result)]
    raises a [TypeError]. *)
Theorem fractional_power_of_a_negative (l r : Ast.expr)
    (x y re im : Py.float) :
  safe_eval_expr libm l = Py.Return (Py.VFloat x) ->
  safe_eval_expr libm r = Py.Return (Py.VFloat y) ->
  F64.is_finite x = true -> F64.ltb x F64.zero = true ->
  F64.is_finite y = true -> F64.neb y (F64.c_floor y) = true ->
  Py.libm_cpow libm (x, F64.zero) (y, F64.zero) = ((re, im), Py.ENONE) ->
  F64.is_finite re = true -> F64.is_finite im = true ->
  F64.is_finite (Py.libm_hypot libm re im) = true ->
  F64.gtb (Py.libm_hypot libm re im) c_1e15 = false ->
  F64.ltb (Py.libm_hypot libm re im) c_1e_4 = false ->
  safe_eval_expr libm (Ast.BinOp l Ast.Pow r) =
    Py.Return (Py.VComplex re im)
  /\ format_result_value libm (Py.VComplex re im) =
     Py.raise Py.TypeError
       ("int() argument must be a string, a bytes-like object or a " ++
        "real number, not 'complex'").
Proof.
  intros Hl Hr Hx Hneg Hy Hfrac Hpow Hre Him Hfin Hbig Hsmall. split.
  - rewrite safe_eval_BinOp, Hl, Hr.
    change (Py.try_except (Py.float_pow libm x y) Py.Exception
              (fun e => Py.raise Py.EvalError
                          ("Error evaluating binary op: " ++ Py.exc_str e)) =
            Py.Return (Py.VComplex re im)).
    rewrite float_pow_complex by done.
    unfold Py.complex_pow, Py.adjust_erange2. rewrite Hpow.
    destruct re, im; try discriminate Hre; try discriminate Him;
      reflexivity.
  - unfold format_result_value, Py.complex_abs.
    rewrite Hre, Him, Hfin. cbn [andb negb mbind Py.result_bind Py.bind].
    by rewrite Hbig, Hsmall.
Qed.

End Complex.

(** X16. [format_result] returns a text for every double but the NaN: an
    infinity is above [1e15], and never reaches [int(result)]. *)
Theorem format_result_fails_only_on_nan (v : Py.float) :
  valid_binary F64.prec F64.emax v = true ->
  (F64.is_nan v = false <-> exists text, format_result v = Py.Return text).
Proof.
  intros Hv. split.
  - intros Hn. destruct (F64.is_finite v) eqn:Hf.
    + destruct (format_result_unfold v Hv Hf) as (n & _ & ->). eauto.
    + destruct v as [| s | |]; try discriminate.
      unfold format_result. rewrite c_1e15_value.
      destruct s; eexists; reflexivity.
  - intros [text H]. destruct v; try reflexivity.
    vm_compute in H. discriminate H.
Qed.

Lemma fractional_power_of_a_negative_witness :
  safe_eval_expr imaginary_unit_libm
    (Ast.BinOp (Ast.UnaryOp Ast.USub (num 1)) Ast.Pow
       (Ast.Constant (Ast.CFloat (S754_finite false 4503599627370496 (-53))))) =
    Py.Return (Py.VComplex (S754_finite false 4967757600021511 (-106)) F64.one)
  /\ format_result_value imaginary_unit_libm
       (Py.VComplex (S754_finite false 4967757600021511 (-106)) F64.one) =
     Py.raise Py.TypeError
       ("int() argument must be a string, a bytes-like object or a " ++
        "real number, not 'complex'").
Proof.
  apply (fractional_power_of_a_negative imaginary_unit_libm
           (Ast.UnaryOp Ast.USub (num 1))
           (Ast.Constant (Ast.CFloat (S754_finite false 4503599627370496 (-53))))
           (S754_finite true 4503599627370496 (-52))
           (S754_finite false 4503599627370496 (-53)));
    reflexivity.
Defined.

Example sqrt_of_minus_one :
  evaluate_expression imaginary_unit_libm (fun _ => "invalid syntax")
    "(-1) ** 0.5" =
    Some (Py.Return
            (Py.VComplex (S754_finite false 4967757600021511 (-106)) F64.one))
  /\ repl_loop imaginary_unit_libm (fun _ => "invalid syntax")
       [Line "(-1) ** 0.5"; Line "1+1"] [] =
     Some ([Input "calc> "],
           Py.raise Py.TypeError
             ("int() argument must be a string, a bytes-like object or a " ++
              "real number, not 'complex'")).
Proof. split; reflexivity. Qed.

Lemma format_result_fails_only_on_nan_witness :
  F64.is_nan (F64.of_Z 4) = false <->
  exists text, format_result (F64.of_Z 4) = Py.Return text.
Proof. apply (format_result_fails_only_on_nan (F64.of_Z 4)). reflexivity. Defined.

Lemma integers_are_echoed_witness :
  evaluate_expression Py.exact_powers_libm (fun _ => "invalid syntax") "42" =
    Some (Py.Return (Py.VFloat (F64.of_Z 42)))
  /\ format_result (F64.of_Z 42) = Py.Return "42"
  /\ repl_line Py.exact_powers_libm (fun _ => "invalid syntax") [] "42" =
     Some ([Print "42"], Next [("42", "42")]).
Proof.
  apply (integers_are_echoed Py.exact_powers_libm (fun _ => "invalid syntax")
           [] 42).
  lia.
Defined.

(** ** The order of the operands *)

Section Operands.

Variable libm : Py.Libm.

Lemma eval_args_raises (before after : list Ast.expr) (a : Ast.expr)
    (vs : list Py.value) (e : Py.exception) :
  eval_args libm before = Py.Return vs ->
  safe_eval_expr libm a = Py.Raise e ->
  eval_args libm (before ++ a :: after) = Py.Raise e.
Proof.
  revert vs. induction before as [|b before IH]; intros vs Hb Ha.
  - cbn [app eval_args]. by rewrite Ha.
  - cbn [app eval_args] in *.
    destruct (safe_eval_expr libm b) as [v | e1]; [|discriminate Hb].
    cbn [mbind Py.result_bind Py.bind] in *.
    destruct (eval_args libm before) as [vs' | e2] eqn:E; [|discriminate Hb].
    by rewrite (IH vs').
Qed.

(** X17. The exception of an operand leaves [safe_eval] as it is, before the
    operator or the function is looked at: the left operand first, then
    the right one; the arguments of a call of the table from left to
    right. It is not wrapped in the [EvalError] of the operation, and it
    comes before the refusal of an operator that is not allowed. *)
Theorem operand_errors_come_first (l r : Ast.expr) (e : Py.exception) :
  (safe_eval_expr libm l = Py.Raise e ->
   (forall op, safe_eval_expr libm (Ast.BinOp l op r) = Py.Raise e) /\
   (forall op, safe_eval_expr libm (Ast.UnaryOp op l) = Py.Raise e))
  /\ (forall x,
        safe_eval_expr libm l = Py.Return x ->
        safe_eval_expr libm r = Py.Raise e ->
        forall op, safe_eval_expr libm (Ast.BinOp l op r) = Py.Raise e)
  /\ (forall name before after vs kws,
        name ∈ allowed_functions ->
        eval_args libm before = Py.Return vs ->
        safe_eval_expr libm l = Py.Raise e ->
        safe_eval_expr libm
          (Ast.Call (Ast.Name name) (before ++ l :: after) kws) =
          Py.Raise e).
Proof.
  split_and!.
  - intros Hl. split; intros op.
    + by rewrite safe_eval_BinOp, Hl.
    + by rewrite safe_eval_UnaryOp, Hl.
  - intros x Hl Hr op. by rewrite safe_eval_BinOp, Hl, Hr.
  - intros name before after vs kws Hin Hb Hl.
    rewrite safe_eval_Call_allowed by done.
    by rewrite (eval_args_raises before after l vs e).
Qed.

End Operands.

(** ** Blanks around a line *)

Lemma lstrip_fixed (l : list ascii) :
  match l with [] => True | c :: _ => Parser.is_blank c = false end ->
  Str.lstrip l = l.
Proof. destruct l as [|c l]; [done|]. cbn [Str.lstrip]. by intros ->. Qed.

Lemma lstrip_blanks (blanks l : list ascii) :
  forallb Parser.is_blank blanks = true ->
  Str.lstrip (blanks ++ l) = Str.lstrip l.
Proof.
  induction blanks as [|c blanks IH]; [done|]. cbn [forallb app Str.lstrip].
  intros [-> H]%andb_prop. by apply IH.
Qed.

Lemma forallb_rev {A : Type} (p : A -> bool) (l : list A) :
  forallb p (rev l) = forallb p l.
Proof.
  induction l as [|a l IH]; [done|]. cbn [rev forallb].
  rewrite forallb_app, IH. cbn [forallb]. rewrite andb_true_r.
  apply andb_comm.
Qed.

(** [strip] takes the blanks off both ends of a text, and nothing else. *)
Lemma strip_between (before core after : list ascii) :
  forallb Parser.is_blank before = true ->
  forallb Parser.is_blank after = true ->
  match core with [] => True | c :: _ => Parser.is_blank c = false end ->
  match rev core with [] => True | c :: _ => Parser.is_blank c = false end ->
  Str.strip (string_of_list_ascii (before ++ core ++ after)) =
  string_of_list_ascii core.
Proof.
  intros Hb Ha Hfirst Hlast. unfold Str.strip.
  rewrite list_ascii_of_string_of_list_ascii, (lstrip_blanks before _ Hb).
  f_equal. destruct core as [|c core].
  - cbn [app]. rewrite <- (app_nil_r after), (lstrip_blanks after [] Ha).
    reflexivity.
  - rewrite (lstrip_fixed ((c :: core) ++ after)) by exact Hfirst.
    rewrite rev_app_distr, lstrip_blanks by (by rewrite forallb_rev).
    rewrite (lstrip_fixed _ Hlast). apply rev_involutive.
Qed.

Lemma blank_is_modelled (l : list ascii) :
  forallb Parser.is_blank l = true -> forallb Parser.modelled_char l = true.
Proof.
  induction l as [|c l IH]; [done|]. cbn [forallb].
  intros [Hc H]%andb_prop. rewrite (IH H), andb_true_r.
  unfold Parser.is_blank in Hc. unfold Parser.modelled_char.
  apply orb_prop in Hc as [Hc | Hc]; apply Nat.eqb_eq in Hc; rewrite Hc;
    reflexivity.
Qed.

Section Blanks.

Variable libm : Py.Libm.
Variable syntax_error_msg : string -> string.

(** X18. The loop strips a line before it looks at it: on a line made of
    blanks, then a text that neither starts nor ends with a blank, then
    blanks, the body of the loop runs on that text alone, so the answer
    and the entry of the history are those of the text without the blanks
    around it. A line of blanks only, like the empty line, is skipped:
    nothing is printed and the history is kept. *)
Theorem blanks_around_a_line_are_ignored (history : history_t)
    (rest : list input_event) (before core after : list ascii) :
  forallb Parser.is_blank before = true ->
  forallb Parser.is_blank after = true ->
  forallb Parser.modelled_char core = true ->
  match core with [] => True | c :: _ => Parser.is_blank c = false end ->
  match rev core with [] => True | c :: _ => Parser.is_blank c = false end ->
  repl_loop libm syntax_error_msg
    (Line (string_of_list_ascii (before ++ core ++ after)) :: rest) history =
    ('(out, c) ← repl_line libm syntax_error_msg history
                   (string_of_list_ascii core);
     match c with
     | Next history' =>
         '(out', r) ← repl_loop libm syntax_error_msg rest history';
         Some (Input "calc> " :: (out ++ out')%list, r)
     | Break => Some (Input "calc> " :: out, Py.Return tt)
     | Uncaught e => Some (Input "calc> " :: out, Py.Raise e)
     end)
  /\ repl_loop libm syntax_error_msg
       (Line (string_of_list_ascii (before ++ after)) :: rest) history =
     ('(out, r) ← repl_loop libm syntax_error_msg rest history;
      Some (Input "calc> " :: out, r)).
Proof.
  intros Hb Ha Hm Hfirst Hlast.
  pose proof (blank_is_modelled _ Hb) as Hmb.
  pose proof (blank_is_modelled _ Ha) as Hma.
  split.
  - cbn [repl_loop]. rewrite list_ascii_of_string_of_list_ascii.
    rewrite !forallb_app, Hmb, Hm, Hma. cbn [andb negb].
    by rewrite strip_between.
  - cbn [repl_loop]. rewrite list_ascii_of_string_of_list_ascii.
    rewrite forallb_app, Hmb, Hma. cbn [andb negb].
    pose proof (strip_between before [] after Hb Ha I I) as Hs.
    cbn [app] in Hs. rewrite Hs.
    unfold repl_line. cbn.
    by destruct (repl_loop libm syntax_error_msg rest history) as [[out r]|].
Qed.

End Blanks.

(** ** The verdict of [run_tests] *)

Section Verdict.

Variable libm : Py.Libm.
Variable syntax_error_msg : string -> string.

(** X19. [run_tests] prints one line for every entry of its table, and its
    verdict is [True] exactly when each of them is an [OK] line. *)
Theorem run_tests_verdict (l : list (string * Z)) (ok b : bool)
    (out : list effect) :
  run_tests_from libm syntax_error_msg l ok = Some (out, Py.Return b) ->
  length out = length l /\
  (b = true <->
   ok = true /\
   Forall (fun line => exists text, line = Print ("OK:   " ++ text)) out).
Proof.
  revert ok b out. induction l as [|[expr expected] l IH]; intros ok b out.
  - intros [= <- <-]. split; [done|]. split; [by intros -> | by intros [-> _]].
  - cbn [run_tests_from].
    destruct (evaluate_expression libm syntax_error_msg expr)
      as [[got | e] |]; cbn [mbind option_bind]; [ | | discriminate].
    + match goal with |- context [match ?x with _ => _ end] =>
        destruct x as [a | e] end; [|discriminate].
      destruct (F64.gtb a c_1e_9).
      * destruct (run_tests_from libm syntax_error_msg l false)
          as [[out' res] |] eqn:E; cbn; [|discriminate].
        intros [= <- ->]. destruct (IH _ _ _ E) as [Hlen Hb].
        split; [cbn; by rewrite Hlen|]. split.
        -- intros ->. destruct Hb as [Hb _].
           by destruct (Hb eq_refl) as [? _]. 
        -- intros [_ H]. inversion H as [|? ? [text Ht] _]. discriminate Ht.
      * destruct (run_tests_from libm syntax_error_msg l ok)
          as [[out' res] |] eqn:E; cbn; [|discriminate].
        intros [= <- ->]. destruct (IH _ _ _ E) as [Hlen Hb].
        split; [cbn; by rewrite Hlen|]. rewrite Hb. split.
        -- intros [-> H]. split; [done|]. constructor; [eauto | done].
        -- intros [-> H]. split; [done|]. by inversion H.
    + destruct (Py.issubclass (Py.exc_class e) Py.EvalError); [|discriminate].
      destruct (run_tests_from libm syntax_error_msg l false)
        as [[out' res] |] eqn:E; cbn; [|discriminate].
      intros [= <- ->]. destruct (IH _ _ _ E) as [Hlen Hb].
      split; [cbn; by rewrite Hlen|]. split.
      * intros ->. destruct Hb as [Hb _].
           by destruct (Hb eq_refl) as [? _].
      * intros [_ H]. inversion H as [|? ? [text Ht] _]. discriminate Ht.
Qed.

End Verdict.

(** ** The theorems above at an input *)

Lemma binary_operators_raise_only_EvalError_witness :
  ((exists v,
      safe_eval_expr Py.exact_powers_libm (Ast.BinOp (num 1) Ast.Mod (num 0)) =
        Py.Return v)
   \/ (exists text,
         safe_eval_expr Py.exact_powers_libm
           (Ast.BinOp (num 1) Ast.Mod (num 0)) =
           Py.raise Py.EvalError ("Error evaluating binary op: " ++ text))
   \/ safe_eval_expr Py.exact_powers_libm (Ast.BinOp (num 1) Ast.Mod (num 0)) =
        Py.raise Py.EvalError
          ("Operator " ++ Ast.operator_name Ast.Mod ++ " not allowed"))
  /\ (Ast.Mod = Ast.Add \/ Ast.Mod = Ast.Sub \/ Ast.Mod = Ast.Mult ->
      exists v,
        safe_eval_expr Py.exact_powers_libm
          (Ast.BinOp (num 1) Ast.Mod (num 0)) = Py.Return v).
Proof.
  apply (binary_operators_raise_only_EvalError Py.exact_powers_libm
           (num 1) (num 0) Ast.Mod
           (Py.VFloat (F64.of_Z 1)) (Py.VFloat (F64.of_Z 0)));
    reflexivity.
Defined.

Example modulo_by_zero :
  safe_eval_expr Py.exact_powers_libm (Ast.BinOp (num 1) Ast.Mod (num 0)) =
    Py.raise Py.EvalError "Error evaluating binary op: float modulo".
Proof. reflexivity. Qed.

Lemma no_ValueError_or_TypeError_witness :
  Py.exc_class
    (Py.Exc Py.EvalError "Error calling sqrt: math domain error") <>
    Py.ValueError
  /\ Py.exc_class
       (Py.Exc Py.EvalError "Error calling sqrt: math domain error") <>
     Py.TypeError.
Proof.
  apply (no_ValueError_or_TypeError Py.exact_powers_libm
           (Ast.Call (Ast.Name "sqrt") [Ast.UnaryOp Ast.USub (num 1)] [])).
  reflexivity.
Defined.

Lemma operand_errors_come_first_witness :
  safe_eval_expr Py.exact_powers_libm
    (Ast.BinOp (Ast.Name "foo") Ast.MatMult (Ast.Name "bar")) =
    Py.raise Py.EvalError "Undefined variable: foo"
  /\ safe_eval_expr Py.exact_powers_libm
       (Ast.Call (Ast.Name "sqrt") [num 4; Ast.Name "foo"] []) =
     Py.raise Py.EvalError "Undefined variable: foo".
Proof.
  destruct (operand_errors_come_first Py.exact_powers_libm
              (Ast.Name "foo") (Ast.Name "bar")
              (Py.Exc Py.EvalError "Undefined variable: foo"))
    as (H1 & _ & H3).
  split.
  - destruct (H1 eq_refl) as [H _]. exact (H Ast.MatMult).
  - apply (H3 "sqrt" [num 4] [] [Py.VFloat (F64.of_Z 4)] []);
      [compute_done | reflexivity | reflexivity].
Defined.

(** [  1+1 ] is answered as [1+1] is, and [1+1] is what the history
    shows; a line of three blanks is skipped. *)
Lemma blanks_around_a_line_are_ignored_witness :
  repl_loop Py.exact_powers_libm (fun _ => "invalid syntax")
    [Line "  1+1 "; Line "history"] [] =
    Some ([Input "calc> "; Print "2"; Input "calc> ";
           Print (String "010" "=== Calculation History ===");
           Print " 1. 1+1 = 2";
           Print ("===========================" ++ String "010" "");
           Input "calc> "; Print ""],
          Py.Return tt)
  /\ repl_loop Py.exact_powers_libm (fun _ => "invalid syntax")
       [Line "   "; Line "history"] [] =
     Some ([Input "calc> "; Input "calc> ";
            Print "No calculation history yet."; Input "calc> "; Print ""],
           Py.Return tt).
Proof.
  exact (blanks_around_a_line_are_ignored Py.exact_powers_libm
           (fun _ => "invalid syntax") [] [Line "history"]
           [" "; " "]%char ["1"; "+"; "1"]%char [" "]%char
           eq_refl eq_refl eq_refl eq_refl eq_refl).
Defined.

Lemma run_tests_verdict_witness :
  length [Print "OK:   1+1 = 2.0";
          Print "FAIL: 1/0 -> raised EvalError: Error evaluating binary op: float division by zero"] =
    length [("1+1", 2); ("1/0", 0)]
  /\ (false = true <->
      true = true /\
      Forall (fun line => exists text, line = Print ("OK:   " ++ text))
        [Print "OK:   1+1 = 2.0";
         Print "FAIL: 1/0 -> raised EvalError: Error evaluating binary op: float division by zero"]).
Proof.
  apply (run_tests_verdict Py.exact_powers_libm (fun _ => "invalid syntax")
           [("1+1", 2); ("1/0", 0)] true false).
  reflexivity.
Defined.
